(** * ParaSAFE: barrier clock, shared state, controllers and event runtime

    A shallow embedding of the simulation kernel of ParaSAFE
    (SimulationClock, SharedStateSpace, StateUpdateQueue, StateManagerThread,
    ACForceModel, DynamicsModel_FixedWing_Linear, the throttle / brake /
    cruise controllers, EventMonitorThread, ControllerManagerThread,
    ControllerActionsConfig and FileLogger) together with the properties
    that the design document states about them.

    Conventions.
    - A C++ [double] is an exact rational [Q]; comparisons are the decidable
      ones of [Q] and equalities between computed values are stated with
      [==].  Fields that are only copied are compared with [=].
    - [std::atomic<uint64_t>] and [std::atomic<int>] are [Z] with the
      wrap-around written out ([wrap_u64], [wrap_i32]).
    - [std::unordered_map<std::string, _>] and [std::map<std::string, _>]
      are [gmap string _]; iteration over a [std::map] is in key order and
      is written out where the source depends on it.
    - A thread is a sequence of atomic steps; a run of the system is a list
      of such steps in some interleaving.  Log output is kept as a list of
      log entries (most recent first) where a property speaks about it. *)

From Stdlib Require Import ZArith QArith Qabs Qminmax Qround Lia Lqa Bool List.
From Stdlib Require Import Sorted.
From stdpp Require Import base gmap strings list.
Import ListNotations.

Local Open Scope Z_scope.

(** ** Machine integers *)

Definition wrap_u64 (z : Z) : Z := z mod 2 ^ 64.

Definition wrap_i32 (z : Z) : Z := (z + 2 ^ 31) mod 2 ^ 32 - 2 ^ 31.

(** ** Rational helpers standing for [std::min], [std::max], [std::abs] *)

Definition Qltb (a b : Q) : bool := negb (Qle_bool b a).

(** [std::min(a, b)] is [(b < a) ? b : a]. *)
Definition std_min (a b : Q) : Q := if Qltb b a then b else a.

(** [std::max(a, b)] is [(a < b) ? b : a]. *)
Definition std_max (a b : Q) : Q := if Qltb a b then b else a.

Definition std_abs (a : Q) : Q := if Qltb a 0 then (- a)%Q else a.

(** ** shared_state.hpp *)

Record StateSnapshot : Type := {
  snap_position : Q;
  snap_velocity : Q;
  snap_acceleration : Q;
  snap_throttle : Q;
  snap_brake : Q;
  snap_thrust : Q;
  snap_drag_force : Q;
  snap_brake_force : Q;
  snap_simulation_time : Q;
  snap_pitch_angle : Q;
  snap_pitch_rate : Q;
  snap_pitch_control_output : Q
}.

Inductive FlightMode : Type := MANUAL | AUTO | SEMI_AUTO.

Record ControlAuthority : Type := {
  pilot_has_throttle_control : bool;
  pilot_has_brake_control : bool;
  auto_system_has_throttle_control : bool;
  auto_system_has_brake_control : bool
}.

(** The atomic members of [SharedStateSpace], the snapshot record
    [current_state] and its version counter.  Mutexes, condition variables
    and the clock pointer carry no data and are left out. *)
Record SharedStateSpace : Type := {
  position : Q;
  velocity : Q;
  acceleration : Q;
  throttle : Q;
  brake : Q;
  simulation_time : Q;
  thrust : Q;
  brake_force : Q;
  drag_force : Q;
  simulation_running : bool;
  simulation_started : bool;
  final_stop_enabled : bool;
  throttle_control_enabled : bool;
  brake_control_enabled : bool;
  cruise_control_enabled : bool;
  abort_triggered : bool;
  system_ready : bool;
  user_confirmed : bool;
  target_speed : Q;
  abort_speed : Q;
  abort_speed_threshold : Q;
  zero_velocity_count : Z;
  pitch_angle : Q;
  pitch_rate : Q;
  pitch_control_output : Q;
  pitch_control_enabled : bool;
  current_state : StateSnapshot;
  state_version : Z;
  flight_mode : FlightMode;
  control_auth : ControlAuthority;
  dt : Q
}.

Definition store_position (x : Q) (s : SharedStateSpace) : SharedStateSpace :=
  {| position := x; velocity := velocity s; acceleration := acceleration s;
     throttle := throttle s; brake := brake s;
     simulation_time := simulation_time s; thrust := thrust s;
     brake_force := brake_force s; drag_force := drag_force s;
     simulation_running := simulation_running s;
     simulation_started := simulation_started s;
     final_stop_enabled := final_stop_enabled s;
     throttle_control_enabled := throttle_control_enabled s;
     brake_control_enabled := brake_control_enabled s;
     cruise_control_enabled := cruise_control_enabled s;
     abort_triggered := abort_triggered s; system_ready := system_ready s;
     user_confirmed := user_confirmed s; target_speed := target_speed s;
     abort_speed := abort_speed s;
     abort_speed_threshold := abort_speed_threshold s;
     zero_velocity_count := zero_velocity_count s;
     pitch_angle := pitch_angle s; pitch_rate := pitch_rate s;
     pitch_control_output := pitch_control_output s;
     pitch_control_enabled := pitch_control_enabled s;
     current_state := current_state s; state_version := state_version s;
     flight_mode := flight_mode s; control_auth := control_auth s;
     dt := dt s |}.

Definition store_velocity (x : Q) (s : SharedStateSpace) : SharedStateSpace :=
  {| position := position s; velocity := x; acceleration := acceleration s;
     throttle := throttle s; brake := brake s;
     simulation_time := simulation_time s; thrust := thrust s;
     brake_force := brake_force s; drag_force := drag_force s;
     simulation_running := simulation_running s;
     simulation_started := simulation_started s;
     final_stop_enabled := final_stop_enabled s;
     throttle_control_enabled := throttle_control_enabled s;
     brake_control_enabled := brake_control_enabled s;
     cruise_control_enabled := cruise_control_enabled s;
     abort_triggered := abort_triggered s; system_ready := system_ready s;
     user_confirmed := user_confirmed s; target_speed := target_speed s;
     abort_speed := abort_speed s;
     abort_speed_threshold := abort_speed_threshold s;
     zero_velocity_count := zero_velocity_count s;
     pitch_angle := pitch_angle s; pitch_rate := pitch_rate s;
     pitch_control_output := pitch_control_output s;
     pitch_control_enabled := pitch_control_enabled s;
     current_state := current_state s; state_version := state_version s;
     flight_mode := flight_mode s; control_auth := control_auth s;
     dt := dt s |}.

Definition store_acceleration (x : Q) (s : SharedStateSpace) : SharedStateSpace :=
  {| position := position s; velocity := velocity s; acceleration := x;
     throttle := throttle s; brake := brake s;
     simulation_time := simulation_time s; thrust := thrust s;
     brake_force := brake_force s; drag_force := drag_force s;
     simulation_running := simulation_running s;
     simulation_started := simulation_started s;
     final_stop_enabled := final_stop_enabled s;
     throttle_control_enabled := throttle_control_enabled s;
     brake_control_enabled := brake_control_enabled s;
     cruise_control_enabled := cruise_control_enabled s;
     abort_triggered := abort_triggered s; system_ready := system_ready s;
     user_confirmed := user_confirmed s; target_speed := target_speed s;
     abort_speed := abort_speed s;
     abort_speed_threshold := abort_speed_threshold s;
     zero_velocity_count := zero_velocity_count s;
     pitch_angle := pitch_angle s; pitch_rate := pitch_rate s;
     pitch_control_output := pitch_control_output s;
     pitch_control_enabled := pitch_control_enabled s;
     current_state := current_state s; state_version := state_version s;
     flight_mode := flight_mode s; control_auth := control_auth s;
     dt := dt s |}.

Definition store_throttle (x : Q) (s : SharedStateSpace) : SharedStateSpace :=
  {| position := position s; velocity := velocity s;
     acceleration := acceleration s; throttle := x; brake := brake s;
     simulation_time := simulation_time s; thrust := thrust s;
     brake_force := brake_force s; drag_force := drag_force s;
     simulation_running := simulation_running s;
     simulation_started := simulation_started s;
     final_stop_enabled := final_stop_enabled s;
     throttle_control_enabled := throttle_control_enabled s;
     brake_control_enabled := brake_control_enabled s;
     cruise_control_enabled := cruise_control_enabled s;
     abort_triggered := abort_triggered s; system_ready := system_ready s;
     user_confirmed := user_confirmed s; target_speed := target_speed s;
     abort_speed := abort_speed s;
     abort_speed_threshold := abort_speed_threshold s;
     zero_velocity_count := zero_velocity_count s;
     pitch_angle := pitch_angle s; pitch_rate := pitch_rate s;
     pitch_control_output := pitch_control_output s;
     pitch_control_enabled := pitch_control_enabled s;
     current_state := current_state s; state_version := state_version s;
     flight_mode := flight_mode s; control_auth := control_auth s;
     dt := dt s |}.

Definition store_brake (x : Q) (s : SharedStateSpace) : SharedStateSpace :=
  {| position := position s; velocity := velocity s;
     acceleration := acceleration s; throttle := throttle s; brake := x;
     simulation_time := simulation_time s; thrust := thrust s;
     brake_force := brake_force s; drag_force := drag_force s;
     simulation_running := simulation_running s;
     simulation_started := simulation_started s;
     final_stop_enabled := final_stop_enabled s;
     throttle_control_enabled := throttle_control_enabled s;
     brake_control_enabled := brake_control_enabled s;
     cruise_control_enabled := cruise_control_enabled s;
     abort_triggered := abort_triggered s; system_ready := system_ready s;
     user_confirmed := user_confirmed s; target_speed := target_speed s;
     abort_speed := abort_speed s;
     abort_speed_threshold := abort_speed_threshold s;
     zero_velocity_count := zero_velocity_count s;
     pitch_angle := pitch_angle s; pitch_rate := pitch_rate s;
     pitch_control_output := pitch_control_output s;
     pitch_control_enabled := pitch_control_enabled s;
     current_state := current_state s; state_version := state_version s;
     flight_mode := flight_mode s; control_auth := control_auth s;
     dt := dt s |}.

Definition store_simulation_time (x : Q) (s : SharedStateSpace) : SharedStateSpace :=
  {| position := position s; velocity := velocity s;
     acceleration := acceleration s; throttle := throttle s;
     brake := brake s; simulation_time := x; thrust := thrust s;
     brake_force := brake_force s; drag_force := drag_force s;
     simulation_running := simulation_running s;
     simulation_started := simulation_started s;
     final_stop_enabled := final_stop_enabled s;
     throttle_control_enabled := throttle_control_enabled s;
     brake_control_enabled := brake_control_enabled s;
     cruise_control_enabled := cruise_control_enabled s;
     abort_triggered := abort_triggered s; system_ready := system_ready s;
     user_confirmed := user_confirmed s; target_speed := target_speed s;
     abort_speed := abort_speed s;
     abort_speed_threshold := abort_speed_threshold s;
     zero_velocity_count := zero_velocity_count s;
     pitch_angle := pitch_angle s; pitch_rate := pitch_rate s;
     pitch_control_output := pitch_control_output s;
     pitch_control_enabled := pitch_control_enabled s;
     current_state := current_state s; state_version := state_version s;
     flight_mode := flight_mode s; control_auth := control_auth s;
     dt := dt s |}.

Definition store_thrust (x : Q) (s : SharedStateSpace) : SharedStateSpace :=
  {| position := position s; velocity := velocity s;
     acceleration := acceleration s; throttle := throttle s;
     brake := brake s; simulation_time := simulation_time s; thrust := x;
     brake_force := brake_force s; drag_force := drag_force s;
     simulation_running := simulation_running s;
     simulation_started := simulation_started s;
     final_stop_enabled := final_stop_enabled s;
     throttle_control_enabled := throttle_control_enabled s;
     brake_control_enabled := brake_control_enabled s;
     cruise_control_enabled := cruise_control_enabled s;
     abort_triggered := abort_triggered s; system_ready := system_ready s;
     user_confirmed := user_confirmed s; target_speed := target_speed s;
     abort_speed := abort_speed s;
     abort_speed_threshold := abort_speed_threshold s;
     zero_velocity_count := zero_velocity_count s;
     pitch_angle := pitch_angle s; pitch_rate := pitch_rate s;
     pitch_control_output := pitch_control_output s;
     pitch_control_enabled := pitch_control_enabled s;
     current_state := current_state s; state_version := state_version s;
     flight_mode := flight_mode s; control_auth := control_auth s;
     dt := dt s |}.

Definition store_brake_force (x : Q) (s : SharedStateSpace) : SharedStateSpace :=
  {| position := position s; velocity := velocity s;
     acceleration := acceleration s; throttle := throttle s;
     brake := brake s; simulation_time := simulation_time s;
     thrust := thrust s; brake_force := x; drag_force := drag_force s;
     simulation_running := simulation_running s;
     simulation_started := simulation_started s;
     final_stop_enabled := final_stop_enabled s;
     throttle_control_enabled := throttle_control_enabled s;
     brake_control_enabled := brake_control_enabled s;
     cruise_control_enabled := cruise_control_enabled s;
     abort_triggered := abort_triggered s; system_ready := system_ready s;
     user_confirmed := user_confirmed s; target_speed := target_speed s;
     abort_speed := abort_speed s;
     abort_speed_threshold := abort_speed_threshold s;
     zero_velocity_count := zero_velocity_count s;
     pitch_angle := pitch_angle s; pitch_rate := pitch_rate s;
     pitch_control_output := pitch_control_output s;
     pitch_control_enabled := pitch_control_enabled s;
     current_state := current_state s; state_version := state_version s;
     flight_mode := flight_mode s; control_auth := control_auth s;
     dt := dt s |}.

Definition store_drag_force (x : Q) (s : SharedStateSpace) : SharedStateSpace :=
  {| position := position s; velocity := velocity s;
     acceleration := acceleration s; throttle := throttle s;
     brake := brake s; simulation_time := simulation_time s;
     thrust := thrust s; brake_force := brake_force s; drag_force := x;
     simulation_running := simulation_running s;
     simulation_started := simulation_started s;
     final_stop_enabled := final_stop_enabled s;
     throttle_control_enabled := throttle_control_enabled s;
     brake_control_enabled := brake_control_enabled s;
     cruise_control_enabled := cruise_control_enabled s;
     abort_triggered := abort_triggered s; system_ready := system_ready s;
     user_confirmed := user_confirmed s; target_speed := target_speed s;
     abort_speed := abort_speed s;
     abort_speed_threshold := abort_speed_threshold s;
     zero_velocity_count := zero_velocity_count s;
     pitch_angle := pitch_angle s; pitch_rate := pitch_rate s;
     pitch_control_output := pitch_control_output s;
     pitch_control_enabled := pitch_control_enabled s;
     current_state := current_state s; state_version := state_version s;
     flight_mode := flight_mode s; control_auth := control_auth s;
     dt := dt s |}.

Definition store_throttle_control_enabled (x : bool) (s : SharedStateSpace) : SharedStateSpace :=
  {| position := position s; velocity := velocity s;
     acceleration := acceleration s; throttle := throttle s;
     brake := brake s; simulation_time := simulation_time s;
     thrust := thrust s; brake_force := brake_force s;
     drag_force := drag_force s; simulation_running := simulation_running s;
     simulation_started := simulation_started s;
     final_stop_enabled := final_stop_enabled s;
     throttle_control_enabled := x;
     brake_control_enabled := brake_control_enabled s;
     cruise_control_enabled := cruise_control_enabled s;
     abort_triggered := abort_triggered s; system_ready := system_ready s;
     user_confirmed := user_confirmed s; target_speed := target_speed s;
     abort_speed := abort_speed s;
     abort_speed_threshold := abort_speed_threshold s;
     zero_velocity_count := zero_velocity_count s;
     pitch_angle := pitch_angle s; pitch_rate := pitch_rate s;
     pitch_control_output := pitch_control_output s;
     pitch_control_enabled := pitch_control_enabled s;
     current_state := current_state s; state_version := state_version s;
     flight_mode := flight_mode s; control_auth := control_auth s;
     dt := dt s |}.

Definition store_brake_control_enabled (x : bool) (s : SharedStateSpace) : SharedStateSpace :=
  {| position := position s; velocity := velocity s;
     acceleration := acceleration s; throttle := throttle s;
     brake := brake s; simulation_time := simulation_time s;
     thrust := thrust s; brake_force := brake_force s;
     drag_force := drag_force s; simulation_running := simulation_running s;
     simulation_started := simulation_started s;
     final_stop_enabled := final_stop_enabled s;
     throttle_control_enabled := throttle_control_enabled s;
     brake_control_enabled := x;
     cruise_control_enabled := cruise_control_enabled s;
     abort_triggered := abort_triggered s; system_ready := system_ready s;
     user_confirmed := user_confirmed s; target_speed := target_speed s;
     abort_speed := abort_speed s;
     abort_speed_threshold := abort_speed_threshold s;
     zero_velocity_count := zero_velocity_count s;
     pitch_angle := pitch_angle s; pitch_rate := pitch_rate s;
     pitch_control_output := pitch_control_output s;
     pitch_control_enabled := pitch_control_enabled s;
     current_state := current_state s; state_version := state_version s;
     flight_mode := flight_mode s; control_auth := control_auth s;
     dt := dt s |}.

Definition store_cruise_control_enabled (x : bool) (s : SharedStateSpace) : SharedStateSpace :=
  {| position := position s; velocity := velocity s;
     acceleration := acceleration s; throttle := throttle s;
     brake := brake s; simulation_time := simulation_time s;
     thrust := thrust s; brake_force := brake_force s;
     drag_force := drag_force s; simulation_running := simulation_running s;
     simulation_started := simulation_started s;
     final_stop_enabled := final_stop_enabled s;
     throttle_control_enabled := throttle_control_enabled s;
     brake_control_enabled := brake_control_enabled s;
     cruise_control_enabled := x; abort_triggered := abort_triggered s;
     system_ready := system_ready s; user_confirmed := user_confirmed s;
     target_speed := target_speed s; abort_speed := abort_speed s;
     abort_speed_threshold := abort_speed_threshold s;
     zero_velocity_count := zero_velocity_count s;
     pitch_angle := pitch_angle s; pitch_rate := pitch_rate s;
     pitch_control_output := pitch_control_output s;
     pitch_control_enabled := pitch_control_enabled s;
     current_state := current_state s; state_version := state_version s;
     flight_mode := flight_mode s; control_auth := control_auth s;
     dt := dt s |}.

Definition store_pitch_control_enabled (x : bool) (s : SharedStateSpace) : SharedStateSpace :=
  {| position := position s; velocity := velocity s;
     acceleration := acceleration s; throttle := throttle s;
     brake := brake s; simulation_time := simulation_time s;
     thrust := thrust s; brake_force := brake_force s;
     drag_force := drag_force s; simulation_running := simulation_running s;
     simulation_started := simulation_started s;
     final_stop_enabled := final_stop_enabled s;
     throttle_control_enabled := throttle_control_enabled s;
     brake_control_enabled := brake_control_enabled s;
     cruise_control_enabled := cruise_control_enabled s;
     abort_triggered := abort_triggered s; system_ready := system_ready s;
     user_confirmed := user_confirmed s; target_speed := target_speed s;
     abort_speed := abort_speed s;
     abort_speed_threshold := abort_speed_threshold s;
     zero_velocity_count := zero_velocity_count s;
     pitch_angle := pitch_angle s; pitch_rate := pitch_rate s;
     pitch_control_output := pitch_control_output s;
     pitch_control_enabled := x; current_state := current_state s;
     state_version := state_version s; flight_mode := flight_mode s;
     control_auth := control_auth s; dt := dt s |}.

Definition store_current_state (x : StateSnapshot) (s : SharedStateSpace) : SharedStateSpace :=
  {| position := position s; velocity := velocity s;
     acceleration := acceleration s; throttle := throttle s;
     brake := brake s; simulation_time := simulation_time s;
     thrust := thrust s; brake_force := brake_force s;
     drag_force := drag_force s; simulation_running := simulation_running s;
     simulation_started := simulation_started s;
     final_stop_enabled := final_stop_enabled s;
     throttle_control_enabled := throttle_control_enabled s;
     brake_control_enabled := brake_control_enabled s;
     cruise_control_enabled := cruise_control_enabled s;
     abort_triggered := abort_triggered s; system_ready := system_ready s;
     user_confirmed := user_confirmed s; target_speed := target_speed s;
     abort_speed := abort_speed s;
     abort_speed_threshold := abort_speed_threshold s;
     zero_velocity_count := zero_velocity_count s;
     pitch_angle := pitch_angle s; pitch_rate := pitch_rate s;
     pitch_control_output := pitch_control_output s;
     pitch_control_enabled := pitch_control_enabled s; current_state := x;
     state_version := state_version s; flight_mode := flight_mode s;
     control_auth := control_auth s; dt := dt s |}.

Definition store_state_version (x : Z) (s : SharedStateSpace) : SharedStateSpace :=
  {| position := position s; velocity := velocity s;
     acceleration := acceleration s; throttle := throttle s;
     brake := brake s; simulation_time := simulation_time s;
     thrust := thrust s; brake_force := brake_force s;
     drag_force := drag_force s; simulation_running := simulation_running s;
     simulation_started := simulation_started s;
     final_stop_enabled := final_stop_enabled s;
     throttle_control_enabled := throttle_control_enabled s;
     brake_control_enabled := brake_control_enabled s;
     cruise_control_enabled := cruise_control_enabled s;
     abort_triggered := abort_triggered s; system_ready := system_ready s;
     user_confirmed := user_confirmed s; target_speed := target_speed s;
     abort_speed := abort_speed s;
     abort_speed_threshold := abort_speed_threshold s;
     zero_velocity_count := zero_velocity_count s;
     pitch_angle := pitch_angle s; pitch_rate := pitch_rate s;
     pitch_control_output := pitch_control_output s;
     pitch_control_enabled := pitch_control_enabled s;
     current_state := current_state s; state_version := x;
     flight_mode := flight_mode s; control_auth := control_auth s;
     dt := dt s |}.

Definition store_flight_mode (x : FlightMode) (s : SharedStateSpace) : SharedStateSpace :=
  {| position := position s; velocity := velocity s;
     acceleration := acceleration s; throttle := throttle s;
     brake := brake s; simulation_time := simulation_time s;
     thrust := thrust s; brake_force := brake_force s;
     drag_force := drag_force s; simulation_running := simulation_running s;
     simulation_started := simulation_started s;
     final_stop_enabled := final_stop_enabled s;
     throttle_control_enabled := throttle_control_enabled s;
     brake_control_enabled := brake_control_enabled s;
     cruise_control_enabled := cruise_control_enabled s;
     abort_triggered := abort_triggered s; system_ready := system_ready s;
     user_confirmed := user_confirmed s; target_speed := target_speed s;
     abort_speed := abort_speed s;
     abort_speed_threshold := abort_speed_threshold s;
     zero_velocity_count := zero_velocity_count s;
     pitch_angle := pitch_angle s; pitch_rate := pitch_rate s;
     pitch_control_output := pitch_control_output s;
     pitch_control_enabled := pitch_control_enabled s;
     current_state := current_state s; state_version := state_version s;
     flight_mode := x; control_auth := control_auth s; dt := dt s |}.

Definition store_control_auth (x : ControlAuthority) (s : SharedStateSpace) : SharedStateSpace :=
  {| position := position s; velocity := velocity s;
     acceleration := acceleration s; throttle := throttle s;
     brake := brake s; simulation_time := simulation_time s;
     thrust := thrust s; brake_force := brake_force s;
     drag_force := drag_force s; simulation_running := simulation_running s;
     simulation_started := simulation_started s;
     final_stop_enabled := final_stop_enabled s;
     throttle_control_enabled := throttle_control_enabled s;
     brake_control_enabled := brake_control_enabled s;
     cruise_control_enabled := cruise_control_enabled s;
     abort_triggered := abort_triggered s; system_ready := system_ready s;
     user_confirmed := user_confirmed s; target_speed := target_speed s;
     abort_speed := abort_speed s;
     abort_speed_threshold := abort_speed_threshold s;
     zero_velocity_count := zero_velocity_count s;
     pitch_angle := pitch_angle s; pitch_rate := pitch_rate s;
     pitch_control_output := pitch_control_output s;
     pitch_control_enabled := pitch_control_enabled s;
     current_state := current_state s; state_version := state_version s;
     flight_mode := flight_mode s; control_auth := x; dt := dt s |}.

Definition store_target_speed (x : Q) (s : SharedStateSpace) : SharedStateSpace :=
  {| position := position s; velocity := velocity s;
     acceleration := acceleration s; throttle := throttle s;
     brake := brake s; simulation_time := simulation_time s;
     thrust := thrust s; brake_force := brake_force s;
     drag_force := drag_force s; simulation_running := simulation_running s;
     simulation_started := simulation_started s;
     final_stop_enabled := final_stop_enabled s;
     throttle_control_enabled := throttle_control_enabled s;
     brake_control_enabled := brake_control_enabled s;
     cruise_control_enabled := cruise_control_enabled s;
     abort_triggered := abort_triggered s; system_ready := system_ready s;
     user_confirmed := user_confirmed s; target_speed := x;
     abort_speed := abort_speed s;
     abort_speed_threshold := abort_speed_threshold s;
     zero_velocity_count := zero_velocity_count s;
     pitch_angle := pitch_angle s; pitch_rate := pitch_rate s;
     pitch_control_output := pitch_control_output s;
     pitch_control_enabled := pitch_control_enabled s;
     current_state := current_state s; state_version := state_version s;
     flight_mode := flight_mode s; control_auth := control_auth s;
     dt := dt s |}.

Definition store_pitch_control_output (x : Q) (s : SharedStateSpace) : SharedStateSpace :=
  {| position := position s; velocity := velocity s;
     acceleration := acceleration s; throttle := throttle s;
     brake := brake s; simulation_time := simulation_time s;
     thrust := thrust s; brake_force := brake_force s;
     drag_force := drag_force s; simulation_running := simulation_running s;
     simulation_started := simulation_started s;
     final_stop_enabled := final_stop_enabled s;
     throttle_control_enabled := throttle_control_enabled s;
     brake_control_enabled := brake_control_enabled s;
     cruise_control_enabled := cruise_control_enabled s;
     abort_triggered := abort_triggered s; system_ready := system_ready s;
     user_confirmed := user_confirmed s; target_speed := target_speed s;
     abort_speed := abort_speed s;
     abort_speed_threshold := abort_speed_threshold s;
     zero_velocity_count := zero_velocity_count s;
     pitch_angle := pitch_angle s; pitch_rate := pitch_rate s;
     pitch_control_output := x;
     pitch_control_enabled := pitch_control_enabled s;
     current_state := current_state s; state_version := state_version s;
     flight_mode := flight_mode s; control_auth := control_auth s;
     dt := dt s |}.

Definition store_simulation_running (x : bool) (s : SharedStateSpace) : SharedStateSpace :=
  {| position := position s; velocity := velocity s;
     acceleration := acceleration s; throttle := throttle s;
     brake := brake s; simulation_time := simulation_time s;
     thrust := thrust s; brake_force := brake_force s;
     drag_force := drag_force s; simulation_running := x;
     simulation_started := simulation_started s;
     final_stop_enabled := final_stop_enabled s;
     throttle_control_enabled := throttle_control_enabled s;
     brake_control_enabled := brake_control_enabled s;
     cruise_control_enabled := cruise_control_enabled s;
     abort_triggered := abort_triggered s; system_ready := system_ready s;
     user_confirmed := user_confirmed s; target_speed := target_speed s;
     abort_speed := abort_speed s;
     abort_speed_threshold := abort_speed_threshold s;
     zero_velocity_count := zero_velocity_count s;
     pitch_angle := pitch_angle s; pitch_rate := pitch_rate s;
     pitch_control_output := pitch_control_output s;
     pitch_control_enabled := pitch_control_enabled s;
     current_state := current_state s; state_version := state_version s;
     flight_mode := flight_mode s; control_auth := control_auth s;
     dt := dt s |}.

Definition store_simulation_started (x : bool) (s : SharedStateSpace) : SharedStateSpace :=
  {| position := position s; velocity := velocity s;
     acceleration := acceleration s; throttle := throttle s;
     brake := brake s; simulation_time := simulation_time s;
     thrust := thrust s; brake_force := brake_force s;
     drag_force := drag_force s; simulation_running := simulation_running s;
     simulation_started := x; final_stop_enabled := final_stop_enabled s;
     throttle_control_enabled := throttle_control_enabled s;
     brake_control_enabled := brake_control_enabled s;
     cruise_control_enabled := cruise_control_enabled s;
     abort_triggered := abort_triggered s; system_ready := system_ready s;
     user_confirmed := user_confirmed s; target_speed := target_speed s;
     abort_speed := abort_speed s;
     abort_speed_threshold := abort_speed_threshold s;
     zero_velocity_count := zero_velocity_count s;
     pitch_angle := pitch_angle s; pitch_rate := pitch_rate s;
     pitch_control_output := pitch_control_output s;
     pitch_control_enabled := pitch_control_enabled s;
     current_state := current_state s; state_version := state_version s;
     flight_mode := flight_mode s; control_auth := control_auth s;
     dt := dt s |}.

(** [SharedStateSpace::updateState]: copy the snapshot in, bump the version. *)
Definition updateState (new_state : StateSnapshot) (s : SharedStateSpace)
  : SharedStateSpace :=
  store_state_version (wrap_u64 (state_version s + 1))
    (store_current_state new_state s).

(** [SharedStateSpace::getState]: twelve atomic loads, in the order of the
    aggregate initialiser. *)
Definition getState (s : SharedStateSpace) : StateSnapshot :=
  {| snap_position := position s;
     snap_velocity := velocity s;
     snap_acceleration := acceleration s;
     snap_throttle := throttle s;
     snap_brake := brake s;
     snap_thrust := thrust s;
     snap_drag_force := drag_force s;
     snap_brake_force := brake_force s;
     snap_simulation_time := simulation_time s;
     snap_pitch_angle := pitch_angle s;
     snap_pitch_rate := pitch_rate s;
     snap_pitch_control_output := pitch_control_output s |}.

Definition getStateVersion (s : SharedStateSpace) : Z := state_version s.

(** [SharedStateSpace::setFlightMode]: store the mode, then the four
    authority flags of the matching switch arm. *)
Definition setFlightMode (mode : FlightMode) (s : SharedStateSpace)
  : SharedStateSpace :=
  let s1 := store_flight_mode mode s in
  match mode with
  | MANUAL =>
      store_control_auth
        {| pilot_has_throttle_control := true;
           pilot_has_brake_control := true;
           auto_system_has_throttle_control := false;
           auto_system_has_brake_control := false |} s1
  | AUTO =>
      store_control_auth
        {| pilot_has_throttle_control := false;
           pilot_has_brake_control := false;
           auto_system_has_throttle_control := true;
           auto_system_has_brake_control := true |} s1
  | SEMI_AUTO =>
      store_control_auth
        {| pilot_has_throttle_control := true;
           pilot_has_brake_control := true;
           auto_system_has_throttle_control := true;
           auto_system_has_brake_control := true |} s1
  end.

Definition hasControlConflict (s : SharedStateSpace) : bool :=
  (pilot_has_throttle_control (control_auth s)
   && auto_system_has_throttle_control (control_auth s))
  || (pilot_has_brake_control (control_auth s)
      && auto_system_has_brake_control (control_auth s)).

(** A freshly constructed [SharedStateSpace] (the default member
    initialisers).  [current_state] has no initialiser in the source; it is
    taken as all zeros. *)
Definition zero_snapshot : StateSnapshot :=
  {| snap_position := 0; snap_velocity := 0; snap_acceleration := 0;
     snap_throttle := 0; snap_brake := 0; snap_thrust := 0;
     snap_drag_force := 0; snap_brake_force := 0; snap_simulation_time := 0;
     snap_pitch_angle := 0; snap_pitch_rate := 0;
     snap_pitch_control_output := 0 |}.

Definition initial_state : SharedStateSpace :=
  {| position := 0; velocity := 0; acceleration := 0; throttle := 0;
     brake := 0; simulation_time := 0; thrust := 0; brake_force := 0;
     drag_force := 0; simulation_running := false;
     simulation_started := false; final_stop_enabled := false;
     throttle_control_enabled := false; brake_control_enabled := false;
     cruise_control_enabled := false; abort_triggered := false;
     system_ready := false; user_confirmed := false; target_speed := 0;
     abort_speed := 0; abort_speed_threshold := 0; zero_velocity_count := 0;
     pitch_angle := 0; pitch_rate := 0; pitch_control_output := 0;
     pitch_control_enabled := false; current_state := zero_snapshot;
     state_version := 0; flight_mode := MANUAL;
     control_auth :=
       {| pilot_has_throttle_control := true;
          pilot_has_brake_control := true;
          auto_system_has_throttle_control := false;
          auto_system_has_brake_control := false |};
     dt := 1 # 100 |}.

(** ** simulation_clock.hpp *)

Module Clock.

(** The data members of [SimulationClock]. *)
Record SimulationClock : Type := {
  time_steps : Z;            (* std::atomic<uint64_t> *)
  dt : Q;
  running : bool;
  current_time : Q;
  registered_threads : Z;    (* std::atomic<int> *)
  waiting_threads : Z;
  completed_threads : Z;     (* std::atomic<int> *)
  paused : bool
}.

(** The singleton as constructed: [SimulationClock(double step_size = 0.01)]. *)
Definition fresh : SimulationClock :=
  {| time_steps := 0; dt := 0.01; running := false; current_time := 0;
     registered_threads := 0; waiting_threads := 0; completed_threads := 0;
     paused := false |}.

Definition with_running (b : bool) (c : SimulationClock) : SimulationClock :=
  {| time_steps := time_steps c; dt := dt c; running := b;
     current_time := current_time c;
     registered_threads := registered_threads c;
     waiting_threads := waiting_threads c;
     completed_threads := completed_threads c; paused := paused c |}.

Definition with_paused (b : bool) (c : SimulationClock) : SimulationClock :=
  {| time_steps := time_steps c; dt := dt c; running := running c;
     current_time := current_time c;
     registered_threads := registered_threads c;
     waiting_threads := waiting_threads c;
     completed_threads := completed_threads c; paused := b |}.

Definition with_registered (n : Z) (c : SimulationClock) : SimulationClock :=
  {| time_steps := time_steps c; dt := dt c; running := running c;
     current_time := current_time c; registered_threads := n;
     waiting_threads := waiting_threads c;
     completed_threads := completed_threads c; paused := paused c |}.

Definition with_completed (n : Z) (c : SimulationClock) : SimulationClock :=
  {| time_steps := time_steps c; dt := dt c; running := running c;
     current_time := current_time c;
     registered_threads := registered_threads c;
     waiting_threads := waiting_threads c; completed_threads := n;
     paused := paused c |}.

Definition with_dt (d : Q) (c : SimulationClock) : SimulationClock :=
  {| time_steps := time_steps c; dt := d; running := running c;
     current_time := current_time c;
     registered_threads := registered_threads c;
     waiting_threads := waiting_threads c;
     completed_threads := completed_threads c; paused := paused c |}.

(** [current_time.store(current_time.load() + dt); time_steps++;
    cv_step_start.notify_all()]: one tick is published. *)
Definition publish_tick (c : SimulationClock) : SimulationClock :=
  {| time_steps := wrap_u64 (time_steps c + 1); dt := dt c;
     running := running c; current_time := (current_time c + dt c)%Q;
     registered_threads := registered_threads c;
     waiting_threads := waiting_threads c;
     completed_threads := completed_threads c; paused := paused c |}.

(** *** Operations called by the other threads *)

Definition registerThread (c : SimulationClock) : SimulationClock :=
  with_registered (wrap_i32 (registered_threads c + 1)) c.

Definition unregisterThread (c : SimulationClock) : SimulationClock :=
  with_registered (wrap_i32 (registered_threads c - 1)) c.

Definition notifyStepCompleted (c : SimulationClock) : SimulationClock :=
  with_completed (wrap_i32 (completed_threads c + 1)) c.

Definition stop (c : SimulationClock) : SimulationClock :=
  with_running false c.

Definition pause (c : SimulationClock) : SimulationClock :=
  with_paused true c.

Definition resume (c : SimulationClock) : SimulationClock :=
  with_paused false c.

Definition setTimeStep (new_dt : Q) (c : SimulationClock) : SimulationClock :=
  with_dt new_dt c.

Definition getStepCount (c : SimulationClock) : Z := time_steps c.
Definition getCurrentTime (c : SimulationClock) : Q := current_time c.
Definition isRunning (c : SimulationClock) : bool := running c.

(** The predicate of [waitForNextStep(last_processed_step)]: the caller
    goes on when it holds. *)
Definition step_available (last_processed_step : Z) (c : SimulationClock)
  : bool :=
  (last_processed_step <? time_steps c) || negb (running c).

(** *** The thread that executes [start()], by itself

    Where that thread stands: before the call, at
    [cv_step_end.wait] (the barrier, which is also the head of the
    [while (running)] loop), at [cv_step_start.wait] inside the pause
    loop, or after the function has returned. *)
Inductive Location : Type :=
| BeforeStart
| AtBarrier
| AtPauseWait
| Returned.

(** The predicate of [cv_step_end.wait]:
    [completed_threads >= registered_threads || !running]. *)
Definition barrier_open (c : SimulationClock) : bool :=
  (registered_threads c <=? completed_threads c) || negb (running c).

(** The predicate of [cv_step_start.wait] in the pause loop:
    [!paused || !running]. *)
Definition pause_open (c : SimulationClock) : bool :=
  negb (paused c) || negb (running c).

(** One move of the thread in [start()], from one waiting point to the
    next, with no other thread acting during the move and the thread awake
    at the wait it stands at.  [None]: the thread does not get past that
    wait (its predicate is false), or the function has returned.  What the
    other threads can do between two accesses of this thread, and what it
    takes to wake it, is the subject of [ClockThread] further down. *)
Definition clock_step (st : SimulationClock * Location)
  : option (SimulationClock * Location) :=
  let '(c, loc) := st in
  match loc with
  | BeforeStart =>
      if running c then Some (c, Returned)
      else Some (publish_tick (with_paused false (with_running true c)),
                 AtBarrier)
  | AtBarrier =>
      if negb (running c) then Some (c, Returned)
      else if barrier_open c then
        let c1 := with_completed 0 c in
        if paused c1 then Some (c1, AtPauseWait)
        else Some (publish_tick c1, AtBarrier)
      else None
  | AtPauseWait =>
      if negb (running c) then Some (c, Returned)
      else if pause_open c then Some (publish_tick c, AtBarrier)
      else None
  | Returned => None
  end.

(** [k] moves in a row. *)
Fixpoint clock_moves (k : nat) (st : SimulationClock * Location)
  : option (SimulationClock * Location) :=
  match k with
  | O => Some st
  | S k' =>
      match clock_step st with
      | Some st' => clock_moves k' st'
      | None => None
      end
  end.

(** [start()] executed with no other thread acting: the prologue, then
    [k] attempts at a loop iteration. *)
Definition start_alone (k : nat) (c : SimulationClock)
  : option (SimulationClock * Location) :=
  clock_moves (S k) (c, BeforeStart).

End Clock.

(** ** state_update_queue.hpp and state_manager_thread.hpp *)

Inductive StateUpdateType : Type :=
| Position
| Velocity
| Acceleration
| Throttle
| Brake.

Record StateUpdateMessage : Type := {
  msg_type : StateUpdateType;
  msg_value : Q
}.

(** The queue, front first. *)
Definition StateUpdateQueue : Type := list StateUpdateMessage.

Definition push (message : StateUpdateMessage) (q : StateUpdateQueue)
  : StateUpdateQueue := q ++ [message].

Definition try_pop (q : StateUpdateQueue)
  : option (StateUpdateMessage * StateUpdateQueue) :=
  match q with
  | [] => None
  | m :: q' => Some (m, q')
  end.

(** [StateManagerThread::process_raw_update]. *)
Definition process_raw_update (msg : StateUpdateMessage) (s : SharedStateSpace)
  : SharedStateSpace :=
  match msg_type msg with
  | Position => store_position (msg_value msg) s
  | Velocity => store_velocity (msg_value msg) s
  | Acceleration => store_acceleration (msg_value msg) s
  | Throttle => store_throttle (msg_value msg) s
  | Brake => store_brake (msg_value msg) s
  end.

(** [while (queue_.try_pop(msg)) process_raw_update(msg);] with no producer
    pushing meanwhile: every pending message is applied, oldest first. *)
Fixpoint drain (q : StateUpdateQueue) (s : SharedStateSpace) : SharedStateSpace :=
  match q with
  | [] => s
  | m :: q' => drain q' (process_raw_update m s)
  end.

(** ** aircraft_config.hpp, ACForceModel.hpp *)

(** [AircraftConfigBase]: the values its getters return. *)
Record AircraftConfigBase : Type := {
  getMass : Q;
  getMaxThrust : Q;
  getMinThrust : Q;
  getMaxBrakeForce : Q;
  getDragCoefficient : Q;
  getStaticFrictionCoefficient : Q
}.

Definition AircraftConfig_FixedWin_AC1 : AircraftConfigBase :=
  {| getMass := 80000; getMaxThrust := 500000; getMinThrust := 0;
     getMaxBrakeForce := 400000; getDragCoefficient := 0.02;
     getStaticFrictionCoefficient := 0.02 |}.

Definition AircraftConfig_FixedWin_AC2 : AircraftConfigBase :=
  {| getMass := 85000; getMaxThrust := 520000; getMinThrust := 0;
     getMaxBrakeForce := 420000; getDragCoefficient := 0.021;
     getStaticFrictionCoefficient := 0.021 |}.

Module Force.

Record ForceResult : Type := {
  net_force : Q;
  thrust : Q;
  drag : Q;
  brake_force : Q;
  static_friction : Q
}.

(** [IForceModel::calculateNetForce]. *)
Definition IForceModel : Type :=
  SharedStateSpace -> Q -> AircraftConfigBase -> ForceResult.

Definition AIR_DENSITY : Q := 1.225.
Definition FRONTAL_AREA : Q := 50.

(** [ACForceModel::calculateNetForce], statement by statement. *)
Definition ACForceModel : IForceModel :=
  fun state current_velocity aircraftConfig =>
  let r_thrust := (throttle state * getMaxThrust aircraftConfig)%Q in
  let drag_coeff := getDragCoefficient aircraftConfig in
  let r_drag :=
    (0.5 * AIR_DENSITY * FRONTAL_AREA * drag_coeff
     * current_velocity * current_velocity)%Q in
  let standing := Qltb (std_abs current_velocity) 0.01 in
  let r_brake_force :=
    if standing then 0%Q
    else
      let speed_factor :=
        std_min 1 (std_max 0.3 (std_abs current_velocity / 50)) in
      (brake state * getMaxBrakeForce aircraftConfig * speed_factor)%Q in
  let r_static_friction :=
    if standing then
      let static_friction_coeff :=
        getStaticFrictionCoefficient aircraftConfig in
      let normal_force := (getMass aircraftConfig * 9.81)%Q in
      (static_friction_coeff * normal_force)%Q
    else 0%Q in
  let net0 := (r_thrust - r_drag - r_brake_force)%Q in
  let r_net :=
    if standing then
      if Qltb (std_abs net0) r_static_friction then 0%Q
      else (net0 - r_static_friction * (if Qltb 0 net0 then 1 else -1))%Q
    else net0 in
  {| net_force := r_net; thrust := r_thrust; drag := r_drag;
     brake_force := r_brake_force; static_friction := r_static_friction |}.

End Force.

(** ** DynamicsModel_FixedWing_Linear.hpp *)

Module Dynamics.

(** [DynamicsModel_FixedWing_Linear::step].  [clock_time] is what
    [clock.getCurrentTime()] returns. *)
Definition step (forceModel : Force.IForceModel)
    (aircraftConfig : AircraftConfigBase) (clock_time : Q)
    (sq : SharedStateSpace * StateUpdateQueue)
  : SharedStateSpace * StateUpdateQueue :=
  let '(state, queue) := sq in
  let forces := forceModel state (velocity state) aircraftConfig in
  let state := store_thrust (Force.thrust forces) state in
  let state := store_drag_force (Force.drag forces) state in
  let state := store_brake_force (Force.brake_force forces) state in
  let acceleration := (Force.net_force forces / getMass aircraftConfig)%Q in
  let current_velocity := velocity state in
  let current_position := position state in
  let new_velocity := (current_velocity + acceleration * 0.01)%Q in
  let new_position := (current_position + current_velocity * 0.01)%Q in
  let queue := push {| msg_type := Velocity; msg_value := new_velocity |} queue in
  let queue := push {| msg_type := Position; msg_value := new_position |} queue in
  let queue := push {| msg_type := Acceleration; msg_value := acceleration |} queue in
  (store_simulation_time clock_time state, queue).

(** One tick of the integrator followed by the state manager's drain of
    the queue: what the tick commits to the shared state. *)
Definition committed_tick (forceModel : Force.IForceModel)
    (aircraftConfig : AircraftConfigBase) (clock_time : Q)
    (state : SharedStateSpace) : SharedStateSpace :=
  let '(state', queue) :=
    step forceModel aircraftConfig clock_time (state, []) in
  drain queue state'.

End Dynamics.

(** ** controller_config.hpp *)

Module ControllerConfig.
Definition CRUISE_GAIN : Q := 0.1.      (* SimulationConfig::CRUISE_GAIN *)
Definition THROTTLE_RATE : Q := 0.1.
Definition MAX_THROTTLE : Q := 1.
Definition MIN_THROTTLE : Q := 0.
Definition BRAKE_RATE : Q := 0.2.
Definition MAX_BRAKE : Q := 1.
Definition MIN_BRAKE : Q := 0.
Definition CRUISE_SPEED : Q := 30.
End ControllerConfig.

(** ** throttle_controller.hpp, brake_controller.hpp,
       CruiseOnRunway_controller.hpp: the per-tick bodies *)

Module Controllers.
Import ControllerConfig.

Definition FIXED_DT : Q := 0.01.

(** [ThrottleController_Increase::updateThrottle]. *)
Definition THROTTLE_INCREASE_RATE : Q := 0.1.

Definition increase_updateThrottle (dt : Q)
    (sq : SharedStateSpace * StateUpdateQueue)
  : SharedStateSpace * StateUpdateQueue :=
  let '(state, queue) := sq in
  let current_throttle := throttle state in
  let new_throttle := (current_throttle + THROTTLE_INCREASE_RATE * dt)%Q in
  let new_throttle := std_min 1 (std_max 0 new_throttle) in
  if Qltb 0.000001 (std_abs (new_throttle - current_throttle))
  then (state, push {| msg_type := Throttle; msg_value := new_throttle |} queue)
  else (state, queue).

(** [ThrottleController_Decrease::updateThrottle]. *)
Definition THROTTLE_DECREASE_RATE : Q := 0.2.

Definition decrease_updateThrottle (dt : Q)
    (sq : SharedStateSpace * StateUpdateQueue)
  : SharedStateSpace * StateUpdateQueue :=
  let '(state, queue) := sq in
  let current_throttle := throttle state in
  let new_throttle := (current_throttle - THROTTLE_DECREASE_RATE * dt)%Q in
  let new_throttle := if Qltb new_throttle 0 then 0%Q else new_throttle in
  (state, push {| msg_type := Throttle; msg_value := new_throttle |} queue).

(** [BrakeController::updateBrake]: a direct store, not a queued one. *)
Definition updateBrake (dt : Q) (state : SharedStateSpace) : SharedStateSpace :=
  let current_brake := brake state in
  let new_brake := (current_brake + BRAKE_RATE * dt)%Q in
  let new_brake := if Qltb MAX_BRAKE new_brake then MAX_BRAKE else new_brake in
  store_brake new_brake state.

(** [CruiseOnRunwayController::calculateThrottleAndBrake]. *)
Definition velocity_error (current_velocity target_velocity : Q) : Q :=
  (target_velocity - current_velocity)%Q.

Definition calculateThrottleAndBrake (current_velocity target_velocity : Q)
  : Q * Q :=
  let velocity_error := velocity_error current_velocity target_velocity in
  if Qltb 0 velocity_error then
    let throttle := (CRUISE_GAIN * velocity_error)%Q in
    let throttle := std_max 0 (std_min throttle MAX_THROTTLE) in
    (throttle, 0%Q)
  else
    let brake := (- CRUISE_GAIN * velocity_error)%Q in
    let brake := std_max 0 (std_min brake MAX_BRAKE) in
    (0%Q, brake).

(** [CruiseOnRunwayController::updateThrottle]: the target is the local
    [double target_velocity = 100.0]. *)
Definition cruise_target_velocity : Q := 100.

Definition cruise_updateThrottle (state : SharedStateSpace) : SharedStateSpace :=
  let current_velocity := velocity state in
  let target_velocity := cruise_target_velocity in
  let '(throttle, brake) :=
    calculateThrottleAndBrake current_velocity target_velocity in
  store_brake brake (store_throttle throttle state).

(** The velocity error the cruise controller works with in a tick. *)
Definition cruise_error (state : SharedStateSpace) : Q :=
  velocity_error (velocity state) cruise_target_velocity.

(** The loop bodies of the four [run()] functions between
    [waitForNextStep] and [notifyStepCompleted]. *)
Definition increase_tick (sq : SharedStateSpace * StateUpdateQueue) :=
  if throttle_control_enabled (fst sq) then increase_updateThrottle FIXED_DT sq
  else sq.

Definition decrease_tick (sq : SharedStateSpace * StateUpdateQueue) :=
  if throttle_control_enabled (fst sq) then decrease_updateThrottle FIXED_DT sq
  else sq.

Definition brake_tick (sq : SharedStateSpace * StateUpdateQueue) :=
  if brake_control_enabled (fst sq) then (updateBrake FIXED_DT (fst sq), snd sq)
  else sq.

Definition cruise_tick (sq : SharedStateSpace * StateUpdateQueue) :=
  if cruise_control_enabled (fst sq) then (cruise_updateThrottle (fst sq), snd sq)
  else sq.

End Controllers.

(** ** The workers of one simulation, interleaved

    A step of a run is the per-tick body of one worker, or one
    [try_pop]/[process_raw_update] round of the state manager.  Any list of
    such steps is a possible schedule. *)

Module Pipeline.

(** [DynamicsTick] is the loop body of the dynamics thread of the scenario
    main: store the clock time, then [dynamicsModel->step]. *)
Inductive WorkerStep : Type :=
| ThrottleIncreaseTick
| ThrottleDecreaseTick
| BrakeTick
| CruiseTick
| DynamicsTick (clock_time : Q)
| ManagerPop.

Section WithModel.
Variable forceModel : Force.IForceModel.
Variable aircraftConfig : AircraftConfigBase.

Definition worker_step (w : WorkerStep)
    (sq : SharedStateSpace * StateUpdateQueue)
  : SharedStateSpace * StateUpdateQueue :=
  match w with
  | ThrottleIncreaseTick => Controllers.increase_tick sq
  | ThrottleDecreaseTick => Controllers.decrease_tick sq
  | BrakeTick => Controllers.brake_tick sq
  | CruiseTick => Controllers.cruise_tick sq
  | DynamicsTick t =>
      Dynamics.step forceModel aircraftConfig t
        (store_simulation_time t (fst sq), snd sq)
  | ManagerPop =>
      match try_pop (snd sq) with
      | Some (m, q') => (process_raw_update m (fst sq), q')
      | None => sq
      end
  end.

Definition run (ws : list WorkerStep)
    (sq : SharedStateSpace * StateUpdateQueue)
  : SharedStateSpace * StateUpdateQueue :=
  fold_left (fun acc w => worker_step w acc) ws sq.

End WithModel.

End Pipeline.

(** ** generic_events.hpp, event_bus.hpp *)

Inductive ControllerAction : Type :=
| START_THROTTLE_INCREASE
| STOP_THROTTLE_INCREASE
| START_THROTTLE_DECREASE
| STOP_THROTTLE_DECREASE
| START_BRAKE
| STOP_BRAKE
| START_CRUISE
| STOP_CRUISE
| START_PITCH_CONTROL
| STOP_PITCH_CONTROL
| SET_PITCH_ANGLE
| STOP_ALL_CONTROLLERS
| SWITCH_TO_AUTO_MODE
| SWITCH_TO_MANUAL_MODE
| SWITCH_TO_SEMI_AUTO_MODE.

Record EventDefinition : Type := {
  name : string;
  description : string;
  trigger_condition : SharedStateSpace -> bool;
  actions : list ControllerAction;
  response_description : string;
  triggered : bool
}.

(** What the program writes with [log_detail], as far as the properties
    below speak about it.  Logs are kept most recent first. *)
Inductive LogEntry : Type :=
| LogEventAlreadyTriggered (event_name : string)
| LogEventTriggered (event_name : string)
| LogActionConfigNotFound (action_name : string)
| LogExecutingAction (action_name controller_name : string)
| LogLacksThrottleControl (controller_name : string)
| LogLacksBrakeControl (controller_name : string)
| LogStartedController (controller_name : string)
| LogControllerNotFound (controller_name : string)
| LogStoppedController (controller_name : string)
| LogAllControllersStopped
| LogFlightModeSwitch (old_mode new_mode : FlightMode)
| LogMonitorFired (event_name : string)
| LogBusPublished (event_name : string)
| LogBusQueueFull (event_name : string)
| LogBusNoSubscriber (event_name : string).

#[global] Instance FlightMode_eq_dec : EqDecision FlightMode.
Proof. solve_decision. Defined.

#[global] Instance LogEntry_eq_dec : EqDecision LogEntry.
Proof. solve_decision. Defined.

Module Bus.

(** The only callbacks that are ever subscribed are the lambdas of
    [ControllerManagerThread::setupEventHandlers]; each captures the
    event name it was created for. *)
Inductive EventCallback : Type :=
| ManagerHandler (event_name : string).

#[global] Instance EventCallback_eq_dec : EqDecision EventCallback.
Proof. solve_decision. Defined.

(** The four [std::atomic<size_t>] counters; [++] wraps at 2^64. *)
Record EventStats : Type := {
  total_events : Z;
  processed_events : Z;
  dropped_events : Z;
  timeout_events : Z
}.

Definition no_stats : EventStats :=
  {| total_events := 0; processed_events := 0; dropped_events := 0;
     timeout_events := 0 |}.

Record EventBus : Type := {
  subscribers : gmap string (list EventCallback);
  event_queue : list string;       (* front first; the payload is empty *)
  running : bool;
  event_stats : gmap string EventStats
}.

Definition MAX_QUEUE_SIZE : nat := 1000.

Definition fresh : EventBus :=
  {| subscribers := ∅; event_queue := []; running := true;
     event_stats := ∅ |}.

Definition stats_of (event : string) (b : EventBus) : EventStats :=
  default no_stats (event_stats b !! event).

Definition subscribe (event : string) (callback : EventCallback)
    (b : EventBus) : EventBus :=
  {| subscribers :=
       <[event := default [] (subscribers b !! event) ++ [callback]]>
         (subscribers b);
     event_queue := event_queue b; running := running b;
     event_stats := <[event := stats_of event b]> (event_stats b) |}.

(** [EventBus::publish]: the returned flag tells whether the item was
    queued. *)
Definition publish (event : string) (b : EventBus) : EventBus * bool :=
  if negb (running b) then (b, false)
  else
    let st := stats_of event b in
    let st1 :=
      {| total_events := wrap_u64 (total_events st + 1);
         processed_events := processed_events st;
         dropped_events := dropped_events st;
         timeout_events := timeout_events st |} in
    if (MAX_QUEUE_SIZE <=? length (event_queue b))%nat then
      let st2 :=
        {| total_events := total_events st1;
           processed_events := processed_events st1;
           dropped_events := wrap_u64 (dropped_events st1 + 1);
           timeout_events := timeout_events st1 |} in
      ({| subscribers := subscribers b; event_queue := event_queue b;
          running := running b;
          event_stats := <[event := st2]> (event_stats b) |}, false)
    else
      ({| subscribers := subscribers b;
          event_queue := event_queue b ++ [event];
          running := running b;
          event_stats := <[event := st1]> (event_stats b) |}, true).

(** A worker takes the item at the front of the queue: the item, the
    callbacks to run for it, and the bus without the item. *)
Definition take (b : EventBus)
  : option (string * list EventCallback * EventBus) :=
  match event_queue b with
  | [] => None
  | item :: rest =>
      Some (item, default [] (subscribers b !! item),
            {| subscribers := subscribers b; event_queue := rest;
               running := running b; event_stats := event_stats b |})
  end.

(** [stats.processed_events++] after a callback has returned. *)
Definition count_processed (event : string) (b : EventBus) : EventBus :=
  let st := stats_of event b in
  {| subscribers := subscribers b; event_queue := event_queue b;
     running := running b;
     event_stats :=
       <[event := {| total_events := total_events st;
                     processed_events := wrap_u64 (processed_events st + 1);
                     dropped_events := dropped_events st;
                     timeout_events := timeout_events st |}]>
         (event_stats b) |}.

End Bus.

(** ** controller_actions_config.hpp *)

Record ControllerActionConfig : Type := {
  controller_name : string;
  state_settings : gmap string string;
  action_type : string
}.

Module ActionsConfig.

(** The two static members of [ControllerActionsConfig]. *)
Record t : Type := {
  action_configs : gmap string ControllerActionConfig;
  config_loaded : bool
}.

Definition entry (c : string) (settings : list (string * string))
    (ty : string) : ControllerActionConfig :=
  {| controller_name := c; state_settings := list_to_map settings;
     action_type := ty |}.

(** The table written by [loadDefaultConfig]. *)
Definition default_configs : gmap string ControllerActionConfig :=
  list_to_map
    [ ("START_THROTTLE_INCREASE",
       entry "油门增加" [("throttle_control_enabled", "true")] "CONTROLLER");
      ("STOP_THROTTLE_INCREASE",
       entry "油门增加" [("throttle_control_enabled", "false")] "CONTROLLER");
      ("START_THROTTLE_DECREASE",
       entry "油门减少" [("throttle_control_enabled", "true")] "CONTROLLER");
      ("STOP_THROTTLE_DECREASE",
       entry "油门减少" [("throttle_control_enabled", "false")] "CONTROLLER");
      ("START_BRAKE",
       entry "刹车" [("cruise_control_enabled", "false");
                     ("brake_control_enabled", "true")] "CONTROLLER");
      ("STOP_BRAKE",
       entry "刹车" [("brake_control_enabled", "false")] "CONTROLLER");
      ("START_CRUISE",
       entry "跑道巡航" [("cruise_control_enabled", "true")] "CONTROLLER");
      ("STOP_CRUISE",
       entry "跑道巡航" [("cruise_control_enabled", "false")] "CONTROLLER");
      ("START_PITCH_CONTROL",
       entry "俯仰角保持" [("pitch_control_enabled", "true")] "CONTROLLER");
      ("STOP_PITCH_CONTROL",
       entry "俯仰角保持" [("pitch_control_enabled", "false")] "CONTROLLER");
      ("SET_PITCH_ANGLE", entry "俯仰角保持" [] "PITCH_SETTING");
      ("STOP_ALL_CONTROLLERS", entry "STOP_ALL" [] "STOP_ALL");
      ("SWITCH_TO_AUTO_MODE",
       entry "MODE" [("flight_mode", "AUTO")] "MODE");
      ("SWITCH_TO_MANUAL_MODE",
       entry "MODE" [("flight_mode", "MANUAL")] "MODE");
      ("SWITCH_TO_SEMI_AUTO_MODE",
       entry "MODE" [("flight_mode", "SEMI_AUTO")] "MODE") ].

Definition unloaded : t := {| action_configs := ∅; config_loaded := false |}.

Definition loadDefaultConfig (c : t) : t :=
  {| action_configs := default_configs; config_loaded := true |}.

Definition getActionType (controller_name : string) : string :=
  if String.eqb controller_name "STOP_ALL" then "STOP_ALL"
  else if String.eqb controller_name "MODE" then "MODE"
  else "CONTROLLER".

(** [getActionConfig]: loads the defaults on first use, then looks the
    action up. *)
Definition getActionConfig (action_name : string) (c : t)
  : option ControllerActionConfig * t :=
  let c' := if config_loaded c then c else loadDefaultConfig c in
  (action_configs c' !! action_name, c').

End ActionsConfig.

(** ** controller_manager.hpp *)

Module Manager.

(** [ControllerManagerThread].  [state] is the shared state the manager
    holds a reference to; a controller is represented by its [running]
    flag ([start()] sets it and spawns the worker, [stop()] clears it and
    joins the worker). *)
Record ControllerManagerThread : Type := {
  state : SharedStateSpace;
  controllers : gmap string bool;
  triggered_events : gmap string bool;
  config : ActionsConfig.t;
  log : list LogEntry
}.

Definition with_state (s : SharedStateSpace) (m : ControllerManagerThread)
  : ControllerManagerThread :=
  {| state := s; controllers := controllers m;
     triggered_events := triggered_events m; config := config m;
     log := log m |}.

Definition with_controllers (cs : gmap string bool)
    (m : ControllerManagerThread) : ControllerManagerThread :=
  {| state := state m; controllers := cs;
     triggered_events := triggered_events m; config := config m;
     log := log m |}.

Definition with_triggered_events (te : gmap string bool)
    (m : ControllerManagerThread) : ControllerManagerThread :=
  {| state := state m; controllers := controllers m;
     triggered_events := te; config := config m; log := log m |}.

Definition with_config (c : ActionsConfig.t) (m : ControllerManagerThread)
  : ControllerManagerThread :=
  {| state := state m; controllers := controllers m;
     triggered_events := triggered_events m; config := c; log := log m |}.

Definition log_detail (e : LogEntry) (m : ControllerManagerThread)
  : ControllerManagerThread :=
  {| state := state m; controllers := controllers m;
     triggered_events := triggered_events m; config := config m;
     log := e :: log m |}.

(** [createControllers]: the fixed roster, nothing running. *)
Definition createControllers : gmap string bool :=
  list_to_map
    [ ("油门增加", false); ("油门减少", false); ("刹车", false);
      ("跑道巡航", false); ("俯仰角保持", false) ].

Definition create (s : SharedStateSpace) (c : ActionsConfig.t)
  : ControllerManagerThread :=
  {| state := s; controllers := createControllers; triggered_events := ∅;
     config := c; log := [] |}.

Definition getActionName (action : ControllerAction) : string :=
  match action with
  | START_THROTTLE_INCREASE => "START_THROTTLE_INCREASE"
  | STOP_THROTTLE_INCREASE => "STOP_THROTTLE_INCREASE"
  | START_THROTTLE_DECREASE => "START_THROTTLE_DECREASE"
  | STOP_THROTTLE_DECREASE => "STOP_THROTTLE_DECREASE"
  | START_BRAKE => "START_BRAKE"
  | STOP_BRAKE => "STOP_BRAKE"
  | START_CRUISE => "START_CRUISE"
  | STOP_CRUISE => "STOP_CRUISE"
  | START_PITCH_CONTROL => "START_PITCH_CONTROL"
  | STOP_PITCH_CONTROL => "STOP_PITCH_CONTROL"
  | SET_PITCH_ANGLE => "SET_PITCH_ANGLE"
  | STOP_ALL_CONTROLLERS => "STOP_ALL_CONTROLLERS"
  | SWITCH_TO_AUTO_MODE => "SWITCH_TO_AUTO_MODE"
  | SWITCH_TO_MANUAL_MODE => "SWITCH_TO_MANUAL_MODE"
  | SWITCH_TO_SEMI_AUTO_MODE => "SWITCH_TO_SEMI_AUTO_MODE"
  end.

(** One round of the loop of [applyStateSettings]. *)
Definition apply_setting (var_name value : string) (s : SharedStateSpace)
  : SharedStateSpace :=
  if String.eqb var_name "throttle_control_enabled"
  then store_throttle_control_enabled (String.eqb value "true") s
  else if String.eqb var_name "brake_control_enabled"
  then store_brake_control_enabled (String.eqb value "true") s
  else if String.eqb var_name "cruise_control_enabled"
  then store_cruise_control_enabled (String.eqb value "true") s
  else if String.eqb var_name "pitch_control_enabled"
  then store_pitch_control_enabled (String.eqb value "true") s
  else s.

Definition applyStateSettings (state_settings : gmap string string)
    (s : SharedStateSpace) : SharedStateSpace :=
  map_fold apply_setting s state_settings.

(** [ControllerManagerThread::setFlightMode(mode_name)]. *)
Definition switch_mode (mode : FlightMode) (m : ControllerManagerThread)
  : ControllerManagerThread :=
  log_detail (LogFlightModeSwitch (flight_mode (state m)) mode)
    (with_state (setFlightMode mode (state m)) m).

Definition setFlightMode (mode_name : string) (m : ControllerManagerThread)
  : ControllerManagerThread :=
  if String.eqb mode_name "AUTO" then switch_mode AUTO m
  else if String.eqb mode_name "MANUAL" then switch_mode MANUAL m
  else if String.eqb mode_name "SEMI_AUTO" then switch_mode SEMI_AUTO m
  else m.

Definition needs_throttle_authority (name : string) : bool :=
  String.eqb name "油门增加" || String.eqb name "油门减少"
  || String.eqb name "跑道巡航".

Definition needs_brake_authority (name : string) : bool :=
  String.eqb name "刹车".

(** [startController]. *)
Definition startController (name : string) (m : ControllerManagerThread)
  : ControllerManagerThread :=
  match controllers m !! name with
  | Some _ =>
      if needs_throttle_authority name
         && negb (auto_system_has_throttle_control (control_auth (state m)))
      then log_detail (LogLacksThrottleControl name) m
      else if needs_brake_authority name
              && negb (auto_system_has_brake_control (control_auth (state m)))
      then log_detail (LogLacksBrakeControl name) m
      else log_detail (LogStartedController name)
             (with_controllers (<[name := true]> (controllers m)) m)
  | None => log_detail (LogControllerNotFound name) m
  end.

(** [stopController]. *)
Definition stopController (name : string) (m : ControllerManagerThread)
  : ControllerManagerThread :=
  match controllers m !! name with
  | Some _ =>
      log_detail (LogStoppedController name)
        (with_controllers (<[name := false]> (controllers m)) m)
  | None => m
  end.

(** [stopAllControllers]. *)
Definition stopAllControllers (m : ControllerManagerThread)
  : ControllerManagerThread :=
  log_detail LogAllControllersStopped
    (with_controllers ((fun _ => false) <$> controllers m) m).

(** The body of the loop of [executeControllerActions]. *)
Definition executeControllerAction (action : ControllerAction)
    (m : ControllerManagerThread) : ControllerManagerThread :=
  let action_name := getActionName action in
  let '(found, config') := ActionsConfig.getActionConfig action_name (config m) in
  let m := with_config config' m in
  match found with
  | None => log_detail (LogActionConfigNotFound action_name) m
  | Some cfg =>
      let m :=
        if String.eqb (action_type cfg) "CONTROLLER" then
          let m :=
            with_state (applyStateSettings (state_settings cfg) (state m)) m in
          if String.prefix "START_" action_name
          then startController (controller_name cfg) m
          else if String.prefix "STOP_" action_name
          then stopController (controller_name cfg) m
          else m
        else if String.eqb (action_type cfg) "STOP_ALL" then
          stopAllControllers m
        else if String.eqb (action_type cfg) "MODE" then
          match state_settings cfg !! "flight_mode" with
          | Some mode_name => setFlightMode mode_name m
          | None => m
          end
        else m in
      log_detail (LogExecutingAction action_name (controller_name cfg)) m
  end.

Definition executeControllerActions (actions : list ControllerAction)
    (m : ControllerManagerThread) : ControllerManagerThread :=
  fold_left (fun acc a => executeControllerAction a acc) actions m.

Definition markEventTriggered (event_name : string)
    (m : ControllerManagerThread) : ControllerManagerThread :=
  log_detail (LogEventTriggered event_name)
    (with_triggered_events (<[event_name := true]> (triggered_events m)) m).

Definition isEventTriggered (event_name : string)
    (m : ControllerManagerThread) : bool :=
  match triggered_events m !! event_name with
  | Some b => b
  | None => false
  end.

Section Handlers.

(** The manager's event table and its optional state-change callback
    (a [std::function<void(const std::string&)>], taken here as an update
    of the shared state). *)
Variable event_definitions_ : gmap string EventDefinition.
Variable event_state_change_callback_
  : option (string -> SharedStateSpace -> SharedStateSpace).

Definition handleEventStateChanges (event_name : string)
    (m : ControllerManagerThread) : ControllerManagerThread :=
  match event_state_change_callback_ with
  | Some callback => with_state (callback event_name (state m)) m
  | None => m
  end.

(** The lambda subscribed by [setupEventHandlers] for [event_name]:
    [handler_body] is what follows the [isEventTriggered] test when the
    event is not marked yet. *)
Definition handler_body (event_name : string) (m : ControllerManagerThread)
  : ControllerManagerThread :=
  match event_definitions_ !! event_name with
  | Some def =>
      executeControllerActions (actions def)
        (handleEventStateChanges event_name
           (markEventTriggered event_name m))
  | None => m
  end.

Definition handler (event_name : string) (m : ControllerManagerThread)
  : ControllerManagerThread :=
  if isEventTriggered event_name m
  then log_detail (LogEventAlreadyTriggered event_name) m
  else handler_body event_name m.

(** [setupEventHandlers]: one subscription per entry of the table. *)
Definition setupEventHandlers (b : Bus.EventBus) : Bus.EventBus :=
  fold_left
    (fun acc entry => Bus.subscribe (fst entry) (Bus.ManagerHandler (fst entry)) acc)
    (map_to_list event_definitions_) b.

End Handlers.

End Manager.

(** ** event_detection.hpp *)

Module Monitor.

Record EventMonitorThread : Type := {
  local_triggered_events : gmap string bool;
  log : list LogEntry
}.

Definition fresh : EventMonitorThread :=
  {| local_triggered_events := ∅; log := [] |}.

Definition already_triggered (name : string) (mon : EventMonitorThread)
  : bool :=
  match local_triggered_events mon !! name with
  | Some b => b
  | None => false
  end.

(** The body of the [for] loop over the event table in [check_events],
    for one entry. *)
Definition check_event (state : SharedStateSpace)
    (acc : EventMonitorThread * Bus.EventBus)
    (entry : string * EventDefinition)
  : EventMonitorThread * Bus.EventBus :=
  let '(mon, bus) := acc in
  let '(name, event) := entry in
  if negb (already_triggered name mon) && trigger_condition event state then
    ({| local_triggered_events := <[name := true]> (local_triggered_events mon);
        log := LogMonitorFired name :: log mon |},
     fst (Bus.publish name bus))
  else (mon, bus).

(** One tick of the monitor: every entry of the table, in the iteration
    order of the map. *)
Definition check_events (event_definitions : gmap string EventDefinition)
    (state : SharedStateSpace) (acc : EventMonitorThread * Bus.EventBus)
  : EventMonitorThread * Bus.EventBus :=
  fold_left (check_event state) (map_to_list event_definitions) acc.

End Monitor.

(** ** The event runtime as one system

    The monitor, the bus with its pool of workers, and the manager.  The
    monitor is the only publisher.  A bus worker takes an item from the
    queue and then runs the callbacks subscribed for it, one after the
    other.  The handler of the manager enters the critical section of
    [events_mutex] twice, once in [isEventTriggered] and once in
    [markEventTriggered]; the two are separate steps here, so that handlers
    running on different workers interleave between them. *)

Module Runtime.

(** Where a bus worker stands: waiting for an item; holding [item] with
    the callbacks still to run; or inside the handler for [event_name],
    after its [isEventTriggered] test has answered no. *)
Inductive WorkerState : Type :=
| Idle
| Running (item : string) (pending : list Bus.EventCallback)
| Checked (item : string) (event_name : string)
    (pending : list Bus.EventCallback).

Record System : Type := {
  manager : Manager.ControllerManagerThread;
  monitor : Monitor.EventMonitorThread;
  bus : Bus.EventBus;
  workers : list WorkerState
}.

Definition MAX_WORKERS : nat := 4.

(** What can happen: a tick of the monitor; the next move of bus worker
    [i]; the other workers of the simulation changing the shared state. *)
Inductive Step : Type :=
| MonitorTick
| Worker (i : nat)
| StateChange (new_state : SharedStateSpace).

Section WithTable.

Variable event_definitions : gmap string EventDefinition.
Variable event_state_change_callback_
  : option (string -> SharedStateSpace -> SharedStateSpace).

(** The next move of a worker in state [w]. *)
Definition worker_move (w : WorkerState)
    (m : Manager.ControllerManagerThread) (b : Bus.EventBus)
  : WorkerState * Manager.ControllerManagerThread * Bus.EventBus :=
  match w with
  | Idle =>
      match Bus.take b with
      | Some (item, callbacks, b') => (Running item callbacks, m, b')
      | None => (Idle, m, b)
      end
  | Running item [] => (Idle, m, b)
  | Running item (Bus.ManagerHandler event_name :: pending) =>
      if Manager.isEventTriggered event_name m
      then (Running item pending,
            Manager.log_detail (LogEventAlreadyTriggered event_name) m,
            Bus.count_processed item b)
      else (Checked item event_name pending, m, b)
  | Checked item event_name pending =>
      (Running item pending,
       Manager.handler_body event_definitions event_state_change_callback_
         event_name m,
       Bus.count_processed item b)
  end.

Definition step (st : Step) (sys : System) : System :=
  match st with
  | MonitorTick =>
      let '(mon, b) :=
        Monitor.check_events event_definitions (Manager.state (manager sys))
          (monitor sys, bus sys) in
      {| manager := manager sys; monitor := mon; bus := b;
         workers := workers sys |}
  | Worker i =>
      match workers sys !! i with
      | Some w =>
          let '(w', m, b) := worker_move w (manager sys) (bus sys) in
          {| manager := m; monitor := monitor sys; bus := b;
             workers := <[i := w']> (workers sys) |}
      | None => sys
      end
  | StateChange new_state =>
      {| manager := Manager.with_state new_state (manager sys);
         monitor := monitor sys; bus := bus sys; workers := workers sys |}
  end.

Definition run (steps : list Step) (sys : System) : System :=
  fold_left (fun acc st => step st acc) steps sys.

(** The system as the scenario main sets it up. *)
Definition initial (s : SharedStateSpace) (c : ActionsConfig.t) : System :=
  {| manager := Manager.create s c;
     monitor := Monitor.fresh;
     bus := Manager.setupEventHandlers event_definitions Bus.fresh;
     workers := replicate MAX_WORKERS Idle |}.

End WithTable.

End Runtime.

(** ** data_recorder.hpp: FileLogger *)

Module Recorder.

(** The nine doubles one output statement streams into
    [output/data.csv], in the order streamed.  They are the values before
    printing; what the file shows of them is [print_row]. *)
Record Row : Type := {
  row_time : Q;
  row_position : Q;
  row_velocity : Q;
  row_acc : Q;
  row_throttle : Q;
  row_brake : Q;
  row_thrust : Q;
  row_drag : Q;
  row_brake_force : Q
}.

Inductive RecorderLog : Type :=
| WarnNonIncreasingTime (current_time last_time : Q)
| ErrorCannotOpenFile.

(** [FileLogger]: the last recorded timestamp, the values of the lines
    written to the file (oldest first) and the log lines written (most
    recent first). *)
Record FileLogger : Type := {
  last_time_ : Q;
  rows : list Row;
  log : list RecorderLog
}.

Definition create : FileLogger :=
  {| last_time_ := -1; rows := []; log := [] |}.

(** The result of a call: it returns, or [data.at] throws
    [std::out_of_range]; either way with the logger as the call leaves it.
    The recorder thread does not catch, so a throw ends the run. *)
Inductive Outcome : Type :=
| Returns (l : FileLogger)
| Throws (l : FileLogger).

Definition logger_after (o : Outcome) : FileLogger :=
  match o with
  | Returns l => l
  | Throws l => l
  end.

(** The eight [data.at] calls of the output statement, left to right. *)
Definition build_row (current_time : Q) (data : gmap string Q) : option Row :=
  p ← data !! "position";
  v ← data !! "velocity";
  a ← data !! "acceleration";
  th ← data !! "throttle";
  br ← data !! "brake";
  tr ← data !! "thrust";
  dr ← data !! "drag";
  bf ← data !! "brake_force";
  Some {| row_time := current_time; row_position := p; row_velocity := v;
          row_acc := a; row_throttle := th; row_brake := br;
          row_thrust := tr; row_drag := dr; row_brake_force := bf |}.

(** [FileLogger::recordData].  [can_open] tells whether
    [data_file_.open] succeeds in this call.  [data.at("time")] throws
    before anything is changed; a later [data.at] throws in the middle of
    the output statement, after [last_time_ = current_time], and no line
    is completed.  The timestamps are numbers: a NaN, for which the
    comparison of the source is false, has no counterpart in [Q]. *)
Definition recordData (data : gmap string Q) (can_open : bool)
    (l : FileLogger) : Outcome :=
  match data !! "time" with
  | None => Throws l
  | Some current_time =>
      if Qle_bool current_time (last_time_ l) then
        Returns {| last_time_ := last_time_ l; rows := rows l;
                   log := WarnNonIncreasingTime current_time (last_time_ l)
                          :: log l |}
      else if can_open then
        match build_row current_time data with
        | Some r =>
            Returns {| last_time_ := current_time; rows := rows l ++ [r];
                       log := log l |}
        | None =>
            Throws {| last_time_ := current_time; rows := rows l;
                      log := log l |}
        end
      else
        Returns {| last_time_ := current_time; rows := rows l;
                   log := ErrorCannotOpenFile :: log l |}
  end.

(** A sequence of calls; the run ends at the first throw. *)
Fixpoint record_all (calls : list (gmap string Q * bool)) (l : FileLogger)
  : Outcome :=
  match calls with
  | [] => Returns l
  | (data, can_open) :: calls' =>
      match recordData data can_open l with
      | Returns l' => record_all calls' l'
      | Throws l' => Throws l'
      end
  end.

(** *** What the file shows

    The output statement prints with [std::fixed] and
    [std::setprecision(2)] ([std::setprecision(4)] for the throttle): each
    value is rounded to the nearest multiple of 10^-precision.  A value
    exactly half way between two neighbours goes to the even one or away
    from zero, depending on the C runtime. *)
Inductive TieRule : Type :=
| TiesToEven
| TiesAwayFromZero.

Definition round_nearest (ties : TieRule) (x : Q) : Z :=
  let f := Qfloor x in
  match (x - inject_Z f ?= 1 # 2)%Q with
  | Lt => f
  | Gt => (f + 1)%Z
  | Eq =>
      match ties with
      | TiesToEven => if Z.even f then f else (f + 1)%Z
      | TiesAwayFromZero => if (0 <=? f)%Z then (f + 1)%Z else f
      end
  end.

(** A printed cell, as the number of units of 10^-precision it reads
    back as. *)
Definition fixed (ties : TieRule) (precision : nat) (x : Q) : Z :=
  round_nearest ties (x * inject_Z (10 ^ Z.of_nat precision))%Q.

(** One line of [output/data.csv]. *)
Record Line : Type := {
  line_time : Z;
  line_position : Z;
  line_velocity : Z;
  line_acc : Z;
  line_throttle : Z;
  line_brake : Z;
  line_thrust : Z;
  line_drag : Z;
  line_brake_force : Z
}.

Definition print_row (ties : TieRule) (r : Row) : Line :=
  {| line_time := fixed ties 2 (row_time r);
     line_position := fixed ties 2 (row_position r);
     line_velocity := fixed ties 2 (row_velocity r);
     line_acc := fixed ties 2 (row_acc r);
     line_throttle := fixed ties 4 (row_throttle r);
     line_brake := fixed ties 2 (row_brake r);
     line_thrust := fixed ties 2 (row_thrust r);
     line_drag := fixed ties 2 (row_drag r);
     line_brake_force := fixed ties 2 (row_brake_force r) |}.

(** The data lines of the file, and its time column (in hundredths). *)
Definition file_lines (ties : TieRule) (l : FileLogger) : list Line :=
  map (print_row ties) (rows l).

Definition time_column (ties : TieRule) (l : FileLogger) : list Z :=
  map line_time (file_lines ties l).

(** The map the recorder thread builds for a sample. *)
Definition sample (t : Q) (s : SharedStateSpace) : gmap string Q :=
  list_to_map
    [ ("time", t); ("position", position s); ("velocity", velocity s);
      ("acceleration", acceleration s); ("throttle", throttle s);
      ("brake", brake s); ("thrust", thrust s); ("drag", drag_force s);
      ("brake_force", brake_force s) ].

End Recorder.

(** ** Taxi scenario: the event table of Taxi_events.hpp

    [ZERO_VELOCITY_THRESHOLD] is a value of [TaxiConfig], which is loaded
    from the scenario configuration file. *)

Definition Taxi_EVENT_DEFINITIONS (ZERO_VELOCITY_THRESHOLD : Q)
  : gmap string EventDefinition :=
  list_to_map
    [ ("START_THROTTLE",
       {| name := "START_THROTTLE";
          description := "start increasing the throttle";
          trigger_condition := fun state =>
            simulation_started state && simulation_running state
            && Qle_bool 1 (simulation_time state);
          actions := [START_THROTTLE_INCREASE];
          response_description := "start the throttle increase controller";
          triggered := false |});
      ("START_BRAKE",
       {| name := "START_BRAKE";
          description := "start braking";
          trigger_condition := fun state => Qle_bool 500 (position state);
          actions := [START_THROTTLE_DECREASE; START_BRAKE];
          response_description :=
            "start the throttle decrease controller and the brake controller";
          triggered := false |});
      ("FINAL_STOP",
       {| name := "FINAL_STOP";
          description := "final stop";
          trigger_condition := fun state =>
            Qle_bool (velocity state) ZERO_VELOCITY_THRESHOLD;
          actions := [STOP_ALL_CONTROLLERS; SWITCH_TO_MANUAL_MODE];
          response_description :=
            "stop all controllers and switch to manual mode";
          triggered := false |}) ].

(** ** Predicates used in the statements *)

(** Every atomic member of the shared state is the same in [s] and [s']
    (everything but the snapshot record and its version). *)
Definition same_atomics (s s' : SharedStateSpace) : Prop :=
  position s' = position s /\ velocity s' = velocity s
  /\ acceleration s' = acceleration s /\ throttle s' = throttle s
  /\ brake s' = brake s /\ simulation_time s' = simulation_time s
  /\ thrust s' = thrust s /\ brake_force s' = brake_force s
  /\ drag_force s' = drag_force s
  /\ simulation_running s' = simulation_running s
  /\ simulation_started s' = simulation_started s
  /\ final_stop_enabled s' = final_stop_enabled s
  /\ throttle_control_enabled s' = throttle_control_enabled s
  /\ brake_control_enabled s' = brake_control_enabled s
  /\ cruise_control_enabled s' = cruise_control_enabled s
  /\ abort_triggered s' = abort_triggered s
  /\ system_ready s' = system_ready s /\ user_confirmed s' = user_confirmed s
  /\ target_speed s' = target_speed s /\ abort_speed s' = abort_speed s
  /\ abort_speed_threshold s' = abort_speed_threshold s
  /\ zero_velocity_count s' = zero_velocity_count s
  /\ pitch_angle s' = pitch_angle s /\ pitch_rate s' = pitch_rate s
  /\ pitch_control_output s' = pitch_control_output s
  /\ pitch_control_enabled s' = pitch_control_enabled s
  /\ flight_mode s' = flight_mode s /\ control_auth s' = control_auth s
  /\ dt s' = dt s.

(** A sequence of [updateState] calls. *)
Definition updateState_all (news : list StateSnapshot) (s : SharedStateSpace)
  : SharedStateSpace :=
  fold_left (fun acc n => updateState n acc) news s.

Definition authority (pt pb at_ ab : bool) : ControlAuthority :=
  {| pilot_has_throttle_control := pt; pilot_has_brake_control := pb;
     auto_system_has_throttle_control := at_;
     auto_system_has_brake_control := ab |}.

(** A value lies in the closed unit interval. *)
Definition unit_interval (x : Q) : Prop := (0 <= x /\ x <= 1)%Q.

(** Throttle and brake of the shared state are in range, and so is every
    throttle or brake write still waiting in the queue. *)
Definition message_in_range (m : StateUpdateMessage) : Prop :=
  match msg_type m with
  | Throttle | Brake => unit_interval (msg_value m)
  | _ => True
  end.

Definition controls_in_range (sq : SharedStateSpace * StateUpdateQueue) : Prop :=
  unit_interval (throttle (fst sq)) /\ unit_interval (brake (fst sq))
  /\ Forall message_in_range (snd sq).

(** The flight mode a mode name of the configuration stands for. *)
Definition mode_of_name (mode_name : string) : option FlightMode :=
  if String.eqb mode_name "AUTO" then Some AUTO
  else if String.eqb mode_name "MANUAL" then Some MANUAL
  else if String.eqb mode_name "SEMI_AUTO" then Some SEMI_AUTO
  else None.

(** The flight mode that executing [action] sets under configuration [c],
    if it sets one. *)
Definition action_mode (action : ControllerAction) (c : ActionsConfig.t)
  : option FlightMode :=
  match fst (ActionsConfig.getActionConfig (Manager.getActionName action) c) with
  | Some cfg =>
      if String.eqb (action_type cfg) "CONTROLLER" then None
      else if String.eqb (action_type cfg) "STOP_ALL" then None
      else if String.eqb (action_type cfg) "MODE" then
        match state_settings cfg !! "flight_mode" with
        | Some mode_name => mode_of_name mode_name
        | None => None
        end
      else None
  | None => None
  end.

(** A start of controller [name] is refused in manager state [m]. *)
Definition start_denied (name : string) (m : Manager.ControllerManagerThread)
  : Prop :=
  (Manager.needs_throttle_authority name = true
   /\ auto_system_has_throttle_control (control_auth (Manager.state m)) = false)
  \/ (Manager.needs_brake_authority name = true
      /\ auto_system_has_brake_control (control_auth (Manager.state m)) = false).

(** The rows of the recorder's file have strictly increasing times, none
    of them later than the last recorded timestamp. *)
Definition times_increasing (l : Recorder.FileLogger) : Prop :=
  StronglySorted Qlt (map Recorder.row_time (Recorder.rows l))
  /\ Forall (fun r => (Recorder.row_time r <= Recorder.last_time_ l)%Q)
       (Recorder.rows l).

(** How often the manager has logged "Event triggered: e" (it does so in
    [markEventTriggered], right before it executes the action list of
    [e]), and how often the monitor has fired [e]. *)
Definition executions (e : string) (m : Manager.ControllerManagerThread) : nat :=
  count_occ LogEntry_eq_dec (Manager.log m) (LogEventTriggered e).

Definition firings (e : string) (mon : Monitor.EventMonitorThread) : nat :=
  count_occ LogEntry_eq_dec (Monitor.log mon) (LogMonitorFired e).

(** A manager operation that neither touches the latch table nor logs an
    "Event triggered" line. *)
Definition quiet (e : string) (m m' : Manager.ControllerManagerThread) : Prop :=
  Manager.triggered_events m' = Manager.triggered_events m
  /\ executions e m' = executions e m.

Definition monitor_latched (mon : Monitor.EventMonitorThread) : Prop :=
  forall e,
    (firings e mon <= 1)%nat
    /\ ((1 <= firings e mon)%nat -> Monitor.already_triggered e mon = true).

(** Handler invocations for [e] that a worker still has before it: the
    callbacks it has not run yet, and the one it is inside of. *)
Definition is_handler_for (e : string) (cb : Bus.EventCallback) : bool :=
  match cb with
  | Bus.ManagerHandler n => String.eqb n e
  end.

Definition pending_handlers (e : string) (w : Runtime.WorkerState) : nat :=
  match w with
  | Runtime.Idle => 0
  | Runtime.Running _ pending => length (List.filter (is_handler_for e) pending)
  | Runtime.Checked _ n pending =>
      (if String.eqb n e then 1 else 0)
      + length (List.filter (is_handler_for e) pending)
  end.

(** Handler invocations for [e] still to come: items [e] in the queue of
    the bus plus what the workers hold. *)
Definition outstanding (e : string) (b : Bus.EventBus)
    (ws : list Runtime.WorkerState) : nat :=
  length (List.filter (fun item => String.eqb item e) (Bus.event_queue b))
  + sum_list (pending_handlers e <$> ws).

(** Every item has no subscriber or just the manager's handler for it. *)
Definition subscriptions_ok (b : Bus.EventBus) : Prop :=
  forall item,
    default [] (Bus.subscribers b !! item) = []
    \/ default [] (Bus.subscribers b !! item) = [Bus.ManagerHandler item].

(** The invariant of the runtime: whatever was executed or is still to be
    handled was fired by the monitor, and the monitor fires once. *)
Definition runtime_inv (sys : Runtime.System) : Prop :=
  subscriptions_ok (Runtime.bus sys)
  /\ monitor_latched (Runtime.monitor sys)
  /\ forall e,
       (outstanding e (Runtime.bus sys) (Runtime.workers sys)
        + executions e (Runtime.manager sys)
        <= firings e (Runtime.monitor sys))%nat.

(** * Further parts of the kernel *)

(** ** shared_state.hpp: stores of further members *)

Definition store_pitch_angle (x : Q) (s : SharedStateSpace) : SharedStateSpace :=
  {| position := position s; velocity := velocity s;
     acceleration := acceleration s; throttle := throttle s;
     brake := brake s; simulation_time := simulation_time s;
     thrust := thrust s; brake_force := brake_force s;
     drag_force := drag_force s; simulation_running := simulation_running s;
     simulation_started := simulation_started s;
     final_stop_enabled := final_stop_enabled s;
     throttle_control_enabled := throttle_control_enabled s;
     brake_control_enabled := brake_control_enabled s;
     cruise_control_enabled := cruise_control_enabled s;
     abort_triggered := abort_triggered s; system_ready := system_ready s;
     user_confirmed := user_confirmed s; target_speed := target_speed s;
     abort_speed := abort_speed s;
     abort_speed_threshold := abort_speed_threshold s;
     zero_velocity_count := zero_velocity_count s; pitch_angle := x;
     pitch_rate := pitch_rate s;
     pitch_control_output := pitch_control_output s;
     pitch_control_enabled := pitch_control_enabled s;
     current_state := current_state s; state_version := state_version s;
     flight_mode := flight_mode s; control_auth := control_auth s;
     dt := dt s |}.

(** ** state_update_queue.hpp: what a drain leaves in a field *)

Definition StateUpdateType_eqb (a b : StateUpdateType) : bool :=
  match a, b with
  | Position, Position | Velocity, Velocity | Acceleration, Acceleration
  | Throttle, Throttle | Brake, Brake => true
  | _, _ => false
  end.

(** The value of the last message of type [ty] in the queue, if any. *)
Fixpoint last_value (ty : StateUpdateType) (q : StateUpdateQueue) : option Q :=
  match q with
  | [] => None
  | m :: q' =>
      match last_value ty q' with
      | Some v => Some v
      | None => if StateUpdateType_eqb (msg_type m) ty
                then Some (msg_value m) else None
      end
  end.

(** The field of the shared state that messages of type [ty] go to. *)
Definition field_of (ty : StateUpdateType) (s : SharedStateSpace) : Q :=
  match ty with
  | Position => position s
  | Velocity => velocity s
  | Acceleration => acceleration s
  | Throttle => throttle s
  | Brake => brake s
  end.

(** ** The integrator over several ticks *)

(** One committed tick per clock time of the list. *)
Definition committed_ticks (forceModel : Force.IForceModel)
    (aircraftConfig : AircraftConfigBase) (clock_times : list Q)
    (state : SharedStateSpace) : SharedStateSpace :=
  fold_left
    (fun acc t => Dynamics.committed_tick forceModel aircraftConfig t acc)
    clock_times state.

(** The static friction of an aircraft, as the force model computes it. *)
Definition static_friction_of (aircraftConfig : AircraftConfigBase) : Q :=
  (getStaticFrictionCoefficient aircraftConfig
   * (getMass aircraftConfig * 9.81))%Q.

(** ** Controller ticks followed by the state manager *)

(** [n] rounds of one controller tick and one pop of the state manager. *)
Definition rounds (w : Pipeline.WorkerStep) (n : nat) : list Pipeline.WorkerStep :=
  concat (repeat [w; Pipeline.ManagerPop] n).

(** ** simulation_clock.hpp, statement by statement

    [Clock.clock_step] takes the thread in [start()] from one waiting point
    to the next in one move: that is the thread running by itself, awake.
    Here the same function is followed one atomic access at a time, with
    the mutex and the two condition variables, so that the calls of the
    other threads can fall between any two of its accesses:
    - [registerThread], [unregisterThread], [pause], [resume] and the
      store of [stop] take no lock and notify nobody;
    - [notifyStepCompleted] and [setTimeStep] run under the mutex, so they
      wait while the clock thread holds it;
    - a thread asleep in [wait] moves again only when its condition
      variable is notified or on a spurious wake-up, whatever has become of
      the predicate.
    [start()] is called once, as in the scenario main.

    The double addition [current_time.load() + dt] is the parameter
    [fadd]. *)

Module ClockThread.

(** Where the thread in [start()] stands: the access it executes next. *)
Inductive Point : Type :=
| AtStartCheck            (* if (running) return; *)
| AtSetRunning            (* running = true; *)
| AtClearPaused           (* paused = false; *)
| AtFirstLock             (* unique_lock lock(mtx); *)
| AtFirstTime             (* current_time.store(current_time.load() + dt); *)
| AtFirstSteps            (* time_steps++; *)
| AtFirstNotify           (* cv_step_start.notify_all(); } *)
| AtLoopHead              (* while (running.load()) *)
| AtLock                  (* unique_lock lock(mtx); *)
| AtBarrierTest           (* completed_threads >= registered_threads *)
| AtBarrierRunning        (* || !running.load() *)
| AboutToSleepAtBarrier   (* predicate false: cv_step_end.wait(lock) *)
| AsleepAtBarrier
| WokenAtBarrier          (* takes the mutex again *)
| AtRunningCheck1         (* if (!running.load()) break; *)
| AtResetCompleted        (* completed_threads = 0; *)
| AtPauseLoopPaused       (* while (paused.load() *)
| AtPauseLoopRunning      (* && running.load()) *)
| AtPauseWaitPaused       (* !paused.load() *)
| AtPauseWaitRunning      (* || !running.load() *)
| AboutToSleepAtPause     (* predicate false: cv_step_start.wait(lock) *)
| AsleepAtPause
| WokenAtPause            (* takes the mutex again *)
| AtRunningCheck2         (* if (!running.load()) break;  (in the pause loop) *)
| AtRunningCheck3         (* if (!running.load()) break; *)
| AtPublishTime           (* current_time.store(current_time.load() + dt); *)
| AtPublishSteps          (* time_steps++; *)
| AtNotify                (* cv_step_start.notify_all(); } *)
| Returned.

(** The thread holds [mtx] from the construction of a [unique_lock] to the
    end of its scope, except while it sleeps in [wait]. *)
Definition holds_mutex (p : Point) : bool :=
  match p with
  | AtFirstTime | AtFirstSteps | AtFirstNotify
  | AtBarrierTest | AtBarrierRunning | AboutToSleepAtBarrier
  | AtRunningCheck1 | AtResetCompleted
  | AtPauseLoopPaused | AtPauseLoopRunning
  | AtPauseWaitPaused | AtPauseWaitRunning | AboutToSleepAtPause
  | AtRunningCheck2 | AtRunningCheck3
  | AtPublishTime | AtPublishSteps | AtNotify => true
  | _ => false
  end.

Section WithAddition.

(** The sum of two doubles. *)
Variable fadd : Q -> Q -> Q.

(** [current_time.store(current_time.load() + dt)]. *)
Definition advance_time (c : Clock.SimulationClock) : Clock.SimulationClock :=
  {| Clock.time_steps := Clock.time_steps c; Clock.dt := Clock.dt c;
     Clock.running := Clock.running c;
     Clock.current_time := fadd (Clock.current_time c) (Clock.dt c);
     Clock.registered_threads := Clock.registered_threads c;
     Clock.waiting_threads := Clock.waiting_threads c;
     Clock.completed_threads := Clock.completed_threads c;
     Clock.paused := Clock.paused c |}.

(** [time_steps++]. *)
Definition advance_steps (c : Clock.SimulationClock) : Clock.SimulationClock :=
  {| Clock.time_steps := wrap_u64 (Clock.time_steps c + 1);
     Clock.dt := Clock.dt c; Clock.running := Clock.running c;
     Clock.current_time := Clock.current_time c;
     Clock.registered_threads := Clock.registered_threads c;
     Clock.waiting_threads := Clock.waiting_threads c;
     Clock.completed_threads := Clock.completed_threads c;
     Clock.paused := Clock.paused c |}.

(** The next access of the thread in [start()].  [None]: the thread is
    asleep, or the function has returned. *)
Definition clock_move (st : Clock.SimulationClock * Point)
  : option (Clock.SimulationClock * Point) :=
  let '(c, p) := st in
  match p with
  | AtStartCheck =>
      Some (c, if Clock.running c then Returned else AtSetRunning)
  | AtSetRunning => Some (Clock.with_running true c, AtClearPaused)
  | AtClearPaused => Some (Clock.with_paused false c, AtFirstLock)
  | AtFirstLock => Some (c, AtFirstTime)
  | AtFirstTime => Some (advance_time c, AtFirstSteps)
  | AtFirstSteps => Some (advance_steps c, AtFirstNotify)
  | AtFirstNotify => Some (c, AtLoopHead)
  | AtLoopHead => Some (c, if Clock.running c then AtLock else Returned)
  | AtLock => Some (c, AtBarrierTest)
  | AtBarrierTest =>
      Some (c, if Clock.registered_threads c <=? Clock.completed_threads c
               then AtRunningCheck1 else AtBarrierRunning)
  | AtBarrierRunning =>
      Some (c, if Clock.running c then AboutToSleepAtBarrier
               else AtRunningCheck1)
  | AboutToSleepAtBarrier => Some (c, AsleepAtBarrier)
  | AsleepAtBarrier => None
  | WokenAtBarrier => Some (c, AtBarrierTest)
  | AtRunningCheck1 =>
      Some (c, if Clock.running c then AtResetCompleted else Returned)
  | AtResetCompleted => Some (Clock.with_completed 0 c, AtPauseLoopPaused)
  | AtPauseLoopPaused =>
      Some (c, if Clock.paused c then AtPauseLoopRunning else AtRunningCheck3)
  | AtPauseLoopRunning =>
      Some (c, if Clock.running c then AtPauseWaitPaused else AtRunningCheck3)
  | AtPauseWaitPaused =>
      Some (c, if Clock.paused c then AtPauseWaitRunning else AtRunningCheck2)
  | AtPauseWaitRunning =>
      Some (c, if Clock.running c then AboutToSleepAtPause
               else AtRunningCheck2)
  | AboutToSleepAtPause => Some (c, AsleepAtPause)
  | AsleepAtPause => None
  | WokenAtPause => Some (c, AtPauseWaitPaused)
  | AtRunningCheck2 =>
      Some (c, if Clock.running c then AtPauseLoopPaused else AtRunningCheck3)
  | AtRunningCheck3 =>
      Some (c, if Clock.running c then AtPublishTime else Returned)
  | AtPublishTime => Some (advance_time c, AtPublishSteps)
  | AtPublishSteps => Some (advance_steps c, AtNotify)
  | AtNotify => Some (c, AtLoopHead)
  | Returned => None
  end.

(** What happens next in the system: an access of the thread in
    [start()], or an action of another thread.  [stop()] is its three
    statements [StopStore], [NotifyAllStepStart], [NotifyAllStepEnd]. *)
Inductive Event : Type :=
| ClockMove
| RegisterThread
| UnregisterThread
| NotifyStepCompleted
| StopStore
| NotifyAllStepStart
| NotifyAllStepEnd
| Pause
| Resume
| SetTimeStep (new_dt : Q)
| SpuriousWake.

(** A notification of [cv_step_end] reaches the thread only when it is
    asleep at the barrier, one of [cv_step_start] only when it is asleep in
    the pause loop. *)
Definition wake_step_end (p : Point) : Point :=
  match p with
  | AsleepAtBarrier => WokenAtBarrier
  | _ => p
  end.

Definition wake_step_start (p : Point) : Point :=
  match p with
  | AsleepAtPause => WokenAtPause
  | _ => p
  end.

(** One event; [None] when it cannot happen in this state. *)
Definition step (e : Event) (st : Clock.SimulationClock * Point)
  : option (Clock.SimulationClock * Point) :=
  let '(c, p) := st in
  match e with
  | ClockMove => clock_move st
  | RegisterThread => Some (Clock.registerThread c, p)
  | UnregisterThread => Some (Clock.unregisterThread c, p)
  | NotifyStepCompleted =>
      if holds_mutex p then None
      else Some (Clock.notifyStepCompleted c, wake_step_end p)
  | StopStore => Some (Clock.stop c, p)
  | NotifyAllStepStart => Some (c, wake_step_start p)
  | NotifyAllStepEnd => Some (c, wake_step_end p)
  | Pause => Some (Clock.pause c, p)
  | Resume => Some (Clock.resume c, p)
  | SetTimeStep d =>
      if holds_mutex p then None else Some (Clock.setTimeStep d c, p)
  | SpuriousWake =>
      match p with
      | AsleepAtBarrier => Some (c, WokenAtBarrier)
      | AsleepAtPause => Some (c, WokenAtPause)
      | _ => None
      end
  end.

Fixpoint run (es : list Event) (st : Clock.SimulationClock * Point)
  : option (Clock.SimulationClock * Point) :=
  match es with
  | [] => Some st
  | e :: es' =>
      match step e st with
      | Some st' => run es' st'
      | None => None
      end
  end.

End WithAddition.

(** *** Sets of points and events used in the statements *)

(** The thread has executed [running = true] of the prologue. *)
Definition past_set_running (p : Point) : bool :=
  match p with
  | AtStartCheck | AtSetRunning => false
  | _ => true
  end.

(** The thread has executed [paused = false] of the prologue. *)
Definition past_clear_paused (p : Point) : bool :=
  match p with
  | AtStartCheck | AtSetRunning | AtClearPaused => false
  | _ => true
  end.

(** The thread stores a new time before it tests anything again. *)
Definition committed_to_time (p : Point) : bool :=
  match p with
  | AtClearPaused | AtFirstLock | AtFirstTime | AtPublishTime => true
  | _ => false
  end.

(** The thread increments the step count before it tests anything
    again. *)
Definition committed_to_steps (p : Point) : bool :=
  match p with
  | AtClearPaused | AtFirstLock | AtFirstTime | AtFirstSteps
  | AtPublishTime | AtPublishSteps => true
  | _ => false
  end.

(** The thread is at the last test before a tick and the test will
    succeed. *)
Definition passes_last_test (st : Clock.SimulationClock * Point) : bool :=
  match snd st with
  | AtRunningCheck3 => Clock.running (fst st)
  | _ => false
  end.

(** A tick is in flight: the thread will publish it whatever the other
    threads do from now on. *)
Definition time_in_flight (st : Clock.SimulationClock * Point) : bool :=
  committed_to_time (snd st) || passes_last_test st.

Definition steps_in_flight (st : Clock.SimulationClock * Point) : bool :=
  committed_to_steps (snd st) || passes_last_test st.

(** From [st] to [st'] the time has not changed and no tick has come in
    flight, or the tick that was in flight has been published, with the
    step size of [st] when the thread held the mutex there. *)
Definition time_carried (fadd : Q -> Q -> Q)
    (st st' : Clock.SimulationClock * Point) : Prop :=
  (Clock.current_time (fst st') = Clock.current_time (fst st)
   /\ (time_in_flight st' = true -> time_in_flight st = true)
   /\ (time_in_flight st' = true -> holds_mutex (snd st) = true ->
       holds_mutex (snd st') = true /\ Clock.dt (fst st') = Clock.dt (fst st)))
  \/ (time_in_flight st = true /\ time_in_flight st' = false
      /\ exists d,
           Clock.current_time (fst st') = fadd (Clock.current_time (fst st)) d
           /\ (holds_mutex (snd st) = true -> d = Clock.dt (fst st))).

Definition steps_carried (st st' : Clock.SimulationClock * Point) : Prop :=
  (Clock.time_steps (fst st') = Clock.time_steps (fst st)
   /\ (steps_in_flight st' = true -> steps_in_flight st = true))
  \/ (steps_in_flight st = true /\ steps_in_flight st' = false
      /\ Clock.time_steps (fst st')
         = wrap_u64 (Clock.time_steps (fst st) + 1)).

(** The thread has stored the new time of a tick and not yet incremented
    the step count. *)
Definition steps_owed (p : Point) : Z :=
  match p with
  | AtFirstSteps | AtPublishSteps => 1
  | _ => 0
  end.

Definition asleep (p : Point) : bool :=
  match p with
  | AsleepAtBarrier | AsleepAtPause => true
  | _ => false
  end.

Definition about_to_sleep (p : Point) : bool :=
  match p with
  | AboutToSleepAtBarrier | AboutToSleepAtPause => true
  | _ => false
  end.

Definition is_Resume (e : Event) : bool :=
  match e with
  | Resume => true
  | _ => false
  end.

Definition is_SetTimeStep (e : Event) : bool :=
  match e with
  | SetTimeStep _ => true
  | _ => false
  end.

(** The events that wake a thread asleep in the pause loop
    ([cv_step_start]), and those that wake a thread asleep at the barrier
    ([cv_step_end]). *)
Definition wakes_pause_wait (e : Event) : bool :=
  match e with
  | NotifyAllStepStart | SpuriousWake => true
  | _ => false
  end.

Definition wakes_barrier_wait (e : Event) : bool :=
  match e with
  | NotifyStepCompleted | NotifyAllStepEnd | SpuriousWake => true
  | _ => false
  end.

(** The point of this model at which the thread is when [Clock.clock_step]
    moves it from a location, the point at which it is when a move of
    [Clock.clock_step] has brought it to a location, and the point at
    which it sleeps when [Clock.clock_step] has no move. *)
Definition awake_at (loc : Clock.Location) : Point :=
  match loc with
  | Clock.BeforeStart => AtStartCheck
  | Clock.AtBarrier => AtLoopHead
  | Clock.AtPauseWait => WokenAtPause
  | Clock.Returned => Returned
  end.

Definition resting_at (loc : Clock.Location) : Point :=
  match loc with
  | Clock.BeforeStart => AtStartCheck
  | Clock.AtBarrier => AtLoopHead
  | Clock.AtPauseWait => AsleepAtPause
  | Clock.Returned => Returned
  end.

Definition asleep_at (loc : Clock.Location) : Point :=
  match loc with
  | Clock.AtBarrier => AsleepAtBarrier
  | Clock.AtPauseWait => AsleepAtPause
  | Clock.BeforeStart => AtStartCheck
  | Clock.Returned => Returned
  end.

End ClockThread.

(** [n] sums with the same second operand, as the clock computes the time
    of tick [n]. *)
Definition repeated_sum (fadd : Q -> Q -> Q) (d : Q) (n : nat) (t : Q) : Q :=
  Nat.iter n (fun x => fadd x d) t.

Fixpoint Qpow (x : Q) (n : nat) : Q :=
  match n with
  | O => 1
  | S n' => (x * Qpow x n')%Q
  end.

(** ** Sequences of calls on the bus and on the manager *)

(** [publish] called for each event of the list, in order. *)
Definition publish_all (events : list string) (b : Bus.EventBus)
  : Bus.EventBus :=
  fold_left (fun acc e => fst (Bus.publish e acc)) events b.

(** How often [e] is in a list of event names. *)
Definition occurrences (e : string) (events : list string) : nat :=
  length (List.filter (fun item => String.eqb item e) events).

(** The action table is the default one: not loaded yet (the first
    [getActionConfig] loads it), or loaded by [loadDefaultConfig]. *)
Definition default_config (c : ActionsConfig.t) : Prop :=
  ActionsConfig.config_loaded c = false
  \/ ActionsConfig.action_configs c = ActionsConfig.default_configs.

(** The two actions that give the automatic system authority. *)
Definition hands_authority_to_auto (a : ControllerAction) : bool :=
  match a with
  | SWITCH_TO_AUTO_MODE | SWITCH_TO_SEMI_AUTO_MODE => true
  | _ => false
  end.

(** The controllers [startController] checks an authority flag for. *)
Definition gated (name : string) : bool :=
  Manager.needs_throttle_authority name || Manager.needs_brake_authority name.

(** The effect of one flag entry of a [state_settings] map. *)
Definition flag_setting (settings : gmap string string) (var_name : string)
    (store : bool -> SharedStateSpace -> SharedStateSpace)
    (s : SharedStateSpace) : SharedStateSpace :=
  match settings !! var_name with
  | Some value => store (String.eqb value "true") s
  | None => s
  end.

(** Whether the table has an entry [name] whose condition holds in [s]. *)
Definition condition_holds (event_definitions : gmap string EventDefinition)
    (s : SharedStateSpace) (name : string) : bool :=
  match event_definitions !! name with
  | Some event => trigger_condition event s
  | None => false
  end.

(** No action of the event table gives the automatic system authority. *)
Definition table_never_hands_over
    (event_definitions : gmap string EventDefinition) : bool :=
  forallb
    (fun entry =>
       forallb (fun a => negb (hands_authority_to_auto a))
         (actions (snd entry)))
    (map_to_list event_definitions).

(** A step of the runtime that leaves the automatic system without
    authority: any step but a write of the shared state that sets one of
    its two flags. *)
Definition keeps_manual_authority (st : Runtime.Step) : bool :=
  match st with
  | Runtime.StateChange s =>
      negb (auto_system_has_throttle_control (control_auth s))
      && negb (auto_system_has_brake_control (control_auth s))
  | _ => true
  end.

(** The automatic system has no authority and no gated controller runs. *)
Definition manual_and_idle (m : Manager.ControllerManagerThread) : Prop :=
  default_config (Manager.config m)
  /\ auto_system_has_throttle_control (control_auth (Manager.state m)) = false
  /\ auto_system_has_brake_control (control_auth (Manager.state m)) = false
  /\ forall g, gated g = true -> Manager.controllers m !! g <> Some true.

(** ** PitchHold_controller.hpp *)

Module PitchHold.

(** [#define M_PI 3.14159265358979323846]. *)
Definition M_PI : Q := 3.14159265358979323846.

Definition MAX_CONTROL_OUTPUT : Q := 1.
Definition MIN_CONTROL_OUTPUT : Q := -1.
Definition INTEGRAL_LIMIT : Q := 10.

(** The atomics of [PitchHoldController]. *)
Record PitchHoldController : Type := {
  pid_kp : Q;
  pid_ki : Q;
  pid_kd : Q;
  target_pitch_angle : Q;
  integral_error : Q;
  previous_error : Q
}.

Definition create : PitchHoldController :=
  {| pid_kp := 1; pid_ki := 0.1; pid_kd := 0.05; target_pitch_angle := 0;
     integral_error := 0; previous_error := 0 |}.

Definition setTargetPitch (target_pitch : Q) (c : PitchHoldController)
  : PitchHoldController :=
  {| pid_kp := pid_kp c; pid_ki := pid_ki c; pid_kd := pid_kd c;
     target_pitch_angle := target_pitch;
     integral_error := integral_error c;
     previous_error := previous_error c |}.

Definition setPIDParameters (kp ki kd : Q) (c : PitchHoldController)
  : PitchHoldController :=
  {| pid_kp := kp; pid_ki := ki; pid_kd := kd;
     target_pitch_angle := target_pitch_angle c;
     integral_error := integral_error c;
     previous_error := previous_error c |}.

Definition resetIntegral (c : PitchHoldController) : PitchHoldController :=
  {| pid_kp := pid_kp c; pid_ki := pid_ki c; pid_kd := pid_kd c;
     target_pitch_angle := target_pitch_angle c;
     integral_error := 0;
     previous_error := previous_error c |}.

(** [calculatePIDOutput]: the output and the controller with the integral
    and the previous error stored. *)
Definition calculatePIDOutput (current_pitch target_pitch : Q)
    (c : PitchHoldController) : Q * PitchHoldController :=
  let error := (target_pitch - current_pitch)%Q in
  let error := std_max (- M_PI) (std_min M_PI error) in
  let kp := pid_kp c in
  let proportional := (kp * error)%Q in
  let ki := pid_ki c in
  let integral := (integral_error c + ki * error * 0.01)%Q in
  let integral :=
    std_max (- INTEGRAL_LIMIT) (std_min INTEGRAL_LIMIT integral) in
  let kd := pid_kd c in
  let derivative := (kd * (error - previous_error c) / 0.01)%Q in
  let output := (proportional + integral + derivative)%Q in
  let output :=
    std_max MIN_CONTROL_OUTPUT (std_min MAX_CONTROL_OUTPUT output) in
  (output,
   {| pid_kp := pid_kp c; pid_ki := pid_ki c; pid_kd := pid_kd c;
      target_pitch_angle := target_pitch_angle c;
      integral_error := integral;
      previous_error := error |}).

Definition applyPitchControl (control_output : Q) (state : SharedStateSpace)
  : SharedStateSpace :=
  store_pitch_control_output control_output state.

Definition updatePitchControl
    (cs : PitchHoldController * SharedStateSpace)
  : PitchHoldController * SharedStateSpace :=
  let '(c, state) := cs in
  let current_pitch := pitch_angle state in
  let target_pitch := target_pitch_angle c in
  let '(control_output, c') :=
    calculatePIDOutput current_pitch target_pitch c in
  (c', applyPitchControl control_output state).

(** The loop body of [run()] between [waitForNextStep] and
    [notifyStepCompleted]. *)
Definition tick (cs : PitchHoldController * SharedStateSpace)
  : PitchHoldController * SharedStateSpace :=
  if pitch_control_enabled (snd cs) then updatePitchControl cs else cs.

(** What happens to the controller and the state it works on: a tick of
    its thread, a call of one of its setters, or other threads writing
    the pitch angle or the enable flag. *)
Inductive Step : Type :=
| Tick
| SetTargetPitch (target_pitch : Q)
| SetPIDParameters (kp ki kd : Q)
| ResetIntegral
| PitchAngleWritten (pitch : Q)
| EnableWritten (enabled : bool).

Definition step (st : Step) (cs : PitchHoldController * SharedStateSpace)
  : PitchHoldController * SharedStateSpace :=
  match st with
  | Tick => tick cs
  | SetTargetPitch t => (setTargetPitch t (fst cs), snd cs)
  | SetPIDParameters kp ki kd => (setPIDParameters kp ki kd (fst cs), snd cs)
  | ResetIntegral => (resetIntegral (fst cs), snd cs)
  | PitchAngleWritten p => (fst cs, store_pitch_angle p (snd cs))
  | EnableWritten b => (fst cs, store_pitch_control_enabled b (snd cs))
  end.

Definition run (steps : list Step)
    (cs : PitchHoldController * SharedStateSpace)
  : PitchHoldController * SharedStateSpace :=
  fold_left (fun acc st => step st acc) steps cs.

(** The bounds the controller keeps. *)
Definition bounded (cs : PitchHoldController * SharedStateSpace) : Prop :=
  (MIN_CONTROL_OUTPUT <= pitch_control_output (snd cs) <= MAX_CONTROL_OUTPUT)%Q
  /\ (- INTEGRAL_LIMIT <= integral_error (fst cs) <= INTEGRAL_LIMIT)%Q
  /\ (- M_PI <= previous_error (fst cs) <= M_PI)%Q.

End PitchHold.

(** ** virtual_pilot.hpp *)

Module Pilot.

Inductive Mode : Type :=
| MANUAL
| AUTO.

Inductive Phase : Type :=
| INIT
| ACCELERATE
| CRUISE
| BRAKE
| STOP.

Record ComplexVirtualPilot : Type := {
  mode_ : Mode;
  phase_ : Phase;
  target_speed_ : Q;
  manual_throttle_ : Q;
  manual_brake_ : Q
}.

Definition create (target_speed : Q) : ComplexVirtualPilot :=
  {| mode_ := AUTO; phase_ := INIT; target_speed_ := target_speed;
     manual_throttle_ := 0; manual_brake_ := 0 |}.

Definition with_phase (ph : Phase) (p : ComplexVirtualPilot)
  : ComplexVirtualPilot :=
  {| mode_ := mode_ p; phase_ := ph; target_speed_ := target_speed_ p;
     manual_throttle_ := manual_throttle_ p;
     manual_brake_ := manual_brake_ p |}.

Definition setMode (mode : Mode) (p : ComplexVirtualPilot)
  : ComplexVirtualPilot :=
  {| mode_ := mode; phase_ := phase_ p; target_speed_ := target_speed_ p;
     manual_throttle_ := manual_throttle_ p;
     manual_brake_ := manual_brake_ p |}.

Definition setManualInput (throttle brake : Q) (p : ComplexVirtualPilot)
  : ComplexVirtualPilot :=
  {| mode_ := mode_ p; phase_ := phase_ p; target_speed_ := target_speed_ p;
     manual_throttle_ := throttle; manual_brake_ := brake |}.

Definition onEvent (event_name : string) (p : ComplexVirtualPilot)
  : ComplexVirtualPilot :=
  if String.eqb event_name "AbortTakeoff" then with_phase BRAKE p
  else if String.eqb event_name "StartCruise" then with_phase CRUISE p
  else if String.eqb event_name "Stop" then with_phase STOP p
  else p.

(** [ComplexVirtualPilot::update]. *)
Definition update (ps : ComplexVirtualPilot * SharedStateSpace)
  : ComplexVirtualPilot * SharedStateSpace :=
  let '(p, state) := ps in
  match mode_ p with
  | MANUAL =>
      (p, store_brake (manual_brake_ p)
            (store_throttle (manual_throttle_ p) state))
  | AUTO =>
      let v := velocity state in
      match phase_ p with
      | INIT => (with_phase ACCELERATE p, state)
      | ACCELERATE =>
          if Qltb v (target_speed_ p - 2) then
            (p, store_brake 0 (store_throttle 1 state))
          else (with_phase CRUISE p, state)
      | CRUISE =>
          if Qltb (target_speed_ p + 2) v then (with_phase BRAKE p, state)
          else (p, store_brake 0 (store_throttle 0.3 state))
      | BRAKE =>
          if Qltb 2 v then (p, store_brake 1 (store_throttle 0 state))
          else (with_phase STOP p, state)
      | STOP => (p, store_brake 0 (store_throttle 0 state))
      end
  end.

(** A call on the pilot, or the rest of the simulation changing the
    shared state. *)
Inductive Step : Type :=
| Update
| SetMode (mode : Mode)
| SetManualInput (throttle brake : Q)
| OnEvent (event_name : string)
| StateWritten (new_state : SharedStateSpace).

Definition step (st : Step) (ps : ComplexVirtualPilot * SharedStateSpace)
  : ComplexVirtualPilot * SharedStateSpace :=
  match st with
  | Update => update ps
  | SetMode m => (setMode m (fst ps), snd ps)
  | SetManualInput t b => (setManualInput t b (fst ps), snd ps)
  | OnEvent e => (onEvent e (fst ps), snd ps)
  | StateWritten s => (fst ps, s)
  end.

Definition run (steps : list Step)
    (ps : ComplexVirtualPilot * SharedStateSpace)
  : ComplexVirtualPilot * SharedStateSpace :=
  fold_left (fun acc st => step st acc) steps ps.

(** The position of a phase in the declaration of [enum class Phase]. *)
Definition phase_index (ph : Phase) : nat :=
  match ph with
  | INIT => 0
  | ACCELERATE => 1
  | CRUISE => 2
  | BRAKE => 3
  | STOP => 4
  end.

Definition is_OnEvent (st : Step) : bool :=
  match st with
  | OnEvent _ => true
  | _ => false
  end.

End Pilot.

(** ** data_recorder.hpp: DataRecorderThread *)

Module RecorderThread.

(** The locals of [run()] that outlive an iteration, and the logger the
    thread writes to. *)
Record Locals : Type := {
  output_count : Z;          (* size_t *)
  next_time : Q;
  logger_ : Recorder.FileLogger
}.

(** The block before the loop: one record at time 0.  [None]: the call
    of [recordData] has thrown. *)
Definition initial_output (state : SharedStateSpace) (can_open : bool)
    (logger : Recorder.FileLogger) : option Locals :=
  let t := 0%Q in
  let output_count := wrap_u64 (0 + 1) in
  match Recorder.recordData (Recorder.sample t state) can_open logger with
  | Recorder.Returns l =>
      Some {| output_count := output_count; next_time := 0.01; logger_ := l |}
  | Recorder.Throws _ => None
  end.

(** One iteration of the loop, between [waitForNextStep] and
    [notifyStepCompleted]: the clock time read, the state the loads see,
    and whether the file can be opened. *)
Definition iteration (tick : Q * SharedStateSpace * bool) (th : Locals)
  : option Locals :=
  let '(current_clock_time, state, can_open) := tick in
  if Qle_bool (next_time th) current_clock_time then
    let output_count := wrap_u64 (output_count th + 1) in
    match Recorder.recordData (Recorder.sample (next_time th) state) can_open
            (logger_ th) with
    | Recorder.Returns l =>
        Some {| output_count := output_count;
                next_time := (next_time th + 0.01)%Q;
                logger_ := l |}
    | Recorder.Throws _ => None
    end
  else Some th.

Fixpoint iterations (ticks : list (Q * SharedStateSpace * bool)) (th : Locals)
  : option Locals :=
  match ticks with
  | [] => Some th
  | tick :: ticks' =>
      match iteration tick th with
      | Some th' => iterations ticks' th'
      | None => None
      end
  end.

(** [run()] on a logger as constructed. *)
Definition run (state0 : SharedStateSpace) (can_open0 : bool)
    (ticks : list (Q * SharedStateSpace * bool)) : option Locals :=
  match initial_output state0 can_open0 Recorder.create with
  | Some th => iterations ticks th
  | None => None
  end.

Definition is_warning (e : Recorder.RecorderLog) : bool :=
  match e with
  | Recorder.WarnNonIncreasingTime _ _ => true
  | Recorder.ErrorCannotOpenFile => false
  end.

(** The times [0, 0.01, 0.02, ...] of the first [n] records. *)
Definition grid (n : nat) : list Q :=
  List.map (fun k => (inject_Z (Z.of_nat k) * 0.01)%Q) (seq 0 n).

End RecorderThread.

(** ** simulation_manager.hpp: SimulationControlThread *)

Module SimulationControl.

(** The members of [SimulationControlThread] and the locals of [run()];
    [looping] is false once the loop has been left by [break]. *)
Record SimulationControlThread : Type := {
  paused : bool;
  last_space_pressed : bool;
  last_esc_pressed : bool;
  looping : bool
}.

Definition started : SimulationControlThread :=
  {| paused := false; last_space_pressed := false;
     last_esc_pressed := false; looping := true |}.

Record World : Type := {
  thread : SimulationControlThread;
  state : SharedStateSpace;
  clock : Clock.SimulationClock
}.

(** One round of the [while (running)] loop of [run()], with what the two
    calls of [GetAsyncKeyState] report. *)
Definition poll (space_pressed esc_pressed : bool) (w : World) : World :=
  let th := thread w in
  if negb (looping th) then w
  else
    (* the space key: pause or resume on a rising edge *)
    let '(paused1, state1, clock1) :=
      if space_pressed && negb (last_space_pressed th) then
        if paused th then
          (false, store_simulation_running true (state w),
           Clock.resume (clock w))
        else
          (true, store_simulation_running false (state w),
           Clock.pause (clock w))
      else (paused th, state w, clock w) in
    if esc_pressed && negb (last_esc_pressed th) then
      {| thread := {| paused := paused1; last_space_pressed := space_pressed;
                      last_esc_pressed := last_esc_pressed th;
                      looping := false |};
         state := store_simulation_running false state1;
         clock := Clock.stop clock1 |}
    else if Qltb 1500 (position state1) || Qltb 180 (simulation_time state1)
    then
      {| thread := {| paused := paused1; last_space_pressed := space_pressed;
                      last_esc_pressed := esc_pressed; looping := false |};
         state := store_simulation_running false state1;
         clock := Clock.stop clock1 |}
    else
      {| thread := {| paused := paused1; last_space_pressed := space_pressed;
                      last_esc_pressed := esc_pressed; looping := true |};
         state := state1; clock := clock1 |}.

(** A round of the loop, or the rest of the simulation writing the shared
    state (the clock is paused, resumed and stopped by this thread only). *)
Inductive Step : Type :=
| Poll (space_pressed esc_pressed : bool)
| StateWritten (new_state : SharedStateSpace).

Definition step (st : Step) (w : World) : World :=
  match st with
  | Poll sp esc => poll sp esc w
  | StateWritten s => {| thread := thread w; state := s; clock := clock w |}
  end.

Definition run (steps : list Step) (w : World) : World :=
  fold_left (fun acc st => step st acc) steps w.

(** The rising edges of the space key in a list of rounds, the key being
    [last] before the first of them. *)
Fixpoint rising_edges (last : bool) (steps : list Step) : nat :=
  match steps with
  | [] => 0
  | Poll sp _ :: steps' =>
      ((if sp && negb last then 1 else 0) + rising_edges sp steps')%nat
  | StateWritten _ :: steps' => rising_edges last steps'
  end.

(** The rounds [Poll] of a list of key readings. *)
Definition polls (keys : list (bool * bool)) : list Step :=
  List.map (fun k => Poll (fst k) (snd k)) keys.

End SimulationControl.

(** ** version.hpp *)

Module Version.

Definition MAJOR : Z := 1.
Definition MINOR : Z := 0.
Definition PATCH : Z := 0.

Definition INT_MIN : Z := - 2 ^ 31.
Definition INT_MAX : Z := 2 ^ 31 - 1.

(** [VersionInfo::isNewerThan]. *)
Definition isNewerThan (major minor patch : Z) : bool :=
  if MAJOR >? major then true
  else if MAJOR <? major then false
  else if MINOR >? minor then true
  else if MINOR <? minor then false
  else PATCH >? patch.

(** Subtraction of two [int]s; [None] where the result is not an [int]
    (signed overflow, for which the language defines no result). *)
Definition int_sub (a b : Z) : option Z :=
  let r := a - b in
  if (INT_MIN <=? r) && (r <=? INT_MAX) then Some r else None.

(** [VersionUtils::compareVersions]. *)
Definition compareVersions (major1 minor1 patch1 major2 minor2 patch2 : Z)
  : option Z :=
  if negb (major1 =? major2) then int_sub major1 major2
  else if negb (minor1 =? minor2) then int_sub minor1 minor2
  else int_sub patch1 patch2.

(** The order of version triples. *)
Definition version_lt (a b : Z * Z * Z) : Prop :=
  let '(major1, minor1, patch1) := a in
  let '(major2, minor2, patch2) := b in
  major1 < major2
  \/ (major1 = major2
      /\ (minor1 < minor2 \/ (minor1 = minor2 /\ patch1 < patch2))).

End Version.

(** ** controller_actions_config.hpp: reading the configuration file

    A [std::string] is a sequence of bytes; so is a [string] here (a
    name in Chinese is several bytes, none of them an ASCII character). *)

Module ConfigFile.

Import Stdlib.Strings.Ascii.
Local Open Scope string_scope.

(** [s.find(c)]; [None] is [npos]. *)
Fixpoint find (c : ascii) (s : string) : option nat :=
  match s with
  | EmptyString => None
  | String a s' =>
      if Ascii.eqb a c then Some 0%nat else option_map S (find c s')
  end.

(** [s.substr(0, n)] and [s.substr(n)], for [n] up to the length. *)
Fixpoint substr_to (n : nat) (s : string) : string :=
  match n, s with
  | S n', String a s' => String a (substr_to n' s')
  | _, _ => EmptyString
  end.

Fixpoint substr_from (n : nat) (s : string) : string :=
  match n, s with
  | S n', String _ s' => substr_from n' s'
  | _, _ => s
  end.

Definition is_blank (a : ascii) : bool :=
  Ascii.eqb a " " || Ascii.eqb a "009".

(** [s.find_first_not_of(" \t")] and [s.find_last_not_of(" \t")]. *)
Fixpoint find_first_not_of_blank (s : string) : option nat :=
  match s with
  | EmptyString => None
  | String a s' =>
      if is_blank a then option_map S (find_first_not_of_blank s')
      else Some 0%nat
  end.

Fixpoint find_last_not_of_blank (s : string) : option nat :=
  match s with
  | EmptyString => None
  | String a s' =>
      match find_last_not_of_blank s' with
      | Some k => Some (S k)
      | None => if is_blank a then None else Some 0%nat
      end
  end.

(** [s.erase(0, s.find_first_not_of(" \t"))]: a count of [npos] erases
    the whole string. *)
Definition erase_leading_blanks (s : string) : string :=
  match find_first_not_of_blank s with
  | Some k => substr_from k s
  | None => EmptyString
  end.

(** [s.erase(s.find_last_not_of(" \t") + 1)]: [npos + 1] is 0, which
    erases the whole string. *)
Definition erase_trailing_blanks (s : string) : string :=
  match find_last_not_of_blank s with
  | Some k => substr_to (k + 1) s
  | None => EmptyString
  end.

(** The two [erase] calls the code uses together. *)
Definition erase_blanks (s : string) : string :=
  erase_trailing_blanks (erase_leading_blanks s).

(** The strings that [while (std::getline(iss, setting, ';'))] reads from
    a stream over [s]: the pieces between the semicolons; after the last
    semicolon nothing is read when nothing follows it. *)
Fixpoint getlines (s : string) : list string :=
  match s with
  | EmptyString => []
  | String a s' =>
      if Ascii.eqb a ";" then EmptyString :: getlines s'
      else match getlines s' with
           | [] => [String a EmptyString]
           | setting :: settings => String a setting :: settings
           end
  end.

(** The body of the [while] loop of [parseConfig] for one setting. *)
Definition parse_setting (state_settings : gmap string string)
    (setting : string) : gmap string string :=
  match find "=" setting with
  | Some equal_pos =>
      let var_name := substr_to equal_pos setting in
      let value := substr_from (equal_pos + 1) setting in
      let var_name := erase_blanks var_name in
      let value := erase_blanks value in
      <[var_name := value]> state_settings
  | None => state_settings
  end.

(** [ControllerActionsConfig::parseConfig]. *)
Definition parseConfig (config_str : string) : ControllerActionConfig :=
  match find "," config_str with
  | None =>
      {| controller_name := config_str; state_settings := ∅;
         action_type := ActionsConfig.getActionType config_str |}
  | Some comma_pos =>
      let controller_name := substr_to comma_pos config_str in
      let controller_name := erase_blanks controller_name in
      let state_settings_str := substr_from (comma_pos + 1) config_str in
      let state_settings_str := erase_leading_blanks state_settings_str in
      {| controller_name := controller_name;
         state_settings :=
           if String.eqb state_settings_str EmptyString then ∅
           else fold_left parse_setting (getlines state_settings_str) ∅;
         action_type := ActionsConfig.getActionType controller_name |}
  end.

(** The body of the [while (std::getline(file, line))] loop of
    [loadConfig]. *)
Definition load_line (line : string)
    (action_configs : gmap string ControllerActionConfig)
  : gmap string ControllerActionConfig :=
  match line with
  | EmptyString => action_configs
  | String first _ =>
      if Ascii.eqb first "#" then action_configs
      else
        match find "=" line with
        | None => action_configs
        | Some equal_pos =>
            let action_name := substr_to equal_pos line in
            let config_str := substr_from (equal_pos + 1) line in
            let action_name := erase_blanks action_name in
            let config_str := erase_blanks config_str in
            let config := parseConfig config_str in
            <[action_name := config]> action_configs
        end
  end.

(** A string without [c]. *)
Fixpoint lacks (c : ascii) (s : string) : bool :=
  match s with
  | EmptyString => true
  | String a s' => negb (Ascii.eqb a c) && lacks c s'
  end.

Definition first_not_blank (s : string) : bool :=
  match s with
  | EmptyString => true
  | String a _ => negb (is_blank a)
  end.

Fixpoint last_not_blank (s : string) : bool :=
  match s with
  | EmptyString => true
  | String a EmptyString => negb (is_blank a)
  | String _ s' => last_not_blank s'
  end.

(** A name or value as the file format has them: no comma, semicolon or
    equals sign in it, no blank at either end. *)
Definition plain (s : string) : bool :=
  lacks "," s && lacks ";" s && lacks "=" s
  && first_not_blank s && last_not_blank s.

(** The text of a list of settings: [var=value] joined by semicolons. *)
Fixpoint render (settings : list (string * string)) : string :=
  match settings with
  | [] => EmptyString
  | [(var_name, value)] => var_name ++ "=" ++ value
  | (var_name, value) :: settings' =>
      var_name ++ "=" ++ value ++ ";" ++ render settings'
  end.

(** The text of a line: [action = controller, settings]. *)
Definition render_line (action_name controller_name : string)
    (settings : list (string * string)) : string :=
  action_name ++ " = " ++ controller_name ++ ", " ++ render settings.

(** The settings map a list of settings stands for; a later entry for a
    name replaces an earlier one. *)
Definition settings_map (settings : list (string * string))
  : gmap string string :=
  fold_left (fun acc kv => <[fst kv := snd kv]> acc) settings ∅.

Definition all_plain (settings : list (string * string)) : bool :=
  forallb (fun kv => plain (fst kv) && plain (snd kv))
    settings.

(** What [loadConfig] passes to [parseConfig] for a rendered line: the
    text after the equals sign with the blanks at its ends erased. *)
Definition config_text (controller_name : string)
    (settings : list (string * string)) : string :=
  match settings with
  | [] => controller_name ++ ","
  | _ => controller_name ++ ", " ++ render settings
  end.

End ConfigFile.

(** * Properties *)

(** ** Shared state *)

Lemma wrap_u64_succ (v : Z) :
  0 <= v < 2 ^ 64 - 1 -> wrap_u64 (v + 1) = v + 1.
Proof. intros H. unfold wrap_u64. apply Z.mod_small. lia. Qed.

Lemma same_atomics_updateState (new : StateSnapshot) (s : SharedStateSpace) :
  same_atomics s (updateState new s).
Proof. unfold same_atomics. repeat split. Qed.

Lemma getState_updateState (new : StateSnapshot) (s : SharedStateSpace) :
  getState (updateState new s) = getState s.
Proof. reflexivity. Qed.

Lemma getState_updateState_all (news : list StateSnapshot) :
  forall s, getState (updateState_all news s) = getState s.
Proof.
  induction news as [|n news IH]; intros s; [reflexivity|].
  unfold updateState_all in *. simpl. rewrite IH. apply getState_updateState.
Qed.

(** C10. [updateState] replaces [current_state] by its argument, moves
    [state_version] to the next [uint64_t] value (plus one, as long as the
    counter does not wrap) and leaves every atomic member as it was;
    [getState] is made of the atomic members only, so it returns the same
    snapshot before and after any sequence of [updateState] calls. *)
Theorem updateState_getState_decoupled
    (new : StateSnapshot) (news : list StateSnapshot) (s : SharedStateSpace) :
  current_state (updateState new s) = new
  /\ state_version (updateState new s) = wrap_u64 (state_version s + 1)
  /\ (0 <= state_version s < 2 ^ 64 - 1 ->
      state_version (updateState new s) = state_version s + 1)
  /\ same_atomics s (updateState new s)
  /\ getState (updateState new s) = getState s
  /\ getState (updateState_all news s) = getState s
  /\ (forall s', same_atomics s s' -> getState s' = getState s).
Proof.
  split; [reflexivity|]. split; [reflexivity|].
  split; [intros H; simpl; now apply wrap_u64_succ|].
  split; [apply same_atomics_updateState|].
  split; [apply getState_updateState|].
  split; [apply getState_updateState_all|].
  intros s' H. unfold same_atomics in H. unfold getState.
  destruct H as (-> & -> & -> & -> & -> & -> & -> & -> & -> & _ & _ & _ & _
                 & _ & _ & _ & _ & _ & _ & _ & _ & _ & -> & -> & -> & _).
  reflexivity.
Qed.

Lemma updateState_getState_decoupled_witness :
  state_version (updateState (getState initial_state) initial_state) = 1
  /\ getState (updateState zero_snapshot (store_velocity 3 initial_state))
     = getState (store_velocity 3 initial_state).
Proof.
  pose proof (updateState_getState_decoupled (getState initial_state) []
                initial_state) as (_ & _ & H & _).
  pose proof (updateState_getState_decoupled zero_snapshot []
                (store_velocity 3 initial_state)) as (_ & _ & _ & _ & G & _).
  split; [apply H; simpl; lia | exact G].
Defined.

(** ** Flight mode and authority *)

Lemma setFlightMode_control_auth (mode : FlightMode) (s : SharedStateSpace) :
  control_auth (setFlightMode mode s)
  = match mode with
    | MANUAL => authority true true false false
    | AUTO => authority false false true true
    | SEMI_AUTO => authority true true true true
    end.
Proof. destruct mode; reflexivity. Qed.

Lemma apply_setting_control_auth (k v : string) (s : SharedStateSpace) :
  control_auth (Manager.apply_setting k v s) = control_auth s.
Proof.
  unfold Manager.apply_setting.
  repeat (match goal with |- context [String.eqb ?a ?b] =>
            destruct (String.eqb a b) end); reflexivity.
Qed.

Lemma applyStateSettings_control_auth
    (settings : gmap string string) (s : SharedStateSpace) :
  control_auth (Manager.applyStateSettings settings s) = control_auth s.
Proof.
  unfold Manager.applyStateSettings.
  apply (map_fold_weak_ind (fun r _ => control_auth r = control_auth s));
    [reflexivity|].
  intros i x m r _ IH. now rewrite apply_setting_control_auth.
Qed.

Lemma startController_state (n : string) (m : Manager.ControllerManagerThread) :
  Manager.state (Manager.startController n m) = Manager.state m.
Proof.
  unfold Manager.startController.
  destruct (Manager.controllers m !! n); [|reflexivity].
  repeat (match goal with |- context [if ?b then _ else _] =>
            destruct b end); reflexivity.
Qed.

Lemma stopController_state (n : string) (m : Manager.ControllerManagerThread) :
  Manager.state (Manager.stopController n m) = Manager.state m.
Proof.
  unfold Manager.stopController.
  destruct (Manager.controllers m !! n); reflexivity.
Qed.

Lemma manager_setFlightMode_state
    (nm : string) (m : Manager.ControllerManagerThread) :
  Manager.state (Manager.setFlightMode nm m)
  = match mode_of_name nm with
    | Some md => setFlightMode md (Manager.state m)
    | None => Manager.state m
    end.
Proof.
  unfold Manager.setFlightMode, mode_of_name.
  repeat (match goal with |- context [String.eqb ?a ?b] =>
            destruct (String.eqb a b) end); reflexivity.
Qed.

Lemma getActionConfig_loaded (n : string) (c : ActionsConfig.t) :
  ActionsConfig.getActionConfig n (snd (ActionsConfig.getActionConfig n c))
  = ActionsConfig.getActionConfig n c.
Proof.
  unfold ActionsConfig.getActionConfig.
  destruct (ActionsConfig.config_loaded c) eqn:E; simpl; [now rewrite E|].
  reflexivity.
Qed.

Lemma executeControllerAction_config
    (a : ControllerAction) (m : Manager.ControllerManagerThread) :
  Manager.config (Manager.executeControllerAction a m)
  = snd (ActionsConfig.getActionConfig (Manager.getActionName a)
           (Manager.config m)).
Proof.
  unfold Manager.executeControllerAction.
  destruct (ActionsConfig.getActionConfig _ _) as [[cfg|] c']; simpl;
    [|reflexivity].
  unfold Manager.startController, Manager.stopController,
    Manager.stopAllControllers, Manager.setFlightMode.
  repeat (match goal with
          | |- context [if ?b then _ else _] => destruct b
          | |- context [match ?x !! ?k with _ => _ end] => destruct (x !! k)
          end; simpl); reflexivity.
Qed.

Lemma executeControllerAction_control_auth
    (a : ControllerAction) (m : Manager.ControllerManagerThread) :
  control_auth (Manager.state (Manager.executeControllerAction a m))
  = match action_mode a (Manager.config m) with
    | Some md => control_auth (setFlightMode md (Manager.state m))
    | None => control_auth (Manager.state m)
    end.
Proof.
  unfold Manager.executeControllerAction, action_mode.
  destruct (ActionsConfig.getActionConfig _ _) as [[cfg|] c']; simpl;
    [|reflexivity].
  destruct (String.eqb (action_type cfg) "CONTROLLER").
  { destruct (String.prefix "START_" _);
      [rewrite startController_state|
       destruct (String.prefix "STOP_" _);
       [rewrite stopController_state|]];
      simpl; apply applyStateSettings_control_auth. }
  destruct (String.eqb (action_type cfg) "STOP_ALL"); [reflexivity|].
  destruct (String.eqb (action_type cfg) "MODE"); [|reflexivity].
  destruct (state_settings cfg !! "flight_mode") as [nm|]; [|reflexivity].
  rewrite manager_setFlightMode_state. simpl.
  destruct (mode_of_name nm); reflexivity.
Qed.

(** C7. [setFlightMode] sets the four authority flags as a group: AUTO
    gives the pilot none and the automatic system both, MANUAL the
    complement, SEMI_AUTO all four; setting the same mode again changes
    nothing, and executing an action twice in a row (a Mode action in
    particular) leaves the authority flags as after executing it once. *)
Theorem setFlightMode_authority_group :
  (forall s, control_auth (setFlightMode AUTO s)
             = authority false false true true)
  /\ (forall s, control_auth (setFlightMode MANUAL s)
                = authority true true false false)
  /\ (forall s, control_auth (setFlightMode SEMI_AUTO s)
                = authority true true true true)
  /\ (forall mode s, flight_mode (setFlightMode mode s) = mode)
  /\ (forall mode s, setFlightMode mode (setFlightMode mode s)
                     = setFlightMode mode s)
  /\ (forall action m,
        control_auth
          (Manager.state (Manager.executeControllerActions [action; action] m))
        = control_auth
            (Manager.state (Manager.executeControllerActions [action] m))).
Proof.
  repeat split; try (intros; reflexivity).
  - intros mode s. destruct mode; reflexivity.
  - intros mode s. destruct mode; reflexivity.
  - intros action m. simpl.
    rewrite (executeControllerAction_control_auth action
               (Manager.executeControllerAction action m)).
    rewrite executeControllerAction_config.
    unfold action_mode at 1. rewrite getActionConfig_loaded.
    fold (action_mode action (Manager.config m)).
    rewrite executeControllerAction_control_auth.
    destruct (action_mode action (Manager.config m)) as [md|]; [|reflexivity].
    now rewrite !setFlightMode_control_auth.
Qed.

(** ** The authority gate of the controller manager *)

Lemma startController_denied (name : string)
    (m : Manager.ControllerManagerThread) :
  start_denied name m ->
  Manager.controllers (Manager.startController name m) = Manager.controllers m
  /\ Manager.state (Manager.startController name m) = Manager.state m
  /\ exists entry,
       Manager.log (Manager.startController name m) = entry :: Manager.log m
       /\ (entry = LogLacksThrottleControl name
           \/ entry = LogLacksBrakeControl name
           \/ entry = LogControllerNotFound name).
Proof.
  intros Hd. unfold Manager.startController.
  destruct (Manager.controllers m !! name) as [r|].
  2:{ simpl. repeat split. eexists; split; [reflexivity|]. auto. }
  destruct Hd as [[Hn Ha]|[Hn Ha]]; rewrite Hn, Ha; simpl.
  - repeat split. eexists; split; [reflexivity|]. auto.
  - destruct (Manager.needs_throttle_authority name
              && negb (auto_system_has_throttle_control
                         (control_auth (Manager.state m)))); simpl;
      (repeat split; eexists; split; [reflexivity|]; auto).
Qed.

Lemma startController_started (name : string)
    (m : Manager.ControllerManagerThread) :
  Manager.controllers (Manager.startController name m) <> Manager.controllers m ->
  ~ start_denied name m.
Proof.
  intros Hne Hd. apply Hne. now apply startController_denied.
Qed.

Lemma executeControllerAction_start
    (action : ControllerAction) (cfg : ControllerActionConfig)
    (m : Manager.ControllerManagerThread) :
  fst (ActionsConfig.getActionConfig (Manager.getActionName action)
         (Manager.config m)) = Some cfg ->
  action_type cfg = "CONTROLLER" ->
  String.prefix "START_" (Manager.getActionName action) = true ->
  Manager.executeControllerAction action m
  = Manager.log_detail
      (LogExecutingAction (Manager.getActionName action) (controller_name cfg))
      (Manager.startController (controller_name cfg)
         (Manager.with_state
            (Manager.applyStateSettings (state_settings cfg) (Manager.state m))
            (Manager.with_config
               (snd (ActionsConfig.getActionConfig
                       (Manager.getActionName action) (Manager.config m)))
               m))).
Proof.
  intros Hcfg Hty Hpre. unfold Manager.executeControllerAction.
  destruct (ActionsConfig.getActionConfig _ _) as [found c'].
  simpl in Hcfg. subst found. rewrite Hty, Hpre. reflexivity.
Qed.

(** C8. A controller of the throttle group (throttle increase, throttle
    decrease, runway cruise) is started only with
    [auto_system_has_throttle_control], the brake controller only with
    [auto_system_has_brake_control].  A refused start changes no controller
    and writes one warning; when it comes from a START action, the
    [state_settings] of the action are in the shared state all the same,
    because they are applied before the check. *)
Theorem start_needs_authority
    (action : ControllerAction) (cfg : ControllerActionConfig)
    (m : Manager.ControllerManagerThread) :
  fst (ActionsConfig.getActionConfig (Manager.getActionName action)
         (Manager.config m)) = Some cfg ->
  action_type cfg = "CONTROLLER" ->
  String.prefix "START_" (Manager.getActionName action) = true ->
  is_Some (Manager.controllers m !! controller_name cfg) ->
  let m' := Manager.executeControllerAction action m in
  (start_denied (controller_name cfg) m ->
   Manager.controllers m' = Manager.controllers m
   /\ Manager.state m'
      = Manager.applyStateSettings (state_settings cfg) (Manager.state m)
   /\ (In (LogLacksThrottleControl (controller_name cfg)) (Manager.log m')
       \/ In (LogLacksBrakeControl (controller_name cfg)) (Manager.log m'))
   /\ ~ In (LogStartedController (controller_name cfg))
          (firstn 2 (Manager.log m')))
  /\ (~ start_denied (controller_name cfg) m ->
      Manager.controllers m'
      = <[controller_name cfg := true]> (Manager.controllers m))
  /\ (Manager.controllers m' <> Manager.controllers m ->
      ~ start_denied (controller_name cfg) m).
Proof.
  intros Hcfg Hty Hpre [r Hr] m'.
  assert (Hm' : m' = _) by (apply (executeControllerAction_start _ _ _ Hcfg Hty Hpre)).
  set (m1 := Manager.with_state _ _) in Hm'.
  assert (Hauth : control_auth (Manager.state m1) = control_auth (Manager.state m))
    by apply applyStateSettings_control_auth.
  assert (Hden : start_denied (controller_name cfg) m1
                 <-> start_denied (controller_name cfg) m).
  { unfold start_denied. now rewrite Hauth. }
  assert (Hdenied : start_denied (controller_name cfg) m ->
            Manager.controllers m' = Manager.controllers m
            /\ Manager.state m'
               = Manager.applyStateSettings (state_settings cfg) (Manager.state m)
            /\ (In (LogLacksThrottleControl (controller_name cfg)) (Manager.log m')
                \/ In (LogLacksBrakeControl (controller_name cfg)) (Manager.log m'))
            /\ ~ In (LogStartedController (controller_name cfg))
                   (firstn 2 (Manager.log m'))).
  { intros Hd. apply Hden in Hd.
    destruct (startController_denied _ _ Hd) as (Hc & Hs & e & Hl & He).
    rewrite Hm'. simpl. rewrite Hc, Hs, Hl. simpl.
    split; [reflexivity|]. split; [reflexivity|].
    assert (Hnf : e <> LogControllerNotFound (controller_name cfg)).
    { intros ->. revert Hl. unfold Manager.startController. simpl.
      rewrite Hr. repeat (match goal with |- context [if ?b then _ else _] =>
                            destruct b end); simpl; intros [=]. }
    split.
    - destruct He as [-> | [-> | ->]]; [left|right|congruence]; right; now left.
    - intros H. destruct H as [H|H]; [discriminate|].
      destruct H as [H|H]; [|exact H].
      destruct He as [-> | [-> | ->]]; congruence. }
  split; [exact Hdenied|]. split.
  - intros Hnd. rewrite Hm'. simpl.
    unfold Manager.startController. simpl. rewrite Hr.
    destruct (Manager.needs_throttle_authority (controller_name cfg)) eqn:Et;
      destruct (auto_system_has_throttle_control _) eqn:Ea; simpl;
      try (exfalso; apply Hnd; left; rewrite <- Hauth; now split);
      (destruct (Manager.needs_brake_authority (controller_name cfg)) eqn:Eb;
       destruct (auto_system_has_brake_control _) eqn:Ec; simpl;
       try reflexivity;
       exfalso; apply Hnd; right; rewrite <- Hauth; now split).
  - intros Hne Hd. apply Hne. now apply Hdenied.
Qed.

(** In MANUAL mode with the default action table, START_BRAKE sets
    [brake_control_enabled] and leaves the brake controller stopped. *)
Lemma start_needs_authority_witness :
  let m := Manager.create initial_state ActionsConfig.unloaded in
  let m' := Manager.executeControllerAction START_BRAKE m in
  brake_control_enabled (Manager.state m') = true
  /\ Manager.controllers m' !! "刹车" = Some false
  /\ Manager.controllers m' = Manager.controllers m.
Proof.
  intros m m'.
  destruct (start_needs_authority START_BRAKE
              (ActionsConfig.entry "刹车"
                 [("cruise_control_enabled", "false");
                  ("brake_control_enabled", "true")] "CONTROLLER") m)
    as (Hden & _ & _).
  - vm_compute. reflexivity.
  - reflexivity.
  - reflexivity.
  - exists false. vm_compute. reflexivity.
  - destruct Hden as (Hc & Hs & _).
    + right. split; reflexivity.
    + subst m'. split; [|split].
      * rewrite Hs. vm_compute. reflexivity.
      * rewrite Hc. vm_compute. reflexivity.
      * exact Hc.
Defined.

(** ** The tick barrier *)

Lemma wrap_u64_idem_succ (x : Z) : wrap_u64 (wrap_u64 x + 1) = wrap_u64 (x + 1).
Proof. unfold wrap_u64. now rewrite Z.add_mod_idemp_l by lia. Qed.

Lemma barrier_step_open (c : Clock.SimulationClock) :
  Clock.running c = true -> Clock.paused c = false ->
  Clock.registered_threads c <= Clock.completed_threads c ->
  Clock.clock_step (c, Clock.AtBarrier)
  = Some (Clock.publish_tick (Clock.with_completed 0 c), Clock.AtBarrier).
Proof.
  intros Hr Hp Hle. unfold Clock.clock_step, Clock.barrier_open.
  rewrite Hr. simpl.
  replace (Clock.registered_threads c <=? Clock.completed_threads c) with true
    by (symmetry; apply Z.leb_le; exact Hle).
  simpl. now rewrite Hp.
Qed.

Lemma barrier_step_closed (c : Clock.SimulationClock) :
  Clock.running c = true ->
  (Clock.clock_step (c, Clock.AtBarrier) = None
   <-> Clock.completed_threads c < Clock.registered_threads c).
Proof.
  intros Hr. unfold Clock.clock_step, Clock.barrier_open. rewrite Hr. simpl.
  rewrite orb_false_r.
  destruct (Clock.registered_threads c <=? Clock.completed_threads c) eqn:E.
  - apply Z.leb_le in E.
    destruct (Clock.paused _); split; intros H; try discriminate; lia.
  - apply Z.leb_gt in E. split; [intros _; exact E | reflexivity].
Qed.

Lemma loop_alone (k : nat) :
  forall (c : Clock.SimulationClock) (T : Z),
    Clock.running c = true -> Clock.paused c = false ->
    Clock.registered_threads c = 0 -> Clock.completed_threads c = 0 ->
    Clock.time_steps c = wrap_u64 T ->
    exists c',
      Clock.clock_moves k (c, Clock.AtBarrier) = Some (c', Clock.AtBarrier)
      /\ Clock.time_steps c' = wrap_u64 (T + Z.of_nat k)
      /\ Clock.registered_threads c' = 0.
Proof.
  induction k as [|k IH]; intros c T Hr Hp Hreg Hcomp Ht.
  - exists c. split; [reflexivity|]. split; [|exact Hreg].
    rewrite Ht. f_equal. lia.
  - cbn [Clock.clock_moves].
    rewrite barrier_step_open by (try assumption; lia).
    destruct (IH (Clock.publish_tick (Clock.with_completed 0 c)) (T + 1))
      as (c' & Hrun & Ht' & Hreg'); try assumption; try reflexivity.
    + simpl. rewrite Ht. apply wrap_u64_idem_succ.
    + exists c'. split; [exact Hrun|]. split; [|exact Hreg'].
      rewrite Ht'. f_equal. lia.
Qed.

(** C1 (as the code has it). With no worker registered the barrier does
    not hold the clock back: [start()], executed with no other thread
    acting, publishes tick 1, finds
    [completed_threads >= registered_threads] true at once (0 >= 0) and
    goes on publishing one tick per loop iteration, all by itself. *)
Theorem clock_runs_free_without_workers
    (c : Clock.SimulationClock) (k : nat) :
  Clock.running c = false ->
  Clock.registered_threads c = 0 ->
  Clock.completed_threads c = 0 ->
  exists c',
    Clock.start_alone k c = Some (c', Clock.AtBarrier)
    /\ Clock.time_steps c' = wrap_u64 (Clock.time_steps c + 1 + Z.of_nat k)
    /\ Clock.registered_threads c' = 0.
Proof.
  intros Hr Hreg Hcomp.
  unfold Clock.start_alone.
  cbn [Clock.clock_moves Clock.clock_step]. rewrite Hr.
  destruct (loop_alone k
              (Clock.publish_tick
                 (Clock.with_paused false (Clock.with_running true c)))
              (Clock.time_steps c + 1))
    as (c' & Hrun & Ht & Hreg'); try reflexivity; try assumption.
  exists c'. split; [exact Hrun|]. split; [exact Ht | exact Hreg'].
Qed.

Lemma clock_runs_free_without_workers_witness :
  exists c',
    Clock.start_alone 3 Clock.fresh = Some (c', Clock.AtBarrier)
    /\ Clock.time_steps c' = 4.
Proof.
  destruct (clock_runs_free_without_workers Clock.fresh 3)
    as (c' & Hrun & Ht & _); try reflexivity.
  exists c'. split; [exact Hrun | exact Ht].
Defined.

(** C1 as stated fails: a fresh clock, nobody registered; after the
    prologue of [start()] and one more move of the clock thread, tick 2 is
    out, and no worker has registered or completed anything. *)
Lemma clock_blocks_without_workers_counterexample :
  option_map
    (fun st => (Clock.time_steps (fst st), Clock.registered_threads (fst st),
                Clock.completed_threads (fst st), snd st))
    (Clock.clock_moves 1 (Clock.fresh, Clock.BeforeStart))
  = Some (1, 0, 0, Clock.AtBarrier)
  /\ option_map
       (fun st => (Clock.time_steps (fst st), Clock.registered_threads (fst st),
                   Clock.completed_threads (fst st), snd st))
       (Clock.clock_moves 2 (Clock.fresh, Clock.BeforeStart))
     = Some (2, 0, 0, Clock.AtBarrier).
Proof. split; reflexivity. Qed.

(** ** Arithmetic of the rational model of [double] *)

Lemma Qltb_true_iff (a b : Q) : Qltb a b = true <-> (a < b)%Q.
Proof.
  unfold Qltb. rewrite negb_true_iff. split.
  - intros H. apply Qnot_le_lt. intros Hle.
    apply Qle_bool_iff in Hle. congruence.
  - intros H. destruct (Qle_bool b a) eqn:E; [|reflexivity].
    apply Qle_bool_iff in E. exfalso. now apply (Qlt_not_le a b).
Qed.

Lemma Qltb_false_iff (a b : Q) : Qltb a b = false <-> (b <= a)%Q.
Proof.
  unfold Qltb. rewrite negb_false_iff. apply Qle_bool_iff.
Qed.

Ltac qcases :=
  repeat match goal with
    | |- context [Qltb ?a ?b] =>
        let E := fresh "E" in
        destruct (Qltb a b) eqn:E;
        [apply Qltb_true_iff in E | apply Qltb_false_iff in E]
    end.

Lemma std_abs_Qabs (a : Q) : (std_abs a == Qabs a)%Q.
Proof.
  unfold std_abs. qcases.
  - symmetry. apply Qabs_neg. lra.
  - symmetry. now apply Qabs_pos.
Qed.

Lemma Qltb_abs_true (a b : Q) : (Qabs a < b)%Q -> Qltb (std_abs a) b = true.
Proof. intros H. apply Qltb_true_iff. now rewrite std_abs_Qabs. Qed.

Lemma Qltb_abs_false (a b : Q) : ~ (Qabs a < b)%Q -> Qltb (std_abs a) b = false.
Proof.
  intros H. apply Qltb_false_iff. rewrite std_abs_Qabs.
  now apply Qnot_lt_le.
Qed.

Lemma std_min_max_unit (x : Q) : unit_interval (std_min 1 (std_max 0 x)).
Proof. unfold unit_interval, std_min, std_max. qcases; lra. Qed.

Lemma std_max_min_unit (x : Q) : unit_interval (std_max 0 (std_min x 1)).
Proof. unfold unit_interval, std_min, std_max. qcases; lra. Qed.

(** ** The integrator and the force model *)

Lemma committed_tick_fields (fm : Force.IForceModel) (cfg : AircraftConfigBase)
    (t : Q) (s : SharedStateSpace) :
  let f := fm s (velocity s) cfg in
  let a := (Force.net_force f / getMass cfg)%Q in
  let s' := Dynamics.committed_tick fm cfg t s in
  velocity s' = (velocity s + a * 0.01)%Q
  /\ position s' = (position s + velocity s * 0.01)%Q
  /\ acceleration s' = a
  /\ throttle s' = throttle s /\ brake s' = brake s.
Proof. repeat split. Qed.

(** C2 (the code at the failing input). The tick commits
    [v + (net_force / mass) * 0.01] as it is: neither the integrator nor
    the state manager clamps it.  AC1 aircraft rolling at 0.01 m/s with
    full brake and no throttle: the velocity committed by the tick is
    negative. *)
Theorem committed_velocity_not_clamped :
  (forall fm cfg t s,
     velocity (Dynamics.committed_tick fm cfg t s)
     = (velocity s
        + Force.net_force (fm s (velocity s) cfg) / getMass cfg * 0.01)%Q)
  /\ (velocity
        (Dynamics.committed_tick Force.ACForceModel AircraftConfig_FixedWin_AC1
           0.01 (store_brake 1 (store_velocity 0.01 initial_state)))
      < 0)%Q.
Proof.
  split; [reflexivity|]. vm_compute. reflexivity.
Qed.

(** C3 (the code at the failing input). The cruise controller works with
    the error [100 - velocity]: its target is the local constant, and
    [target_speed] of the shared state has no influence on what it writes.
    With [target_speed = 3] and [velocity = 50] it commands full throttle
    and no brake, where an error of [3 - 50] would command the brake. *)
Theorem cruise_ignores_target_speed :
  (forall s, Controllers.cruise_error s = (100 - velocity s)%Q)
  /\ (forall ts s,
        Controllers.cruise_updateThrottle (store_target_speed ts s)
        = store_target_speed ts (Controllers.cruise_updateThrottle s))
  /\ (let s := store_velocity 50 (store_target_speed 3 initial_state) in
      (Controllers.cruise_error s == 50)%Q
      /\ ~ (Controllers.cruise_error s == target_speed s - velocity s)%Q
      /\ (throttle (Controllers.cruise_updateThrottle s) == 1)%Q
      /\ (brake (Controllers.cruise_updateThrottle s) == 0)%Q
      /\ (fst (Controllers.calculateThrottleAndBrake (velocity s) (target_speed s))
          == 0)%Q
      /\ (snd (Controllers.calculateThrottleAndBrake (velocity s) (target_speed s))
          == 1)%Q).
Proof.
  split; [reflexivity|]. split.
  - intros ts s. unfold Controllers.cruise_updateThrottle. simpl.
    destruct (Controllers.calculateThrottleAndBrake _ _); reflexivity.
  - cbv zeta. repeat split; try (vm_compute; reflexivity).
    vm_compute. discriminate.
Qed.

Lemma ACForceModel_standing (s : SharedStateSpace) (v : Q)
    (cfg : AircraftConfigBase) :
  (Qabs v < 0.01)%Q ->
  let f := Force.ACForceModel s v cfg in
  let net0 := (Force.thrust f - Force.drag f - Force.brake_force f)%Q in
  Force.thrust f = (throttle s * getMaxThrust cfg)%Q
  /\ Force.brake_force f = 0%Q
  /\ Force.static_friction f
     = (getStaticFrictionCoefficient cfg * (getMass cfg * 9.81))%Q
  /\ Force.net_force f
     = if Qltb (std_abs net0) (Force.static_friction f) then 0%Q
       else (net0 - Force.static_friction f * (if Qltb 0 net0 then 1 else -1))%Q.
Proof.
  intros Hv. unfold Force.ACForceModel. cbv zeta.
  rewrite (Qltb_abs_true _ _ Hv). simpl. repeat split.
Qed.

(** C4 (the code at the failing input). The integrator advances the
    position by [velocity * 0.01] whatever the force model returns, so a
    net force held at 0 does not hold the aircraft: AC1 aircraft, no
    throttle, creeping at 0.005 m/s (below the 0.01 threshold); the force
    model finds the force below the static friction and returns net force
    0, the velocity stays 0.005, and the tick still moves the position from
    0 to 0.00005. *)
Theorem standing_aircraft_creeps :
  (forall fm cfg t s,
     position (Dynamics.committed_tick fm cfg t s)
     = (position s + velocity s * 0.01)%Q)
  /\ (let s := store_velocity 0.005 initial_state in
      let f := Force.ACForceModel s (velocity s) AircraftConfig_FixedWin_AC1 in
      let s' := Dynamics.committed_tick Force.ACForceModel
                  AircraftConfig_FixedWin_AC1 0.01 s in
      (Qabs (velocity s) < 0.01)%Q
      /\ Force.brake_force f = 0%Q
      /\ (Qabs (Force.thrust f - Force.drag f - Force.brake_force f)
          < Force.static_friction f)%Q
      /\ Force.net_force f = 0%Q
      /\ (velocity s' == 0.005)%Q
      /\ (position s == 0)%Q
      /\ (position s' == 0.00005)%Q
      /\ ~ (position s' == position s)%Q).
Proof.
  split; [reflexivity|]. cbv zeta.
  repeat split; try (vm_compute; reflexivity).
  vm_compute. discriminate.
Qed.

(** ** Saturation of throttle and brake *)

Lemma Forall_push (P : StateUpdateMessage -> Prop)
    (m : StateUpdateMessage) (q : StateUpdateQueue) :
  Forall P q -> P m -> Forall P (push m q).
Proof.
  intros Hq Hm. unfold push. apply Forall_app. split; [exact Hq|].
  constructor; [exact Hm | constructor].
Qed.

Lemma in_range_intro (s : SharedStateSpace) (q : StateUpdateQueue) :
  unit_interval (throttle s) -> unit_interval (brake s) ->
  Forall message_in_range q -> controls_in_range (s, q).
Proof. intros Ht Hb Hq. split; [exact Ht|]. split; [exact Hb | exact Hq]. Qed.

Lemma increase_tick_in_range (sq : SharedStateSpace * StateUpdateQueue) :
  controls_in_range sq -> controls_in_range (Controllers.increase_tick sq).
Proof.
  destruct sq as [s q]. intros (Ht & Hb & Hq). simpl in Ht, Hb, Hq.
  unfold Controllers.increase_tick, Controllers.increase_updateThrottle.
  cbn [fst snd].
  destruct (throttle_control_enabled s); [|now apply in_range_intro].
  destruct (Qltb _ _); apply in_range_intro; try assumption.
  apply Forall_push; [exact Hq|]. apply std_min_max_unit.
Qed.

Lemma decrease_tick_in_range (sq : SharedStateSpace * StateUpdateQueue) :
  controls_in_range sq -> controls_in_range (Controllers.decrease_tick sq).
Proof.
  destruct sq as [s q]. intros (Ht & Hb & Hq). simpl in Ht, Hb, Hq.
  unfold Controllers.decrease_tick, Controllers.decrease_updateThrottle.
  cbn [fst snd].
  destruct (throttle_control_enabled s); [|now apply in_range_intro].
  apply in_range_intro; try assumption.
  apply Forall_push; [exact Hq|].
  unfold message_in_range, unit_interval in *. cbn [msg_type msg_value].
  unfold Controllers.THROTTLE_DECREASE_RATE, Controllers.FIXED_DT.
  qcases; lra.
Qed.

Lemma brake_tick_in_range (sq : SharedStateSpace * StateUpdateQueue) :
  controls_in_range sq -> controls_in_range (Controllers.brake_tick sq).
Proof.
  destruct sq as [s q]. intros (Ht & Hb & Hq). simpl in Ht, Hb, Hq.
  unfold Controllers.brake_tick, Controllers.updateBrake. cbn [fst snd].
  destruct (brake_control_enabled s); [|now apply in_range_intro].
  apply in_range_intro; try assumption. simpl.
  unfold unit_interval in *.
  unfold ControllerConfig.BRAKE_RATE, ControllerConfig.MAX_BRAKE,
    Controllers.FIXED_DT.
  qcases; lra.
Qed.

Lemma cruise_tick_in_range (sq : SharedStateSpace * StateUpdateQueue) :
  controls_in_range sq -> controls_in_range (Controllers.cruise_tick sq).
Proof.
  destruct sq as [s q]. intros (Ht & Hb & Hq). simpl in Ht, Hb, Hq.
  unfold Controllers.cruise_tick, Controllers.cruise_updateThrottle.
  cbn [fst snd].
  destruct (cruise_control_enabled s); [|now apply in_range_intro].
  unfold Controllers.calculateThrottleAndBrake.
  destruct (Qltb 0 _); apply in_range_intro; try assumption; simpl;
    try apply std_max_min_unit; unfold unit_interval; lra.
Qed.

Lemma dynamics_step_in_range (fm : Force.IForceModel)
    (cfg : AircraftConfigBase) (t : Q)
    (sq : SharedStateSpace * StateUpdateQueue) :
  controls_in_range sq ->
  controls_in_range
    (Dynamics.step fm cfg t (store_simulation_time t (fst sq), snd sq)).
Proof.
  destruct sq as [s q]. intros (Ht & Hb & Hq). simpl in Ht, Hb, Hq.
  unfold Dynamics.step. cbn [fst snd].
  apply in_range_intro; try assumption.
  repeat apply Forall_push; try exact Hq; exact I.
Qed.

Lemma manager_pop_in_range (sq : SharedStateSpace * StateUpdateQueue) :
  controls_in_range sq ->
  controls_in_range
    match try_pop (snd sq) with
    | Some (m, q') => (process_raw_update m (fst sq), q')
    | None => sq
    end.
Proof.
  destruct sq as [s [|m q]]; intros (Ht & Hb & Hq); simpl in Ht, Hb, Hq;
    cbn [fst snd try_pop].
  - now apply in_range_intro.
  - inversion Hq as [|? ? Hm Hq']; subst.
    unfold process_raw_update, message_in_range in *.
    destruct (msg_type m); apply in_range_intro; assumption.
Qed.

(** C5. Throttle and brake never leave [0, 1]: if they are in range and no
    out-of-range throttle or brake write is waiting in the queue, then
    after any schedule of controller ticks (throttle increase, throttle
    decrease, brake, cruise), integrator ticks and state-manager pops they
    are in range again, and so is every write still queued. *)
Theorem controls_stay_in_range (fm : Force.IForceModel)
    (cfg : AircraftConfigBase) (ws : list Pipeline.WorkerStep)
    (sq : SharedStateSpace * StateUpdateQueue) :
  controls_in_range sq ->
  controls_in_range (Pipeline.run fm cfg ws sq).
Proof.
  revert sq. induction ws as [|w ws IH]; intros sq H; [exact H|].
  unfold Pipeline.run in *. simpl. apply IH.
  destruct w; simpl.
  - now apply increase_tick_in_range.
  - now apply decrease_tick_in_range.
  - now apply brake_tick_in_range.
  - now apply cruise_tick_in_range.
  - now apply dynamics_step_in_range.
  - now apply manager_pop_in_range.
Qed.

Lemma controls_stay_in_range_witness :
  let s0 := store_cruise_control_enabled true
              (store_brake_control_enabled true
                 (store_throttle_control_enabled true
                    (store_throttle 1 initial_state))) in
  controls_in_range
    (Pipeline.run Force.ACForceModel AircraftConfig_FixedWin_AC1
       [Pipeline.ThrottleIncreaseTick; Pipeline.ThrottleDecreaseTick;
        Pipeline.BrakeTick; Pipeline.DynamicsTick 0.01; Pipeline.ManagerPop;
        Pipeline.CruiseTick; Pipeline.ManagerPop]
       (s0, [])).
Proof.
  intros s0. apply controls_stay_in_range.
  split; [|split]; simpl.
  - split; [vm_compute; discriminate | vm_compute; discriminate].
  - split; [vm_compute; discriminate | vm_compute; discriminate].
  - constructor.
Defined.

(** ** The CSV recorder *)

Lemma StronglySorted_snoc (l : list Q) (x : Q) :
  StronglySorted Qlt l -> Forall (fun y => (y < x)%Q) l ->
  StronglySorted Qlt (l ++ [x]).
Proof.
  induction l as [|a l IH]; intros Hs Hf; simpl.
  - constructor; constructor.
  - inversion Hs as [|? ? Hs' Ha]; subst.
    inversion Hf as [|? ? Hax Hf']; subst.
    constructor; [now apply IH|].
    apply Forall_app. split; [exact Ha|]. constructor; [exact Hax|constructor].
Qed.

Lemma recordData_stale (data : gmap string Q) (can_open : bool)
    (l : Recorder.FileLogger) (t : Q) :
  data !! "time" = Some t -> (t <= Recorder.last_time_ l)%Q ->
  Recorder.recordData data can_open l
  = Recorder.Returns
      {| Recorder.last_time_ := Recorder.last_time_ l;
         Recorder.rows := Recorder.rows l;
         Recorder.log :=
           Recorder.WarnNonIncreasingTime t (Recorder.last_time_ l)
           :: Recorder.log l |}.
Proof.
  intros Ht Hle. unfold Recorder.recordData. rewrite Ht.
  apply Qle_bool_iff in Hle. now rewrite Hle.
Qed.

Lemma recordData_fresh (data : gmap string Q) (l : Recorder.FileLogger)
    (t : Q) (r : Recorder.Row) :
  data !! "time" = Some t -> (Recorder.last_time_ l < t)%Q ->
  Recorder.build_row t data = Some r ->
  Recorder.recordData data true l
  = Recorder.Returns
      {| Recorder.last_time_ := t;
         Recorder.rows := Recorder.rows l ++ [r];
         Recorder.log := Recorder.log l |}.
Proof.
  intros Ht Hlt Hr. unfold Recorder.recordData. rewrite Ht, Hr.
  destruct (Qle_bool t (Recorder.last_time_ l)) eqn:E; [|reflexivity].
  apply Qle_bool_iff in E. exfalso. now apply (Qlt_not_le _ _ Hlt).
Qed.

Lemma build_row_time (t : Q) (data : gmap string Q) (r : Recorder.Row) :
  Recorder.build_row t data = Some r -> Recorder.row_time r = t.
Proof.
  unfold Recorder.build_row. intros H.
  repeat (match type of H with
          | context [?m !! ?k] => destruct (m !! k); simpl in H;
                                  [|discriminate]
          end).
  now inversion H.
Qed.

Lemma recordData_throws_late (data : gmap string Q) (l : Recorder.FileLogger)
    (t : Q) :
  data !! "time" = Some t -> (Recorder.last_time_ l < t)%Q ->
  Recorder.build_row t data = None ->
  Recorder.recordData data true l
  = Recorder.Throws
      {| Recorder.last_time_ := t;
         Recorder.rows := Recorder.rows l;
         Recorder.log := Recorder.log l |}.
Proof.
  intros Ht Hlt Hr. unfold Recorder.recordData. rewrite Ht, Hr.
  destruct (Qle_bool t (Recorder.last_time_ l)) eqn:E; [|reflexivity].
  apply Qle_bool_iff in E. exfalso. now apply (Qlt_not_le _ _ Hlt).
Qed.

Lemma recordData_keeps_increasing (data : gmap string Q) (can_open : bool)
    (l : Recorder.FileLogger) :
  times_increasing l ->
  times_increasing
    (Recorder.logger_after (Recorder.recordData data can_open l)).
Proof.
  intros [Hs Hf]. unfold Recorder.recordData.
  destruct (data !! "time") as [t|]; [|split; assumption].
  destruct (Qle_bool t (Recorder.last_time_ l)) eqn:E.
  { split; assumption. }
  assert (Hlt : (Recorder.last_time_ l < t)%Q).
  { apply Qnot_le_lt. intros Hle. apply Qle_bool_iff in Hle. congruence. }
  assert (Hf' : Forall (fun r => (Recorder.row_time r <= t)%Q) (Recorder.rows l)).
  { eapply List.Forall_impl; [|exact Hf]. intros r Hr. simpl in Hr. lra. }
  destruct can_open.
  - destruct (Recorder.build_row t data) as [r|] eqn:Er.
    + unfold times_increasing. simpl.
      apply build_row_time in Er. split.
      * rewrite map_app. simpl. apply StronglySorted_snoc; [exact Hs|].
        apply List.Forall_map. eapply List.Forall_impl; [|exact Hf].
        intros r0 Hr0. simpl in Hr0. rewrite Er. lra.
      * apply Forall_app. split; [exact Hf'|].
        constructor; [rewrite Er; lra | constructor].
    + split; assumption.
  - split; assumption.
Qed.

Lemma record_all_keeps_increasing (calls : list (gmap string Q * bool)) :
  forall l,
    times_increasing l ->
    times_increasing (Recorder.logger_after (Recorder.record_all calls l)).
Proof.
  induction calls as [|[data can_open] calls IH]; intros l Hl; [exact Hl|].
  simpl.
  pose proof (recordData_keeps_increasing data can_open l Hl) as H.
  destruct (Recorder.recordData data can_open l) as [l'|l']; simpl in H.
  - apply IH. exact H.
  - exact H.
Qed.

(** Printing keeps the order of two values, and may make them equal. *)
Lemma round_nearest_bounds (ties : Recorder.TieRule) (x : Q) :
  (Qfloor x <= Recorder.round_nearest ties x <= Qfloor x + 1)%Z.
Proof.
  unfold Recorder.round_nearest.
  destruct (x - inject_Z (Qfloor x) ?= 1 # 2)%Q; [|lia|lia].
  destruct ties.
  - destruct (Z.even (Qfloor x)); lia.
  - destruct (0 <=? Qfloor x)%Z; lia.
Qed.

Lemma round_nearest_mono (ties : Recorder.TieRule) (x y : Q) :
  (x <= y)%Q ->
  (Recorder.round_nearest ties x <= Recorder.round_nearest ties y)%Z.
Proof.
  intros Hxy.
  pose proof (Qfloor_resp_le x y Hxy) as Hf.
  pose proof (round_nearest_bounds ties x) as Bx.
  pose proof (round_nearest_bounds ties y) as By.
  destruct (Z.eq_dec (Qfloor x) (Qfloor y)) as [E|NE]; [|lia].
  unfold Recorder.round_nearest. rewrite <- E.
  destruct (Qcompare_spec (x - inject_Z (Qfloor x)) (1 # 2)) as [Hx|Hx|Hx];
    destruct (Qcompare_spec (y - inject_Z (Qfloor x)) (1 # 2)) as [Hy|Hy|Hy];
    try lia; try (exfalso; lra);
    destruct ties;
    try destruct (Z.even (Qfloor x));
    try destruct (0 <=? Qfloor x)%Z; lia.
Qed.

Lemma fixed_mono (ties : Recorder.TieRule) (precision : nat) (x y : Q) :
  (x <= y)%Q ->
  (Recorder.fixed ties precision x <= Recorder.fixed ties precision y)%Z.
Proof.
  intros Hxy. unfold Recorder.fixed. apply round_nearest_mono.
  apply Qmult_le_compat_r; [exact Hxy|].
  change 0%Q with (inject_Z 0). rewrite <- Zle_Qle. lia.
Qed.

Lemma time_column_rows (ties : Recorder.TieRule) (l : Recorder.FileLogger) :
  Recorder.time_column ties l
  = map (fun r => Recorder.fixed ties 2 (Recorder.row_time r))
      (Recorder.rows l).
Proof.
  unfold Recorder.time_column, Recorder.file_lines.
  rewrite map_map. reflexivity.
Qed.

Lemma printed_times_sorted (ties : Recorder.TieRule) (rs : list Recorder.Row) :
  StronglySorted Qlt (map Recorder.row_time rs) ->
  StronglySorted Z.le
    (map (fun r => Recorder.fixed ties 2 (Recorder.row_time r)) rs).
Proof.
  induction rs as [|r rs IH]; intros Hs; simpl; [constructor|].
  simpl in Hs. inversion Hs as [|? ? Hs' Hr]; subst.
  constructor; [now apply IH|].
  apply List.Forall_map. apply (proj1 (List.Forall_map _ _ _)) in Hr.
  eapply List.Forall_impl; [|exact Hr].
  intros r' Hlt. simpl in Hlt. apply fixed_mono. lra.
Qed.

(** C9 (as the code has it). For every sequence of calls, the timestamps
    being numbers, the timestamps [recordData] accepts are strictly
    increasing and none is later than the last recorded one; the time
    column of the file, which prints them with two decimals, is
    non-decreasing.  A call whose timestamp is not
    later than the last recorded one writes one warning and no row and
    leaves the last recorded timestamp alone; a call with a later
    timestamp (file opened) makes its timestamp the last recorded one and
    appends its row, or throws when a value of the row is missing. *)
Theorem recorder_accepts_only_later_times
    (ties : Recorder.TieRule) (calls : list (gmap string Q * bool)) :
  times_increasing
    (Recorder.logger_after (Recorder.record_all calls Recorder.create))
  /\ StronglySorted Z.le
       (Recorder.time_column ties
          (Recorder.logger_after (Recorder.record_all calls Recorder.create)))
  /\ (forall data can_open l t,
        data !! "time" = Some t -> (t <= Recorder.last_time_ l)%Q ->
        Recorder.recordData data can_open l
        = Recorder.Returns
            {| Recorder.last_time_ := Recorder.last_time_ l;
               Recorder.rows := Recorder.rows l;
               Recorder.log :=
                 Recorder.WarnNonIncreasingTime t (Recorder.last_time_ l)
                 :: Recorder.log l |})
  /\ (forall data l t,
        data !! "time" = Some t -> (Recorder.last_time_ l < t)%Q ->
        match Recorder.build_row t data with
        | Some r =>
            Recorder.recordData data true l
            = Recorder.Returns
                {| Recorder.last_time_ := t;
                   Recorder.rows := Recorder.rows l ++ [r];
                   Recorder.log := Recorder.log l |}
        | None =>
            Recorder.recordData data true l
            = Recorder.Throws
                {| Recorder.last_time_ := t;
                   Recorder.rows := Recorder.rows l;
                   Recorder.log := Recorder.log l |}
        end).
Proof.
  assert (Hinc : times_increasing
            (Recorder.logger_after
               (Recorder.record_all calls Recorder.create))).
  { apply record_all_keeps_increasing. split; constructor. }
  split; [exact Hinc|]. split; [|split].
  - rewrite time_column_rows. apply printed_times_sorted. apply Hinc.
  - apply recordData_stale.
  - intros data l t Ht Hlt.
    destruct (Recorder.build_row t data) as [r|] eqn:Er.
    + now apply recordData_fresh.
    + now apply recordData_throws_late.
Qed.

(** A sample for t = 1.24, then a stale one for t = 1.23: one row, one
    warning. *)
Lemma recorder_accepts_only_later_times_witness :
  let l1 := Recorder.logger_after
              (Recorder.record_all
                 [(Recorder.sample 1.24 initial_state, true)]
                 Recorder.create) in
  let l2 := Recorder.logger_after
              (Recorder.record_all
                 [(Recorder.sample 1.24 initial_state, true);
                  (Recorder.sample 1.23 initial_state, true)]
                 Recorder.create) in
  times_increasing l2
  /\ Recorder.recordData (Recorder.sample 1.23 initial_state) true l1
     = Recorder.Returns
         {| Recorder.last_time_ := 1.24; Recorder.rows := Recorder.rows l1;
            Recorder.log := [Recorder.WarnNonIncreasingTime 1.23 1.24] |}
  /\ Recorder.recordData (Recorder.sample 1.25 initial_state) true l1
     = Recorder.Returns
         {| Recorder.last_time_ := 1.25;
            Recorder.rows :=
              Recorder.rows l1
              ++ [{| Recorder.row_time := 1.25;
                     Recorder.row_position := 0; Recorder.row_velocity := 0;
                     Recorder.row_acc := 0; Recorder.row_throttle := 0;
                     Recorder.row_brake := 0; Recorder.row_thrust := 0;
                     Recorder.row_drag := 0;
                     Recorder.row_brake_force := 0 |}];
            Recorder.log := [] |}
  /\ map Recorder.row_time (Recorder.rows l2) = [1.24%Q]
  /\ Recorder.time_column Recorder.TiesToEven l2 = [124%Z]
  /\ Recorder.log l2 = [Recorder.WarnNonIncreasingTime 1.23 1.24].
Proof.
  intros l1 l2.
  destruct (recorder_accepts_only_later_times Recorder.TiesToEven
              [(Recorder.sample 1.24 initial_state, true);
               (Recorder.sample 1.23 initial_state, true)])
    as (Hinc & _ & Hstale & Hfresh).
  split; [exact Hinc|]. split; [|split].
  - apply (Hstale (Recorder.sample 1.23 initial_state) true l1 1.23%Q).
    + vm_compute. reflexivity.
    + vm_compute. discriminate.
  - apply (Hfresh (Recorder.sample 1.25 initial_state) l1 1.25%Q).
    + vm_compute. reflexivity.
    + vm_compute. reflexivity.
  - repeat split; vm_compute; reflexivity.
Defined.

(** The time column can repeat: the timestamps 1.231 and 1.234 are both
    accepted (no warning), and both lines of the file show 1.23. *)
Lemma recorder_time_column_repeats_counterexample :
  let l := Recorder.logger_after
             (Recorder.record_all
                [(Recorder.sample 1.231 initial_state, true);
                 (Recorder.sample 1.234 initial_state, true)]
                Recorder.create) in
  map Recorder.row_time (Recorder.rows l) = [1.231%Q; 1.234%Q]
  /\ Recorder.log l = []
  /\ Recorder.time_column Recorder.TiesToEven l = [123%Z; 123%Z]
  /\ Recorder.time_column Recorder.TiesAwayFromZero l = [123%Z; 123%Z]
  /\ ~ StronglySorted Z.lt (Recorder.time_column Recorder.TiesToEven l).
Proof.
  cbv zeta. repeat split; try (vm_compute; reflexivity).
  intros H. vm_compute in H.
  inversion H as [|? ? _ Hf]; subst.
  inversion Hf as [|? ? Hlt _]; subst. revert Hlt. vm_compute. discriminate.
Qed.

(** ** Events fire once *)

Lemma quiet_refl (e : string) (m : Manager.ControllerManagerThread) :
  quiet e m m.
Proof. split; reflexivity. Qed.

Lemma quiet_trans (e : string) (m1 m2 m3 : Manager.ControllerManagerThread) :
  quiet e m1 m2 -> quiet e m2 m3 -> quiet e m1 m3.
Proof. intros [H1 H2] [H3 H4]. split; congruence. Qed.

Lemma quiet_log_detail (e : string) (entry : LogEntry)
    (m : Manager.ControllerManagerThread) :
  entry <> LogEventTriggered e -> quiet e m (Manager.log_detail entry m).
Proof.
  intros Hne. split; [reflexivity|]. unfold executions, Manager.log_detail.
  cbn [Manager.log]. now apply count_occ_cons_neq.
Qed.

Lemma quiet_with_state (e : string) (s : SharedStateSpace)
    (m : Manager.ControllerManagerThread) :
  quiet e m (Manager.with_state s m).
Proof. split; reflexivity. Qed.

Lemma quiet_with_config (e : string) (c : ActionsConfig.t)
    (m : Manager.ControllerManagerThread) :
  quiet e m (Manager.with_config c m).
Proof. split; reflexivity. Qed.

Lemma quiet_with_controllers (e : string) (cs : gmap string bool)
    (m : Manager.ControllerManagerThread) :
  quiet e m (Manager.with_controllers cs m).
Proof. split; reflexivity. Qed.

Lemma quiet_startController (e n : string)
    (m : Manager.ControllerManagerThread) :
  quiet e m (Manager.startController n m).
Proof.
  unfold Manager.startController.
  destruct (Manager.controllers m !! n);
    repeat (match goal with |- context [if ?b then _ else _] =>
              destruct b end);
    try (apply quiet_log_detail; discriminate).
  eapply quiet_trans; [apply quiet_with_controllers|].
  apply quiet_log_detail; discriminate.
Qed.

Lemma quiet_stopController (e n : string)
    (m : Manager.ControllerManagerThread) :
  quiet e m (Manager.stopController n m).
Proof.
  unfold Manager.stopController.
  destruct (Manager.controllers m !! n); [|apply quiet_refl].
  eapply quiet_trans; [apply quiet_with_controllers|].
  apply quiet_log_detail; discriminate.
Qed.

Lemma quiet_stopAllControllers (e : string)
    (m : Manager.ControllerManagerThread) :
  quiet e m (Manager.stopAllControllers m).
Proof.
  unfold Manager.stopAllControllers.
  eapply quiet_trans; [apply quiet_with_controllers|].
  apply quiet_log_detail; discriminate.
Qed.

Lemma quiet_setFlightMode (e nm : string)
    (m : Manager.ControllerManagerThread) :
  quiet e m (Manager.setFlightMode nm m).
Proof.
  unfold Manager.setFlightMode, Manager.switch_mode.
  repeat (match goal with |- context [String.eqb ?a ?b] =>
            destruct (String.eqb a b) end);
    try apply quiet_refl;
    (eapply quiet_trans; [apply quiet_with_state|];
     apply quiet_log_detail; discriminate).
Qed.

Lemma quiet_executeControllerAction (e : string) (a : ControllerAction)
    (m : Manager.ControllerManagerThread) :
  quiet e m (Manager.executeControllerAction a m).
Proof.
  unfold Manager.executeControllerAction.
  destruct (ActionsConfig.getActionConfig _ _) as [[cfg|] c'].
  2:{ eapply quiet_trans; [apply quiet_with_config|].
      apply quiet_log_detail; discriminate. }
  eapply quiet_trans; [|apply quiet_log_detail; discriminate].
  eapply quiet_trans; [apply (quiet_with_config e c')|].
  destruct (String.eqb (action_type cfg) "CONTROLLER").
  { eapply quiet_trans; [apply quiet_with_state|].
    destruct (String.prefix "START_" _); [apply quiet_startController|].
    destruct (String.prefix "STOP_" _); [apply quiet_stopController|].
    apply quiet_refl. }
  destruct (String.eqb (action_type cfg) "STOP_ALL");
    [apply quiet_stopAllControllers|].
  destruct (String.eqb (action_type cfg) "MODE"); [|apply quiet_refl].
  destruct (state_settings cfg !! "flight_mode");
    [apply quiet_setFlightMode | apply quiet_refl].
Qed.

Lemma quiet_executeControllerActions (e : string)
    (acts : list ControllerAction) :
  forall m, quiet e m (Manager.executeControllerActions acts m).
Proof.
  induction acts as [|a acts IH]; intros m; [apply quiet_refl|].
  unfold Manager.executeControllerActions in *. simpl.
  eapply quiet_trans; [apply quiet_executeControllerAction | apply IH].
Qed.

Lemma quiet_handleEventStateChanges
    (cb : option (string -> SharedStateSpace -> SharedStateSpace))
    (e n : string) (m : Manager.ControllerManagerThread) :
  quiet e m (Manager.handleEventStateChanges cb n m).
Proof.
  unfold Manager.handleEventStateChanges.
  destruct cb; [apply quiet_with_state | apply quiet_refl].
Qed.

Lemma sum_list_insert (f : Runtime.WorkerState -> nat)
    (ws : list Runtime.WorkerState) :
  forall (i : nat) (w w' : Runtime.WorkerState),
    ws !! i = Some w ->
    (sum_list (f <$> <[i := w']> ws) + f w = sum_list (f <$> ws) + f w')%nat.
Proof.
  induction ws as [|x ws IH]; intros i w w' H; [discriminate|].
  destruct i as [|i]; csimpl in *.
  - inversion H; subst. lia.
  - specialize (IH i w w' H). lia.
Qed.

Lemma publish_subscribers (e : string) (b : Bus.EventBus) :
  Bus.subscribers (fst (Bus.publish e b)) = Bus.subscribers b.
Proof.
  unfold Bus.publish.
  destruct (negb (Bus.running b)); [reflexivity|].
  destruct (Bus.MAX_QUEUE_SIZE <=? _)%nat; reflexivity.
Qed.

Lemma publish_queue (e e' : string) (b : Bus.EventBus) :
  (length (List.filter (fun item => String.eqb item e') (Bus.event_queue (fst (Bus.publish e b))))
   <= length (List.filter (fun item => String.eqb item e') (Bus.event_queue b))
      + (if String.eqb e e' then 1 else 0))%nat.
Proof.
  unfold Bus.publish.
  destruct (negb (Bus.running b)); [simpl; lia|].
  destruct (Bus.MAX_QUEUE_SIZE <=? _)%nat; simpl; [lia|].
  rewrite List.filter_app, length_app. simpl.
  destruct (String.eqb e e'); simpl; lia.
Qed.

Lemma take_spec (b b' : Bus.EventBus) (item : string)
    (cbs : list Bus.EventCallback) :
  Bus.take b = Some (item, cbs, b') ->
  Bus.event_queue b = item :: Bus.event_queue b'
  /\ Bus.subscribers b' = Bus.subscribers b
  /\ cbs = default [] (Bus.subscribers b !! item).
Proof.
  unfold Bus.take. destruct (Bus.event_queue b) as [|x q] eqn:E; [discriminate|].
  intros H. inversion H; subst. simpl. repeat split.
Qed.

Lemma subscribe_all_ok (l : list (string * EventDefinition)) :
  NoDup (fst <$> l) ->
  forall b,
    subscriptions_ok b ->
    (forall k, k ∈ (fst <$> l) -> Bus.subscribers b !! k = None) ->
    subscriptions_ok
      (fold_left
         (fun acc entry =>
            Bus.subscribe (fst entry) (Bus.ManagerHandler (fst entry)) acc)
         l b).
Proof.
  induction l as [|[k d] l IH]; intros Hnd b Hok Hfree; [exact Hok|].
  simpl in *. apply NoDup_cons in Hnd. destruct Hnd as [Hk Hnd].
  apply IH; [exact Hnd| |].
  - intros item. unfold Bus.subscribe. simpl.
    destruct (decide (k = item)) as [->|Hne].
    + rewrite lookup_insert_eq. rewrite (Hfree item) by (left). simpl.
      now right.
    + rewrite lookup_insert_ne by exact Hne. apply Hok.
  - intros k' Hk'. unfold Bus.subscribe. simpl.
    rewrite lookup_insert_ne by (intros ->; contradiction).
    apply Hfree. now right.
Qed.

Lemma setupEventHandlers_ok (defs : gmap string EventDefinition) :
  subscriptions_ok (Manager.setupEventHandlers defs Bus.fresh).
Proof.
  unfold Manager.setupEventHandlers. apply subscribe_all_ok.
  - apply NoDup_fst_map_to_list.
  - intros item. left. reflexivity.
  - intros k _. reflexivity.
Qed.

Section EventRuntime.

Variable event_definitions : gmap string EventDefinition.
Variable event_state_change_callback_
  : option (string -> SharedStateSpace -> SharedStateSpace).

Lemma handler_skips (n : string) (m : Manager.ControllerManagerThread) :
  Manager.isEventTriggered n m = true ->
  Manager.handler event_definitions event_state_change_callback_ n m
  = Manager.log_detail (LogEventAlreadyTriggered n) m.
Proof.
  intros H. unfold Manager.handler. now rewrite H.
Qed.

Lemma handler_executes (n : string) (def : EventDefinition)
    (m : Manager.ControllerManagerThread) :
  Manager.isEventTriggered n m = false ->
  event_definitions !! n = Some def ->
  Manager.handler event_definitions event_state_change_callback_ n m
  = Manager.executeControllerActions (actions def)
      (Manager.handleEventStateChanges event_state_change_callback_ n
         (Manager.markEventTriggered n m)).
Proof.
  intros H Hd. unfold Manager.handler, Manager.handler_body.
  now rewrite H, Hd.
Qed.

Lemma handler_body_executions (n e : string)
    (m : Manager.ControllerManagerThread) :
  (executions e
     (Manager.handler_body event_definitions event_state_change_callback_ n m)
   <= executions e m + (if String.eqb n e then 1 else 0))%nat.
Proof.
  unfold Manager.handler_body.
  destruct (event_definitions !! n) as [def|]; [|lia].
  assert (Hq : quiet e (Manager.markEventTriggered n m)
                 (Manager.executeControllerActions (actions def)
                    (Manager.handleEventStateChanges
                       event_state_change_callback_ n
                       (Manager.markEventTriggered n m)))).
  { eapply quiet_trans;
      [apply quiet_handleEventStateChanges
      |apply quiet_executeControllerActions]. }
  destruct Hq as [_ ->].
  unfold executions, Manager.markEventTriggered, Manager.log_detail,
    Manager.with_triggered_events.
  cbn [Manager.log].
  destruct (String.eqb_spec n e) as [->|Hne].
  - rewrite count_occ_cons_eq by reflexivity. lia.
  - rewrite count_occ_cons_neq by congruence. lia.
Qed.

Lemma check_event_inv (s : SharedStateSpace) (rest : string -> nat)
    (acc : Monitor.EventMonitorThread * Bus.EventBus)
    (entry : string * EventDefinition) :
  (subscriptions_ok (snd acc) /\ monitor_latched (fst acc)
   /\ forall e,
        (length (List.filter (fun item => String.eqb item e) (Bus.event_queue (snd acc))) + rest e
         <= firings e (fst acc))%nat) ->
  let acc' := Monitor.check_event s acc entry in
  subscriptions_ok (snd acc') /\ monitor_latched (fst acc')
  /\ forall e,
       (length (List.filter (fun item => String.eqb item e) (Bus.event_queue (snd acc'))) + rest e
        <= firings e (fst acc'))%nat.
Proof.
  destruct acc as [mon b], entry as [n ev]. cbn [fst snd].
  intros (Hsub & Hl & Hc). cbv zeta. unfold Monitor.check_event.
  destruct (negb (Monitor.already_triggered n mon) && trigger_condition ev s)
    eqn:E; [|cbn [fst snd]; auto].
  apply andb_true_iff in E. destruct E as [E _].
  apply negb_true_iff in E. cbn [fst snd].
  assert (Hzero : firings n mon = 0%nat).
  { destruct (Hl n) as [_ H2].
    destruct (firings n mon) as [|k] eqn:F; [reflexivity|].
    rewrite H2 in E by lia. discriminate. }
  split; [|split].
  - unfold subscriptions_ok. intros item. rewrite publish_subscribers.
    apply Hsub.
  - intros e. destruct (Hl e) as [H1 H2].
    unfold firings, Monitor.already_triggered in *.
    cbn [Monitor.log Monitor.local_triggered_events].
    destruct (decide (n = e)) as [->|Hne].
    + rewrite lookup_insert_eq.
      rewrite count_occ_cons_eq by reflexivity.
      split; [lia | reflexivity].
    + rewrite lookup_insert_ne by exact Hne.
      rewrite count_occ_cons_neq by congruence.
      split; assumption.
  - intros e. pose proof (publish_queue n e b) as Hq.
    specialize (Hc e). unfold firings in *. cbn [Monitor.log].
    destruct (String.eqb_spec n e) as [->|Hne].
    + rewrite count_occ_cons_eq by reflexivity. lia.
    + rewrite count_occ_cons_neq by congruence. lia.
Qed.

Lemma check_events_inv (s : SharedStateSpace) (rest : string -> nat)
    (defs : list (string * EventDefinition)) :
  forall acc,
    (subscriptions_ok (snd acc) /\ monitor_latched (fst acc)
     /\ forall e,
          (length (List.filter (fun item => String.eqb item e) (Bus.event_queue (snd acc))) + rest e
           <= firings e (fst acc))%nat) ->
    let acc' := fold_left (Monitor.check_event s) defs acc in
    subscriptions_ok (snd acc') /\ monitor_latched (fst acc')
    /\ forall e,
         (length (List.filter (fun item => String.eqb item e) (Bus.event_queue (snd acc'))) + rest e
          <= firings e (fst acc'))%nat.
Proof.
  induction defs as [|d defs IH]; intros acc H; [exact H|].
  simpl. apply IH. now apply check_event_inv.
Qed.

Lemma worker_move_inv (w w' : Runtime.WorkerState)
    (m m' : Manager.ControllerManagerThread) (b b' : Bus.EventBus) :
  Runtime.worker_move event_definitions event_state_change_callback_ w m b
  = (w', m', b') ->
  subscriptions_ok b ->
  subscriptions_ok b'
  /\ forall e,
       (length (List.filter (fun item => String.eqb item e) (Bus.event_queue b'))
        + pending_handlers e w' + executions e m'
        <= length (List.filter (fun item => String.eqb item e) (Bus.event_queue b))
           + pending_handlers e w + executions e m)%nat.
Proof.
  intros Hmove Hsub. destruct w as [|item cbs|item n cbs]; simpl in Hmove.
  - destruct (Bus.take b) as [[[item cbs] b1]|] eqn:Et.
    + inversion Hmove; subst.
      destruct (take_spec _ _ _ _ Et) as (Hq & Hs & Hcbs).
      split.
      * intros it. rewrite Hs. apply Hsub.
      * intros e. rewrite Hq. cbn [List.filter pending_handlers].
        destruct (Hsub item) as [H0|H1]; rewrite Hcbs.
        -- rewrite H0. simpl. destruct (String.eqb item e); simpl; lia.
        -- rewrite H1. simpl. destruct (String.eqb item e); simpl; lia.
    + inversion Hmove; subst. split; [exact Hsub|]. intros e. lia.
  - destruct cbs as [|[n] cbs].
    + inversion Hmove; subst. split; [exact Hsub|]. intros e. simpl. lia.
    + destruct (Manager.isEventTriggered n m) eqn:Etr;
        inversion Hmove; subst.
      * split; [exact Hsub|]. intros e.
        destruct (quiet_log_detail e (LogEventAlreadyTriggered n) m)
          as [_ ->]; [discriminate|].
        simpl. destruct (String.eqb n e); simpl; lia.
      * split; [exact Hsub|]. intros e. simpl.
        destruct (String.eqb n e); simpl; lia.
  - inversion Hmove; subst. split; [exact Hsub|]. intros e.
    pose proof (handler_body_executions n e m).
    simpl. destruct (String.eqb n e); simpl in *; lia.
Qed.

Lemma step_inv (st : Runtime.Step) (sys : Runtime.System) :
  runtime_inv sys ->
  runtime_inv
    (Runtime.step event_definitions event_state_change_callback_ st sys).
Proof.
  intros (Hsub & Hmon & Hc). destruct st as [|i|s']; simpl.
  - pose proof (check_events_inv (Manager.state (Runtime.manager sys))
                  (fun e => (sum_list (pending_handlers e <$> Runtime.workers sys)
                             + executions e (Runtime.manager sys))%nat)
                  (map_to_list event_definitions)
                  (Runtime.monitor sys, Runtime.bus sys)) as H.
    cbv zeta in H. cbn [fst snd] in H.
    unfold Monitor.check_events.
    destruct (fold_left _ _ _) as [mon b]. cbn [fst snd] in H.
    destruct H as (H1 & H2 & H3).
    { split; [exact Hsub|]. split; [exact Hmon|].
      intros e. specialize (Hc e). unfold outstanding in Hc. lia. }
    split; [exact H1|]. split; [exact H2|].
    intros e. specialize (H3 e). unfold outstanding. simpl. lia.
  - destruct (Runtime.workers sys !! i) as [w|] eqn:Ew;
      [|split; [exact Hsub|split; [exact Hmon|exact Hc]]].
    destruct (Runtime.worker_move _ _ w _ _) as [[w' m'] b'] eqn:Em.
    destruct (worker_move_inv _ _ _ _ _ _ Em Hsub) as [Hsub' Hle].
    split; [exact Hsub'|]. split; [exact Hmon|].
    intros e. specialize (Hc e). specialize (Hle e).
    unfold outstanding in *. simpl.
    pose proof (sum_list_insert (pending_handlers e) (Runtime.workers sys)
                  i w w' Ew).
    lia.
  - split; [exact Hsub|]. split; [exact Hmon|]. intros e. apply Hc.
Qed.

Lemma run_inv (steps : list Runtime.Step) :
  forall sys,
    runtime_inv sys ->
    runtime_inv
      (Runtime.run event_definitions event_state_change_callback_ steps sys).
Proof.
  induction steps as [|st steps IH]; intros sys H; [exact H|].
  unfold Runtime.run in *. simpl. apply IH. now apply step_inv.
Qed.

Lemma initial_inv (s : SharedStateSpace) (c : ActionsConfig.t) :
  runtime_inv (Runtime.initial event_definitions s c).
Proof.
  split; [apply setupEventHandlers_ok|]. split.
  - intros e. split; unfold firings; simpl; lia.
  - intros e. unfold outstanding, executions, firings. simpl.
    assert (Hq : Bus.event_queue
                   (Manager.setupEventHandlers event_definitions Bus.fresh)
                 = []).
    { unfold Manager.setupEventHandlers.
      generalize (map_to_list event_definitions). intros l.
      assert (H : forall b, Bus.event_queue b = [] ->
                  Bus.event_queue
                    (fold_left
                       (fun acc entry =>
                          Bus.subscribe (fst entry)
                            (Bus.ManagerHandler (fst entry)) acc) l b) = []).
      { induction l as [|x l IHl]; intros b Hb; [exact Hb|].
        simpl. apply IHl. exact Hb. }
      now apply H. }
    rewrite Hq. simpl. lia.
Qed.

(** C6. In every run of the event runtime (monitor ticks, moves of the
    bus workers through the queue and through the manager's handlers, the
    shared state changing in between), the monitor fires each event name
    at most once and the manager executes the action list of each event at
    most once.  A latched entry of the monitor is not published again; a
    handler invoked for an event that is already marked only logs that it
    skips; a handler invoked for an unmarked event of the table marks it
    and then executes its actions. *)
Theorem event_actions_at_most_once
    (steps : list Runtime.Step) (s : SharedStateSpace) (c : ActionsConfig.t)
    (e : string) :
  let sys :=
    Runtime.run event_definitions event_state_change_callback_ steps
      (Runtime.initial event_definitions s c) in
  (executions e (Runtime.manager sys) <= 1)%nat
  /\ (firings e (Runtime.monitor sys) <= 1)%nat
  /\ (forall n ev st mon b,
        Monitor.already_triggered n mon = true ->
        Monitor.check_event st (mon, b) (n, ev) = (mon, b))
  /\ (forall n m,
        Manager.isEventTriggered n m = true ->
        Manager.handler event_definitions event_state_change_callback_ n m
        = Manager.log_detail (LogEventAlreadyTriggered n) m)
  /\ (forall n def m,
        Manager.isEventTriggered n m = false ->
        event_definitions !! n = Some def ->
        Manager.handler event_definitions event_state_change_callback_ n m
        = Manager.executeControllerActions (actions def)
            (Manager.handleEventStateChanges event_state_change_callback_ n
               (Manager.markEventTriggered n m))
        /\ Manager.isEventTriggered n
             (Manager.handler event_definitions event_state_change_callback_
                n m) = true).
Proof.
  intros sys.
  destruct (run_inv steps _ (initial_inv s c)) as (_ & Hmon & Hc).
  fold sys in Hmon, Hc.
  destruct (Hmon e) as [Hf _]. specialize (Hc e).
  split; [lia|]. split; [exact Hf|].
  split; [intros n ev st mon b H; simpl; now rewrite H|].
  split; [apply handler_skips|].
  intros n def m Hn Hd. split; [now apply handler_executes|].
  rewrite (handler_executes n def m Hn Hd).
  set (m1 := Manager.markEventTriggered n m).
  assert (Hq : quiet n m1
                 (Manager.executeControllerActions (actions def)
                    (Manager.handleEventStateChanges
                       event_state_change_callback_ n m1))).
  { eapply quiet_trans;
      [apply quiet_handleEventStateChanges
      |apply quiet_executeControllerActions]. }
  destruct Hq as [Ht _]. unfold Manager.isEventTriggered. rewrite Ht.
  subst m1. simpl. now rewrite lookup_insert_eq.
Qed.

End EventRuntime.

(** The Taxi table: the clock reaches 1 s, the monitor ticks twice, two
    bus workers take the two fired events and run their handlers
    interleaved.  START_THROTTLE and FINAL_STOP were each fired once and
    executed once. *)
Lemma event_actions_at_most_once_witness :
  let table := Taxi_EVENT_DEFINITIONS 0.1 in
  let s1 := store_simulation_time 1
              (store_simulation_running true
                 (store_simulation_started true initial_state)) in
  let sys :=
    Runtime.run table None
      [Runtime.StateChange s1; Runtime.MonitorTick; Runtime.MonitorTick;
       Runtime.Worker 0; Runtime.Worker 1; Runtime.Worker 0; Runtime.Worker 1;
       Runtime.Worker 1; Runtime.Worker 0; Runtime.MonitorTick]
      (Runtime.initial table initial_state ActionsConfig.unloaded) in
  (executions "START_THROTTLE" (Runtime.manager sys) <= 1)%nat
  /\ executions "START_THROTTLE" (Runtime.manager sys) = 1%nat
  /\ executions "FINAL_STOP" (Runtime.manager sys) = 1%nat
  /\ executions "START_BRAKE" (Runtime.manager sys) = 0%nat
  /\ firings "START_THROTTLE" (Runtime.monitor sys) = 1%nat
  /\ Manager.handler table None "START_THROTTLE" (Runtime.manager sys)
     = Manager.log_detail (LogEventAlreadyTriggered "START_THROTTLE")
         (Runtime.manager sys).
Proof.
  intros table s1 sys.
  destruct (event_actions_at_most_once table None
              [Runtime.StateChange s1; Runtime.MonitorTick; Runtime.MonitorTick;
               Runtime.Worker 0; Runtime.Worker 1; Runtime.Worker 0;
               Runtime.Worker 1; Runtime.Worker 1; Runtime.Worker 0;
               Runtime.MonitorTick]
              initial_state ActionsConfig.unloaded "START_THROTTLE")
    as (Hex & _ & _ & Hskip & _).
  split; [exact Hex|].
  split; [vm_compute; reflexivity|].
  split; [vm_compute; reflexivity|].
  split; [vm_compute; reflexivity|].
  split; [vm_compute; reflexivity|].
  apply Hskip. vm_compute. reflexivity.
Defined.

(** * Further properties *)

(** ** The clock *)

Lemma wrap_u64_range (z : Z) : (0 <= wrap_u64 z < 2 ^ 64)%Z.
Proof. unfold wrap_u64. apply Z.mod_pos_bound. lia. Qed.

Lemma wrap_u64_small (z : Z) : (0 <= z < 2 ^ 64)%Z -> wrap_u64 z = z.
Proof. intros H. unfold wrap_u64. now apply Z.mod_small. Qed.

Lemma wrap_u64_add_l (a n : Z) :
  wrap_u64 (wrap_u64 a + n) = wrap_u64 (a + n).
Proof. unfold wrap_u64. now rewrite Zplus_mod_idemp_l. Qed.

Lemma inject_S (n : nat) :
  (inject_Z (Z.of_nat (S n)) == inject_Z (Z.of_nat n) + 1)%Q.
Proof.
  rewrite Nat2Z.inj_succ. unfold Z.succ. rewrite inject_Z_plus. reflexivity.
Qed.

Lemma inject_nat_nonneg (n : nat) : (0 <= inject_Z (Z.of_nat n))%Q.
Proof.
  change 0%Q with (inject_Z 0). rewrite <- Zle_Qle. lia.
Qed.

Lemma wrap_i32_small (z : Z) : - 2 ^ 31 <= z < 2 ^ 31 -> wrap_i32 z = z.
Proof. intros H. unfold wrap_i32. rewrite Z.mod_small by lia. lia. Qed.

Lemma notify_iter_fields (k : nat) (c : Clock.SimulationClock) :
  Clock.completed_threads c = 0 -> Z.of_nat k < 2 ^ 31 ->
  let ck := Nat.iter k Clock.notifyStepCompleted c in
  Clock.completed_threads ck = Z.of_nat k
  /\ Clock.registered_threads ck = Clock.registered_threads c
  /\ Clock.running ck = Clock.running c
  /\ Clock.paused ck = Clock.paused c
  /\ Clock.time_steps ck = Clock.time_steps c.
Proof.
  intros H0. induction k as [|k IH]; intros Hk; cbv zeta.
  - simpl. repeat split. exact H0.
  - destruct IH as (Hc & Hr & Hrun & Hp & Ht); [lia|].
    change (Nat.iter (S k) Clock.notifyStepCompleted c)
      with (Clock.notifyStepCompleted (Nat.iter k Clock.notifyStepCompleted c)).
    set (ck := Nat.iter k Clock.notifyStepCompleted c) in *.
    unfold Clock.notifyStepCompleted, Clock.with_completed.
    cbn [Clock.completed_threads Clock.registered_threads Clock.running
           Clock.paused Clock.time_steps].
    rewrite Hc. repeat split; try assumption.
    rewrite wrap_i32_small by lia. lia.
Qed.

(** X1. The barrier round: with [n] workers registered and the clock
    running at the barrier, the clock cannot move while fewer than [n]
    workers have called [notifyStepCompleted]; once all [n] have, its move
    resets the completion counter and publishes the next tick. *)
Theorem barrier_opens_after_all_completions
    (c : Clock.SimulationClock) (n k : nat) :
  Clock.running c = true -> Clock.paused c = false ->
  Clock.registered_threads c = Z.of_nat n ->
  Clock.completed_threads c = 0 ->
  Z.of_nat n < 2 ^ 31 -> (k <= n)%nat ->
  let ck := Nat.iter k Clock.notifyStepCompleted c in
  ((k < n)%nat -> Clock.clock_step (ck, Clock.AtBarrier) = None)
  /\ (k = n ->
      Clock.clock_step (ck, Clock.AtBarrier)
      = Some (Clock.publish_tick (Clock.with_completed 0 ck), Clock.AtBarrier)
      /\ Clock.time_steps (Clock.publish_tick (Clock.with_completed 0 ck))
         = wrap_u64 (Clock.time_steps c + 1)).
Proof.
  intros Hrun Hp Hreg Hc Hn Hk ck.
  destruct (notify_iter_fields k c Hc) as (Hck & Hrk & Hrunk & Hpk & Htk);
    [lia|]. fold ck in Hck, Hrk, Hrunk, Hpk, Htk.
  split.
  - intros Hlt. apply barrier_step_closed; [congruence|]. lia.
  - intros ->. split.
    + apply barrier_step_open; [congruence|congruence|lia].
    + simpl. now rewrite Htk.
Qed.

Lemma barrier_opens_after_all_completions_witness :
  let c := Clock.with_registered 3
             (Clock.publish_tick (Clock.with_running true Clock.fresh)) in
  Clock.clock_step (Nat.iter 2 Clock.notifyStepCompleted c, Clock.AtBarrier)
  = None
  /\ exists c',
       Clock.clock_step (Nat.iter 3 Clock.notifyStepCompleted c, Clock.AtBarrier)
       = Some (c', Clock.AtBarrier)
       /\ Clock.time_steps c' = 2 /\ Clock.completed_threads c' = 0.
Proof.
  intros c. split.
  - apply (barrier_opens_after_all_completions c 3 2); try reflexivity; lia.
  - destruct (barrier_opens_after_all_completions c 3 3) as [_ H];
      try reflexivity; try lia.
    destruct (H eq_refl) as [Hstep Ht].
    eexists. split; [exact Hstep|]. split; [exact Ht | reflexivity].
Defined.

(** ** The clock, statement by statement *)

Lemma time_carried_refl (fadd : Q -> Q -> Q)
    (st : Clock.SimulationClock * ClockThread.Point) :
  ClockThread.time_carried fadd st st.
Proof. left. repeat split; auto. Qed.

Lemma time_carried_trans (fadd : Q -> Q -> Q)
    (st1 st2 st3 : Clock.SimulationClock * ClockThread.Point) :
  ClockThread.time_carried fadd st1 st2 ->
  ClockThread.time_carried fadd st2 st3 ->
  ClockThread.time_carried fadd st1 st3.
Proof.
  intros [(E1 & F1 & M1)|(F1 & N1 & d1 & E1 & D1)]
         [(E2 & F2 & M2)|(F2 & N2 & d2 & E2 & D2)].
  - left. split; [congruence|]. split; [auto|].
    intros Hf Hm. destruct (M1 (F2 Hf) Hm) as [Hm2 Hd2].
    destruct (M2 Hf Hm2) as [Hm3 Hd3]. split; [exact Hm3 | congruence].
  - right. split; [auto|]. split; [exact N2|].
    exists d2. split; [congruence|].
    intros Hm. destruct (M1 F2 Hm) as [Hm2 Hd2]. rewrite (D2 Hm2). exact Hd2.
  - right. split; [exact F1|]. split.
    + destruct (ClockThread.time_in_flight st3) eqn:E; [|reflexivity].
      rewrite (F2 eq_refl) in N1. discriminate.
    + exists d1. split; [congruence | exact D1].
  - congruence.
Qed.

Lemma steps_carried_refl (st : Clock.SimulationClock * ClockThread.Point) :
  ClockThread.steps_carried st st.
Proof. left. split; auto. Qed.

Lemma steps_carried_trans
    (st1 st2 st3 : Clock.SimulationClock * ClockThread.Point) :
  ClockThread.steps_carried st1 st2 ->
  ClockThread.steps_carried st2 st3 ->
  ClockThread.steps_carried st1 st3.
Proof.
  intros [(E1 & F1)|(F1 & N1 & E1)] [(E2 & F2)|(F2 & N2 & E2)].
  - left. split; [congruence | auto].
  - right. split; [auto|]. split; [exact N2 | congruence].
  - right. split; [exact F1|]. split; [|congruence].
    destruct (ClockThread.steps_in_flight st3) eqn:E; [|reflexivity].
    rewrite (F2 eq_refl) in N1. discriminate.
  - congruence.
Qed.

(** A property of the states that every allowed event keeps, together
    with the two relations, is kept by every run of allowed events. *)
Lemma run_carried (fadd : Q -> Q -> Q)
    (I : Clock.SimulationClock * ClockThread.Point -> Prop)
    (allowed : ClockThread.Event -> bool) :
  (forall e st st',
      I st -> allowed e = true -> ClockThread.step fadd e st = Some st' ->
      I st' /\ ClockThread.time_carried fadd st st'
      /\ ClockThread.steps_carried st st') ->
  forall es st st',
    I st -> forallb allowed es = true ->
    ClockThread.run fadd es st = Some st' ->
    I st' /\ ClockThread.time_carried fadd st st'
    /\ ClockThread.steps_carried st st'.
Proof.
  intros Hstep. induction es as [|e es IH]; intros st st' HI Hes Hrun.
  - simpl in Hrun. inversion Hrun; subst.
    split; [exact HI|]. split; [apply time_carried_refl|apply steps_carried_refl].
  - simpl in Hes. apply andb_true_iff in Hes. destruct Hes as [He Hes].
    cbn [ClockThread.run] in Hrun.
    destruct (ClockThread.step fadd e st) as [st1|] eqn:E; [|discriminate].
    destruct (Hstep _ _ _ HI He E) as (HI1 & Ht1 & Hs1).
    destruct (IH _ _ HI1 Hes Hrun) as (HI' & Ht' & Hs').
    split; [exact HI'|]. split.
    + eapply time_carried_trans; eassumption.
    + eapply steps_carried_trans; eassumption.
Qed.

Ltac clock_cases H :=
  repeat match type of H with
         | context [if ?b then _ else _] => destruct b eqn:?
         end;
  try discriminate H; inversion H; subst; clear H.

Ltac carried :=
  unfold ClockThread.time_carried, ClockThread.steps_carried,
    ClockThread.time_in_flight, ClockThread.steps_in_flight,
    ClockThread.passes_last_test;
  cbn;
  first
    [ left; repeat split; intros; cbn in *;
      first [reflexivity | assumption | discriminate | congruence]
    | right; repeat split; cbn;
      first [reflexivity | assumption | congruence
            | eexists; split; [reflexivity | intros; reflexivity]] ].

Lemma paused_step (fadd : Q -> Q -> Q) (e : ClockThread.Event)
    (st st' : Clock.SimulationClock * ClockThread.Point) :
  (Clock.paused (fst st) = true
   /\ ClockThread.past_clear_paused (snd st) = true) ->
  negb (ClockThread.is_Resume e) = true ->
  ClockThread.step fadd e st = Some st' ->
  (Clock.paused (fst st') = true
   /\ ClockThread.past_clear_paused (snd st') = true)
  /\ ClockThread.time_carried fadd st st'
  /\ ClockThread.steps_carried st st'.
Proof.
  destruct st as [c p]. intros [Hp Hq] He H. cbn [fst snd] in *.
  destruct (Clock.running c) eqn:Hr;
  destruct e; try discriminate He; destruct p; try discriminate Hq;
    cbn in H; rewrite ?Hp, ?Hr in H; clock_cases H; cbn [fst snd];
    (split; [split; [first [assumption | reflexivity] | reflexivity]|]);
    (split; [carried | carried]).
Qed.

Lemma stopped_step (fadd : Q -> Q -> Q) (e : ClockThread.Event)
    (st st' : Clock.SimulationClock * ClockThread.Point) :
  (Clock.running (fst st) = false
   /\ ClockThread.past_set_running (snd st) = true) ->
  true = true ->
  ClockThread.step fadd e st = Some st' ->
  (Clock.running (fst st') = false
   /\ ClockThread.past_set_running (snd st') = true)
  /\ ClockThread.time_carried fadd st st'
  /\ ClockThread.steps_carried st st'.
Proof.
  destruct st as [c p]. intros [Hr Hq] _ H. cbn [fst snd] in *.
  destruct e; destruct p; try discriminate Hq;
    cbn in H; rewrite ?Hr in H; clock_cases H; cbn [fst snd];
    (split; [split; [first [assumption | reflexivity] | reflexivity]|]);
    (split; [carried | carried]).
Qed.

(** What the two relations say of the first and the last state of a
    run. *)
Lemma carried_at_most_one_tick (fadd : Q -> Q -> Q)
    (c c' : Clock.SimulationClock) (p p' : ClockThread.Point) :
  ClockThread.time_carried fadd (c, p) (c', p') ->
  ClockThread.steps_carried (c, p) (c', p') ->
  (Clock.current_time c' = Clock.current_time c
   \/ (ClockThread.time_in_flight (c, p) = true
       /\ exists d,
            Clock.current_time c' = fadd (Clock.current_time c) d
            /\ (ClockThread.holds_mutex p = true -> d = Clock.dt c)))
  /\ (Clock.time_steps c' = Clock.time_steps c
      \/ (ClockThread.steps_in_flight (c, p) = true
          /\ Clock.time_steps c' = wrap_u64 (Clock.time_steps c + 1))).
Proof.
  intros Ht Hs. split.
  - destruct Ht as [(E1 & _)|(F1 & _ & d & E1 & D1)]; cbn [fst snd] in *.
    + left. exact E1.
    + right. split; [exact F1|]. exists d. split; assumption.
  - destruct Hs as [(E2 & _)|(F2 & _ & E2)]; cbn [fst snd] in *.
    + left. exact E2.
    + right. split; assumption.
Qed.

(** X2. [pause()] holds the clock after at most the tick in flight: once
    [paused] is true and the clock thread is past the prologue's
    [paused = false], then as long as [resume()] is not called, whatever
    else the threads do and however the accesses interleave, [paused]
    stays true and the time and the step count change at most once, and
    only if the thread had already passed the last test before a tick
    (then the time becomes the sum of the old time and the step size).
    The test and the tick are not one atomic action: a [pause()] that
    falls after the test [if (!running.load()) break] does not stop the
    tick that follows it. *)
Theorem pause_holds_after_the_tick_in_flight (fadd : Q -> Q -> Q) :
  (forall es c p c' p',
      Clock.paused c = true ->
      ClockThread.past_clear_paused p = true ->
      forallb (fun e => negb (ClockThread.is_Resume e)) es = true ->
      ClockThread.run fadd es (c, p) = Some (c', p') ->
      Clock.paused c' = true
      /\ (Clock.current_time c' = Clock.current_time c
          \/ (ClockThread.time_in_flight (c, p) = true
              /\ exists d,
                   Clock.current_time c' = fadd (Clock.current_time c) d
                   /\ (ClockThread.holds_mutex p = true -> d = Clock.dt c)))
      /\ (Clock.time_steps c' = Clock.time_steps c
          \/ (ClockThread.steps_in_flight (c, p) = true
              /\ Clock.time_steps c' = wrap_u64 (Clock.time_steps c + 1))))
  /\ (forall c,
        Clock.running c = true ->
        ClockThread.run fadd
          [ClockThread.Pause; ClockThread.ClockMove; ClockThread.ClockMove;
           ClockThread.ClockMove]
          (c, ClockThread.AtRunningCheck3)
        = Some (ClockThread.advance_steps
                  (ClockThread.advance_time fadd (Clock.pause c)),
                ClockThread.AtNotify)).
Proof.
  split.
  - intros es c p c' p' Hp Hq Hes Hrun.
    destruct (run_carried fadd
                (fun st => Clock.paused (fst st) = true
                           /\ ClockThread.past_clear_paused (snd st) = true)
                (fun e => negb (ClockThread.is_Resume e))
                (paused_step fadd) es (c, p) (c', p'))
      as ([Hp' _] & Ht & Hs); [split; assumption | exact Hes | exact Hrun |].
    split; [exact Hp'|].
    apply (carried_at_most_one_tick fadd c c' p p'); assumption.
  - intros c Hr. cbn. rewrite Hr. reflexivity.
Qed.

(** A clock at tick 1, paused while its thread is at the head of the
    loop, one worker registered: the worker completes its step, the
    thread goes through the barrier and to sleep in the pause loop; the
    step count is still 1. *)
Lemma pause_holds_after_the_tick_in_flight_witness :
  let c := Clock.pause
             (Clock.registerThread
                (Clock.publish_tick (Clock.with_running true Clock.fresh))) in
  match
    ClockThread.run Qplus
      ([ClockThread.NotifyStepCompleted]
       ++ repeat ClockThread.ClockMove 10
       ++ [ClockThread.RegisterThread; ClockThread.NotifyStepCompleted])
      (c, ClockThread.AtLoopHead)
  with
  | Some (c', p') =>
      Clock.time_steps c' = 1 /\ p' = ClockThread.AsleepAtPause
  | None => False
  end.
Proof.
  intros c.
  set (es := [ClockThread.NotifyStepCompleted]
             ++ repeat ClockThread.ClockMove 10
             ++ [ClockThread.RegisterThread; ClockThread.NotifyStepCompleted]).
  destruct (ClockThread.run Qplus es (c, ClockThread.AtLoopHead))
    as [[c' p']|] eqn:E.
  - destruct (pause_holds_after_the_tick_in_flight Qplus) as [H _].
    destruct (H es c ClockThread.AtLoopHead c' p' eq_refl eq_refl eq_refl E)
      as (_ & _ & [Hs|[Hf _]]).
    + split; [exact Hs|]. vm_compute in E. now inversion E.
    + discriminate Hf.
  - vm_compute in E. discriminate.
Defined.

Ltac returns_within k :=
  exists k; eexists; split; [lia|];
  cbn; repeat (match goal with
               | H : _ = _ |- _ => rewrite H
               end; cbn);
  reflexivity.

Lemma stopped_and_awake_returns (fadd : Q -> Q -> Q)
    (c : Clock.SimulationClock) (p : ClockThread.Point) :
  Clock.running c = false ->
  ClockThread.past_set_running p = true ->
  ClockThread.asleep p = false -> ClockThread.about_to_sleep p = false ->
  exists (n : nat) (c' : Clock.SimulationClock),
    (n <= 6)%nat
    /\ ClockThread.run fadd (repeat ClockThread.ClockMove n) (c, p)
       = Some (c', ClockThread.Returned).
Proof.
  intros Hr Hq Ha Hb.
  destruct (Clock.paused c) eqn:Hp;
  destruct (Clock.registered_threads c <=? Clock.completed_threads c) eqn:Hle;
  destruct p; try discriminate Hq; try discriminate Ha; try discriminate Hb;
    clear Hq Ha Hb;
    first [ returns_within 0%nat | returns_within 1%nat | returns_within 2%nat
          | returns_within 3%nat | returns_within 4%nat | returns_within 5%nat
          | returns_within 6%nat ].
Qed.

Lemma stopped_and_notified_returns (fadd : Q -> Q -> Q)
    (c : Clock.SimulationClock) (p : ClockThread.Point) :
  Clock.running c = false ->
  ClockThread.asleep p = true ->
  exists n : nat,
    (n <= 6)%nat
    /\ ClockThread.run fadd
         ([ClockThread.NotifyAllStepStart; ClockThread.NotifyAllStepEnd]
          ++ repeat ClockThread.ClockMove n) (c, p)
       = Some (c, ClockThread.Returned).
Proof.
  intros Hr Ha.
  destruct (Clock.paused c) eqn:Hp;
  destruct (Clock.registered_threads c <=? Clock.completed_threads c) eqn:Hle;
  destruct p; try discriminate Ha; clear Ha;
    first [ exists 3%nat; split; [lia|]; cbn; rewrite ?Hr, ?Hp, ?Hle; cbn;
            rewrite ?Hr, ?Hp, ?Hle; cbn; rewrite ?Hr, ?Hp, ?Hle; reflexivity
          | exists 4%nat; split; [lia|]; cbn; rewrite ?Hr, ?Hp, ?Hle; cbn;
            rewrite ?Hr, ?Hp, ?Hle; cbn; rewrite ?Hr, ?Hp, ?Hle; reflexivity
          | exists 5%nat; split; [lia|]; cbn; rewrite ?Hr, ?Hp, ?Hle; cbn;
            rewrite ?Hr, ?Hp, ?Hle; cbn; rewrite ?Hr, ?Hp, ?Hle; reflexivity ].
Qed.

(** X3. [stop()] ends the clock after at most the tick in flight, if the
    clock thread gets its notification.  Once [running] is false and the
    thread is past the prologue's [running = true] ([start()] is not
    called again), whatever the threads do and however the accesses
    interleave: [running] stays false, the predicate of every
    [waitForNextStep] holds, and the time and the step count change at
    most once, and only if the thread was already committed to a tick.  A
    thread that is awake, and not about to sleep, returns from [start()]
    within six of its own moves; a thread asleep in a wait returns after
    the two notifications of [stop()].  The store and the notifications
    take no lock: when they fall between a test of the wait predicate that
    found [running] true and the sleep that follows it, the thread goes to
    sleep after [stop()] has returned and does not move by itself. *)
Theorem stop_ends_the_clock_after_the_tick_in_flight (fadd : Q -> Q -> Q) :
  (forall es c p c' p',
      Clock.running c = false ->
      ClockThread.past_set_running p = true ->
      ClockThread.run fadd es (c, p) = Some (c', p') ->
      Clock.running c' = false
      /\ (forall last, Clock.step_available last c' = true)
      /\ (Clock.current_time c' = Clock.current_time c
          \/ (ClockThread.committed_to_time p = true
              /\ exists d,
                   Clock.current_time c' = fadd (Clock.current_time c) d
                   /\ (ClockThread.holds_mutex p = true -> d = Clock.dt c)))
      /\ (Clock.time_steps c' = Clock.time_steps c
          \/ (ClockThread.committed_to_steps p = true
              /\ Clock.time_steps c' = wrap_u64 (Clock.time_steps c + 1))))
  /\ (forall c p,
        Clock.running c = false ->
        ClockThread.past_set_running p = true ->
        ClockThread.asleep p = false -> ClockThread.about_to_sleep p = false ->
        exists (n : nat) (c' : Clock.SimulationClock),
          (n <= 6)%nat
          /\ ClockThread.run fadd (repeat ClockThread.ClockMove n) (c, p)
             = Some (c', ClockThread.Returned))
  /\ (forall c p,
        Clock.running c = false ->
        ClockThread.asleep p = true ->
        exists n : nat,
          (n <= 6)%nat
          /\ ClockThread.run fadd
               ([ClockThread.NotifyAllStepStart; ClockThread.NotifyAllStepEnd]
                ++ repeat ClockThread.ClockMove n) (c, p)
             = Some (c, ClockThread.Returned))
  /\ (forall c,
        ClockThread.run fadd
          [ClockThread.StopStore; ClockThread.NotifyAllStepStart;
           ClockThread.NotifyAllStepEnd; ClockThread.ClockMove]
          (c, ClockThread.AboutToSleepAtBarrier)
        = Some (Clock.stop c, ClockThread.AsleepAtBarrier)
        /\ ClockThread.run fadd
             [ClockThread.StopStore; ClockThread.NotifyAllStepStart;
              ClockThread.NotifyAllStepEnd; ClockThread.ClockMove]
             (c, ClockThread.AboutToSleepAtPause)
           = Some (Clock.stop c, ClockThread.AsleepAtPause)
        /\ ClockThread.step fadd ClockThread.ClockMove
             (Clock.stop c, ClockThread.AsleepAtBarrier) = None
        /\ ClockThread.step fadd ClockThread.ClockMove
             (Clock.stop c, ClockThread.AsleepAtPause) = None).
Proof.
  split; [|split; [|split]].
  - intros es c p c' p' Hr Hq Hrun.
    destruct (run_carried fadd
                (fun st => Clock.running (fst st) = false
                           /\ ClockThread.past_set_running (snd st) = true)
                (fun _ => true)
                (stopped_step fadd) es (c, p) (c', p'))
      as ([Hr' _] & Ht & Hs);
      [split; assumption | now apply forallb_forall | exact Hrun |].
    cbn [fst snd] in Hr'.
    split; [exact Hr'|]. split.
    { intros last. unfold Clock.step_available. rewrite Hr'.
      apply orb_true_r. }
    destruct (carried_at_most_one_tick fadd c c' p p' Ht Hs) as [Ht' Hs'].
    unfold ClockThread.time_in_flight, ClockThread.steps_in_flight,
      ClockThread.passes_last_test in Ht', Hs'. cbn [fst snd] in Ht', Hs'.
    assert (Hlast : match p with
                    | ClockThread.AtRunningCheck3 => Clock.running c
                    | _ => false
                    end = false).
    { destruct p; try reflexivity. exact Hr. }
    rewrite Hlast, orb_false_r in Ht', Hs'. split; assumption.
  - apply stopped_and_awake_returns.
  - apply stopped_and_notified_returns.
  - intros c. repeat split; reflexivity.
Qed.

(** A clock at tick 1 whose thread has just passed the last test before
    tick 2 when [stop()] is called: tick 2 is still published, then the
    thread returns, and nothing moves the clock after that. *)
Lemma stop_ends_the_clock_after_the_tick_in_flight_witness :
  let c := Clock.stop
             (Clock.publish_tick (Clock.with_running true Clock.fresh)) in
  match
    ClockThread.run Qplus
      ([ClockThread.NotifyAllStepStart; ClockThread.NotifyAllStepEnd]
       ++ repeat ClockThread.ClockMove 4
       ++ [ClockThread.Resume; ClockThread.NotifyStepCompleted])
      (c, ClockThread.AtPublishTime)
  with
  | Some (c', p') =>
      Clock.running c' = false /\ Clock.time_steps c' = 2
      /\ p' = ClockThread.Returned
  | None => False
  end.
Proof.
  intros c.
  set (es := [ClockThread.NotifyAllStepStart; ClockThread.NotifyAllStepEnd]
             ++ repeat ClockThread.ClockMove 4
             ++ [ClockThread.Resume; ClockThread.NotifyStepCompleted]).
  destruct (ClockThread.run Qplus es (c, ClockThread.AtPublishTime))
    as [[c' p']|] eqn:E.
  - destruct (stop_ends_the_clock_after_the_tick_in_flight Qplus) as [H _].
    destruct (H es c ClockThread.AtPublishTime c' p' eq_refl eq_refl E)
      as (Hr & _ & _ & _).
    split; [exact Hr|]. vm_compute in E. inversion E. split; reflexivity.
  - vm_compute in E. discriminate.
Defined.

Lemma asleep_at_pause_step (fadd : Q -> Q -> Q) (e : ClockThread.Event)
    (c : Clock.SimulationClock) (st' : Clock.SimulationClock * ClockThread.Point) :
  ClockThread.wakes_pause_wait e = false ->
  ClockThread.step fadd e (c, ClockThread.AsleepAtPause) = Some st' ->
  snd st' = ClockThread.AsleepAtPause
  /\ Clock.time_steps (fst st') = Clock.time_steps c
  /\ Clock.current_time (fst st') = Clock.current_time c.
Proof.
  intros He H. destruct e; try discriminate He; cbn in H;
    try discriminate H; inversion H; subst; repeat split.
Qed.

Lemma asleep_at_barrier_step (fadd : Q -> Q -> Q) (e : ClockThread.Event)
    (c : Clock.SimulationClock) (st' : Clock.SimulationClock * ClockThread.Point) :
  ClockThread.wakes_barrier_wait e = false ->
  ClockThread.step fadd e (c, ClockThread.AsleepAtBarrier) = Some st' ->
  snd st' = ClockThread.AsleepAtBarrier
  /\ Clock.time_steps (fst st') = Clock.time_steps c
  /\ Clock.current_time (fst st') = Clock.current_time c
  /\ Clock.completed_threads (fst st') = Clock.completed_threads c.
Proof.
  intros He H. destruct e; try discriminate He; cbn in H;
    try discriminate H; inversion H; subst; repeat split.
Qed.

(** X30. A clock thread asleep in a wait is woken by a notification only,
    not by the predicate becoming true.  Asleep in the pause loop, it
    stays asleep and publishes nothing until [cv_step_start] is notified
    (by [stop()]) or a spurious wake-up occurs: [resume()] stores
    [paused = false] and notifies nobody, so after [pause()] has put the
    thread to sleep, [resume()] leaves it asleep with the predicate of its
    wait true.  Asleep at the barrier, it stays asleep until
    [notifyStepCompleted] or [stop()] notifies [cv_step_end] or a spurious
    wake-up occurs: [unregisterThread] of the one worker it waits for
    leaves it asleep with [completed_threads >= registered_threads]
    true. *)
Theorem a_sleeping_clock_needs_a_notification (fadd : Q -> Q -> Q) :
  (forall es c c' p',
      forallb (fun e => negb (ClockThread.wakes_pause_wait e)) es = true ->
      ClockThread.run fadd es (c, ClockThread.AsleepAtPause) = Some (c', p') ->
      p' = ClockThread.AsleepAtPause
      /\ Clock.time_steps c' = Clock.time_steps c
      /\ Clock.current_time c' = Clock.current_time c)
  /\ (forall es c c' p',
        forallb (fun e => negb (ClockThread.wakes_barrier_wait e)) es = true ->
        ClockThread.run fadd es (c, ClockThread.AsleepAtBarrier)
        = Some (c', p') ->
        p' = ClockThread.AsleepAtBarrier
        /\ Clock.time_steps c' = Clock.time_steps c
        /\ Clock.current_time c' = Clock.current_time c
        /\ Clock.completed_threads c' = Clock.completed_threads c)
  /\ (forall c,
        Clock.running c = true ->
        ClockThread.run fadd
          ([ClockThread.Pause] ++ repeat ClockThread.ClockMove 5
           ++ [ClockThread.Resume])
          (c, ClockThread.AtPauseLoopPaused)
        = Some (Clock.resume (Clock.pause c), ClockThread.AsleepAtPause)
        /\ Clock.pause_open (Clock.resume (Clock.pause c)) = true
        /\ ClockThread.step fadd ClockThread.ClockMove
             (Clock.resume (Clock.pause c), ClockThread.AsleepAtPause) = None)
  /\ (forall c,
        Clock.running c = true ->
        Clock.registered_threads c = 1 -> Clock.completed_threads c = 0 ->
        ClockThread.run fadd
          (repeat ClockThread.ClockMove 3 ++ [ClockThread.UnregisterThread])
          (c, ClockThread.AtBarrierTest)
        = Some (Clock.unregisterThread c, ClockThread.AsleepAtBarrier)
        /\ Clock.barrier_open (Clock.unregisterThread c) = true
        /\ ClockThread.step fadd ClockThread.ClockMove
             (Clock.unregisterThread c, ClockThread.AsleepAtBarrier) = None).
Proof.
  split; [|split; [|split]].
  - induction es as [|e es IH]; intros c c' p' Hes Hrun.
    + simpl in Hrun. inversion Hrun; subst. repeat split.
    + simpl in Hes. apply andb_true_iff in Hes. destruct Hes as [He Hes].
      apply negb_true_iff in He. cbn [ClockThread.run] in Hrun.
      destruct (ClockThread.step fadd e (c, ClockThread.AsleepAtPause))
        as [[c1 p1]|] eqn:E; [|discriminate].
      destruct (asleep_at_pause_step fadd e c _ He E) as (Hp1 & Ht1 & Hc1).
      cbn [fst snd] in Hp1, Ht1, Hc1. subst p1.
      destruct (IH c1 c' p' Hes Hrun) as (Hp & Ht & Hc).
      repeat split; congruence.
  - induction es as [|e es IH]; intros c c' p' Hes Hrun.
    + simpl in Hrun. inversion Hrun; subst. repeat split.
    + simpl in Hes. apply andb_true_iff in Hes. destruct Hes as [He Hes].
      apply negb_true_iff in He. cbn [ClockThread.run] in Hrun.
      destruct (ClockThread.step fadd e (c, ClockThread.AsleepAtBarrier))
        as [[c1 p1]|] eqn:E; [|discriminate].
      destruct (asleep_at_barrier_step fadd e c _ He E)
        as (Hp1 & Ht1 & Hc1 & Hd1).
      cbn [fst snd] in Hp1, Ht1, Hc1, Hd1. subst p1.
      destruct (IH c1 c' p' Hes Hrun) as (Hp & Ht & Hc & Hd).
      repeat split; congruence.
  - intros c Hr. cbn. repeat (rewrite Hr; cbn). repeat split.
  - intros c Hr Hreg Hcomp. cbn. rewrite Hreg, Hcomp. cbn.
    repeat (rewrite Hr; cbn). repeat split.
    unfold Clock.barrier_open. cbn. rewrite Hreg, Hcomp. reflexivity.
Qed.

(** A clock asleep in the pause loop: [resume()], a new worker and a
    completed step later it is still asleep, at tick 1. *)
Lemma a_sleeping_clock_needs_a_notification_witness :
  let c := Clock.pause
             (Clock.publish_tick (Clock.with_running true Clock.fresh)) in
  match
    ClockThread.run Qplus
      [ClockThread.Resume; ClockThread.RegisterThread;
       ClockThread.NotifyStepCompleted]
      (c, ClockThread.AsleepAtPause)
  with
  | Some (c', p') =>
      p' = ClockThread.AsleepAtPause /\ Clock.time_steps c' = 1
      /\ Clock.paused c' = false
  | None => False
  end.
Proof.
  intros c.
  set (es := [ClockThread.Resume; ClockThread.RegisterThread;
              ClockThread.NotifyStepCompleted]).
  destruct (ClockThread.run Qplus es (c, ClockThread.AsleepAtPause))
    as [[c' p']|] eqn:E.
  - destruct (a_sleeping_clock_needs_a_notification Qplus) as [H _].
    destruct (H es c c' p' eq_refl E) as (Hp & Ht & _).
    split; [exact Hp|]. split; [exact Ht|].
    vm_compute in E. now inversion E.
  - vm_compute in E. discriminate.
Defined.

Lemma wrap_u64_idem (z : Z) : wrap_u64 (wrap_u64 z) = wrap_u64 z.
Proof. unfold wrap_u64. apply Zmod_mod. Qed.

Lemma repeated_sum_add (fadd : Q -> Q -> Q) (d : Q) (j1 j2 : nat) (t : Q) :
  repeated_sum fadd d j2 (repeated_sum fadd d j1 t)
  = repeated_sum fadd d (j1 + j2) t.
Proof.
  unfold repeated_sum. rewrite (Nat.add_comm j1 j2). symmetry.
  apply Nat.iter_add.
Qed.

Lemma accounting_step (fadd : Q -> Q -> Q) (e : ClockThread.Event)
    (c c' : Clock.SimulationClock) (p p' : ClockThread.Point) :
  ClockThread.is_SetTimeStep e = false ->
  ClockThread.step fadd e (c, p) = Some (c', p') ->
  Clock.dt c' = Clock.dt c
  /\ exists j : nat,
       (j <= 1)%nat
       /\ Clock.current_time c'
          = repeated_sum fadd (Clock.dt c) j (Clock.current_time c)
       /\ wrap_u64 (Clock.time_steps c' + ClockThread.steps_owed p')
          = wrap_u64 (Clock.time_steps c + ClockThread.steps_owed p
                      + Z.of_nat j).
Proof.
  intros He H.
  destruct e; try discriminate He; destruct p; cbn in H; clock_cases H;
    (split; [reflexivity|]);
    first
      [ exists 0%nat; split; [lia|]; split; [reflexivity|]; cbn;
        rewrite ?Z.add_0_r, ?wrap_u64_idem; reflexivity
      | exists 1%nat; split; [lia|]; split; [reflexivity|]; cbn;
        rewrite ?Z.add_0_r; reflexivity ].
Qed.

Lemma accounting_run (fadd : Q -> Q -> Q) (es : list ClockThread.Event) :
  forall c c' p p',
    forallb (fun e => negb (ClockThread.is_SetTimeStep e)) es = true ->
    ClockThread.run fadd es (c, p) = Some (c', p') ->
    Clock.dt c' = Clock.dt c
    /\ exists j : nat,
         (j <= length es)%nat
         /\ Clock.current_time c'
            = repeated_sum fadd (Clock.dt c) j (Clock.current_time c)
         /\ wrap_u64 (Clock.time_steps c' + ClockThread.steps_owed p')
            = wrap_u64 (Clock.time_steps c + ClockThread.steps_owed p
                        + Z.of_nat j).
Proof.
  induction es as [|e es IH]; intros c c' p p' Hes Hrun.
  - simpl in Hrun. inversion Hrun; subst. split; [reflexivity|].
    exists 0%nat. split; [simpl; lia|]. split; [reflexivity|].
    cbn. now rewrite Z.add_0_r.
  - simpl in Hes. apply andb_true_iff in Hes. destruct Hes as [He Hes].
    apply negb_true_iff in He. cbn [ClockThread.run] in Hrun.
    destruct (ClockThread.step fadd e (c, p)) as [[c1 p1]|] eqn:E;
      [|discriminate].
    destruct (accounting_step fadd e c c1 p p1 He E)
      as (Hd1 & j1 & Hj1 & Ht1 & Hs1).
    destruct (IH c1 c' p1 p' Hes Hrun) as (Hd & j & Hj & Ht & Hs).
    split; [congruence|]. exists (j1 + j)%nat.
    split; [simpl; lia|]. split.
    + rewrite Ht, Hd1, Ht1. apply repeated_sum_add.
    + rewrite Hs, <- wrap_u64_add_l, Hs1, wrap_u64_add_l.
      f_equal. lia.
Qed.

Lemma Qpow_ge_1 (x : Q) (n : nat) : (1 <= x)%Q -> (1 <= Qpow x n)%Q.
Proof.
  intros Hx. induction n as [|n IH]; simpl; [lra|]. nra.
Qed.

Lemma Qpow_unit (x : Q) (n : nat) :
  (0 <= x)%Q -> (x <= 1)%Q -> (0 <= Qpow x n)%Q /\ (Qpow x n <= 1)%Q.
Proof.
  intros H0 H1. induction n as [|n [IH0 IH1]]; simpl; [split; lra|].
  split; nra.
Qed.

Lemma repeated_sum_bounds (fadd : Q -> Q -> Q) (u d : Q) :
  (forall x y,
      (0 <= x)%Q -> (0 <= y)%Q ->
      ((x + y) * (1 - u) <= fadd x y)%Q /\ (fadd x y <= (x + y) * (1 + u))%Q) ->
  (0 <= u)%Q -> (u <= 1)%Q -> (0 <= d)%Q ->
  forall j : nat,
    (inject_Z (Z.of_nat j) * d * Qpow (1 - u) j
     <= repeated_sum fadd d j 0)%Q
    /\ (repeated_sum fadd d j 0
        <= inject_Z (Z.of_nat j) * d * Qpow (1 + u) j)%Q.
Proof.
  intros Hfadd Hu0 Hu1 Hd. induction j as [|j [IHl IHu]].
  - unfold repeated_sum. unfold Nat.iter. cbn [nat_rect Qpow].
    change (inject_Z (Z.of_nat 0)) with 0%Q. split; lra.
  - unfold repeated_sum in *. rewrite Nat.iter_succ. cbn [Qpow].
    set (t := Nat.iter j (fun x => fadd x d) 0%Q) in *.
    pose proof (inject_S j) as HS. pose proof (inject_nat_nonneg j) as Hn.
    set (n := inject_Z (Z.of_nat j)) in *.
    set (N := inject_Z (Z.of_nat (S j))) in *.
    destruct (Qpow_unit (1 - u) j ltac:(lra) ltac:(lra)) as [Hl0 Hl1].
    pose proof (Qpow_ge_1 (1 + u) j ltac:(lra)) as Hu'.
    set (L := Qpow (1 - u) j) in *. set (U := Qpow (1 + u) j) in *.
    assert (Hnd : (0 <= n * d)%Q) by nra.
    assert (Ht0 : (0 <= t)%Q) by nra.
    destruct (Hfadd t d Ht0 Hd) as [Hlo Hhi].
    assert (HdL : (d * L <= d)%Q) by nra.
    assert (HdU : (d <= d * U)%Q) by nra.
    split.
    + apply Qle_trans with ((t + d) * (1 - u))%Q; [|exact Hlo].
      assert (H1 : (n * d * L + d * L <= t + d)%Q) by lra.
      assert (H2 : ((n * d * L + d * L) * (1 - u) <= (t + d) * (1 - u))%Q)
        by (apply Qmult_le_compat_r; lra).
      eapply Qle_trans; [|exact H2]. rewrite HS. apply Qle_lteq. right. ring.
    + apply Qle_trans with ((t + d) * (1 + u))%Q; [exact Hhi|].
      assert (H1 : (t + d <= n * d * U + d * U)%Q) by lra.
      assert (H2 : ((t + d) * (1 + u) <= (n * d * U + d * U) * (1 + u))%Q)
        by (apply Qmult_le_compat_r; lra).
      eapply Qle_trans; [exact H2|]. rewrite HS. apply Qle_lteq. right. ring.
Qed.

(** X4. Simulated time follows the step count, up to rounding.  In any
    run that does not change the step size, every store of a new time is
    one double addition of the step size to the old time, and the step
    count lags the number [j] of these stores by at most the one
    increment the thread still owes (modulo 2^64).  So, for a clock that
    starts at time 0 and step 0 with a step size [dt >= 0], and an
    addition whose relative error is at most [u]: the time after [j]
    stores lies between [j * dt * (1 - u)^j] and [j * dt * (1 + u)^j]. *)
Theorem time_follows_step_count (fadd : Q -> Q -> Q) (u : Q)
    (es : list ClockThread.Event) (c c' : Clock.SimulationClock)
    (p p' : ClockThread.Point) :
  forallb (fun e => negb (ClockThread.is_SetTimeStep e)) es = true ->
  ClockThread.run fadd es (c, p) = Some (c', p') ->
  Clock.dt c' = Clock.dt c
  /\ exists j : nat,
       (j <= length es)%nat
       /\ Clock.current_time c'
          = repeated_sum fadd (Clock.dt c) j (Clock.current_time c)
       /\ wrap_u64 (Clock.time_steps c' + ClockThread.steps_owed p')
          = wrap_u64 (Clock.time_steps c + ClockThread.steps_owed p
                      + Z.of_nat j)
       /\ ((forall x y,
               (0 <= x)%Q -> (0 <= y)%Q ->
               ((x + y) * (1 - u) <= fadd x y)%Q
               /\ (fadd x y <= (x + y) * (1 + u))%Q) ->
           (0 <= u)%Q -> (u <= 1)%Q -> (0 <= Clock.dt c)%Q ->
           Clock.current_time c = 0%Q ->
           (inject_Z (Z.of_nat j) * Clock.dt c * Qpow (1 - u) j
            <= Clock.current_time c')%Q
           /\ (Clock.current_time c'
               <= inject_Z (Z.of_nat j) * Clock.dt c * Qpow (1 + u) j)%Q).
Proof.
  intros Hes Hrun.
  destruct (accounting_run fadd es c c' p p' Hes Hrun)
    as (Hd & j & Hj & Ht & Hs).
  split; [exact Hd|]. exists j. split; [exact Hj|]. split; [exact Ht|].
  split; [exact Hs|].
  intros Hfadd Hu0 Hu1 Hdt H0. rewrite Ht, H0.
  apply repeated_sum_bounds; assumption.
Qed.

(** The prologue of [start()] and one round of the loop with nobody
    registered, exact addition: two ticks, time 0.02. *)
Lemma time_follows_step_count_witness :
  match
    ClockThread.run Qplus (repeat ClockThread.ClockMove 17)
      (Clock.fresh, ClockThread.AtStartCheck)
  with
  | Some (c', p') =>
      Clock.time_steps c' = 2 /\ (Clock.current_time c' == 0.02)%Q
      /\ (exists j : nat,
            (inject_Z (Z.of_nat j) * 0.01 * Qpow (1 - 0) j
             <= Clock.current_time c')%Q
            /\ (Clock.current_time c'
                <= inject_Z (Z.of_nat j) * 0.01 * Qpow (1 + 0) j)%Q)
  | None => False
  end.
Proof.
  set (es := repeat ClockThread.ClockMove 17).
  destruct (ClockThread.run Qplus es (Clock.fresh, ClockThread.AtStartCheck))
    as [[c' p']|] eqn:E.
  - destruct (time_follows_step_count Qplus 0 es Clock.fresh c'
                ClockThread.AtStartCheck p' eq_refl E)
      as (_ & j & _ & _ & _ & Hb).
    assert (E' := E). vm_compute in E'. inversion E' as [[Hc Hp]].
    split; [reflexivity|]. split; [reflexivity|].
    exists j. rewrite Hc. apply Hb.
    + intros x y _ _. split; apply Qle_lteq; right; ring.
    + discriminate.
    + discriminate.
    + discriminate.
    + reflexivity.
  - vm_compute in E. discriminate.
Defined.

Ltac moves_alone k :=
  exists k; cbn;
  repeat (match goal with
          | H : _ = _ |- _ => rewrite H
          end; cbn);
  reflexivity.

(** How [Clock.clock_step] sits in this model: with exact addition, a
    move of [Clock.clock_step] is what the thread does by itself, awake,
    from one location to the next; where [Clock.clock_step] has no move,
    the thread goes to sleep in the wait of that location. *)
Lemma clock_step_by_accesses (c : Clock.SimulationClock)
    (loc : Clock.Location) :
  loc <> Clock.Returned ->
  exists n : nat,
    ClockThread.run Qplus (repeat ClockThread.ClockMove n)
      (c, ClockThread.awake_at loc)
    = Some match Clock.clock_step (c, loc) with
           | Some (c', loc') => (c', ClockThread.resting_at loc')
           | None => (c, ClockThread.asleep_at loc)
           end.
Proof.
  intros Hloc. unfold Clock.clock_step, Clock.barrier_open, Clock.pause_open.
  destruct (Clock.running c) eqn:Hr;
  destruct (Clock.paused c) eqn:Hp;
  destruct (Clock.registered_threads c <=? Clock.completed_threads c) eqn:Hle;
  destruct loc; try contradiction; clear Hloc; cbn;
    first [ moves_alone 1%nat | moves_alone 4%nat | moves_alone 5%nat
          | moves_alone 7%nat | moves_alone 8%nat | moves_alone 10%nat ].
Qed.

(** ** Shared state and the update queue *)

(** X5. Control conflicts come with SEMI_AUTO only: after
    [setFlightMode(mode)], [hasControlConflict()] is true exactly when the
    mode is SEMI_AUTO, whatever the state was before. *)
Theorem control_conflict_iff_semi_auto (mode : FlightMode)
    (s : SharedStateSpace) :
  hasControlConflict (setFlightMode mode s) = true <-> mode = SEMI_AUTO.
Proof.
  destruct mode; simpl; unfold hasControlConflict; simpl;
    split; intros H; try discriminate; reflexivity.
Qed.

Lemma StateUpdateType_eqb_eq (a b : StateUpdateType) :
  StateUpdateType_eqb a b = true <-> a = b.
Proof. destruct a, b; simpl; split; intros H; congruence. Qed.

Lemma process_raw_update_field (m : StateUpdateMessage) (ty : StateUpdateType)
    (s : SharedStateSpace) :
  field_of ty (process_raw_update m s)
  = if StateUpdateType_eqb (msg_type m) ty then msg_value m else field_of ty s.
Proof.
  unfold process_raw_update. destruct (msg_type m), ty; reflexivity.
Qed.

Lemma drain_app (q1 q2 : StateUpdateQueue) :
  forall s, drain (q1 ++ q2) s = drain q2 (drain q1 s).
Proof.
  induction q1 as [|m q1 IH]; intros s; [reflexivity|]. simpl. apply IH.
Qed.

(** X6. The state manager's drain is last-writer-wins per field: after
    all queued messages are applied, each of the five fields holds the
    value of the last message of its type in the queue, or its old value
    when the queue has none; and draining a queue in two parts is the same
    as draining it at once. *)
Theorem drain_last_writer_wins (q : StateUpdateQueue) :
  forall (s : SharedStateSpace) (ty : StateUpdateType),
    field_of ty (drain q s) = default (field_of ty s) (last_value ty q)
    /\ forall q2, drain (q ++ q2) s = drain q2 (drain q s).
Proof.
  induction q as [|m q IH]; intros s ty; (split; [|intros q2; apply drain_app]).
  - reflexivity.
  - simpl. destruct (IH (process_raw_update m s) ty) as [H _]. rewrite H.
    rewrite process_raw_update_field.
    destruct (last_value ty q); [reflexivity|].
    destruct (StateUpdateType_eqb (msg_type m) ty); reflexivity.
Qed.

(** ** Force model and integrator *)

Lemma Qltb_comp (a a' b b' : Q) :
  (a == a')%Q -> (b == b')%Q -> Qltb a b = Qltb a' b'.
Proof.
  intros Ha Hb.
  destruct (Qltb a b) eqn:E1; destruct (Qltb a' b') eqn:E2; try reflexivity.
  - apply Qltb_true_iff in E1. apply Qltb_false_iff in E2. lra.
  - apply Qltb_false_iff in E1. apply Qltb_true_iff in E2. lra.
Qed.

Ltac qcases_all :=
  repeat match goal with
    | |- context [Qltb ?a ?b] =>
        let E := fresh "E" in
        destruct (Qltb a b) eqn:E;
        [apply Qltb_true_iff in E | apply Qltb_false_iff in E]
    | H : context [Qltb ?a ?b] |- _ =>
        let E := fresh "E" in
        destruct (Qltb a b) eqn:E;
        [apply Qltb_true_iff in E | apply Qltb_false_iff in E]
    end.

Lemma Qdiv_0_l (m : Q) (x : Q) : (x == 0)%Q -> (x / m == 0)%Q.
Proof. intros H. unfold Qdiv. rewrite H. ring. Qed.

Lemma ACForceModel_moving (s : SharedStateSpace) (v : Q)
    (cfg : AircraftConfigBase) :
  (0.01 <= Qabs v)%Q ->
  let f := Force.ACForceModel s v cfg in
  Force.static_friction f = 0%Q
  /\ Force.brake_force f
     = (brake s * getMaxBrakeForce cfg
        * std_min 1 (std_max 0.3 (std_abs v / 50)))%Q
  /\ Force.net_force f
     = (Force.thrust f - Force.drag f - Force.brake_force f)%Q.
Proof.
  intros Hv. unfold Force.ACForceModel. cbv zeta.
  rewrite (Qltb_abs_false v 0.01) by lra. repeat split.
Qed.

(** X7. Rolling ([|v| >= 0.01]): the linear force model applies no static
    friction, the net force is thrust minus drag minus brake force, and the
    brake force is the commanded brake times the maximum brake force times
    a speed factor between 0.3 and 1 (1 from 50 m/s on); with a
    non-negative brake command, maximum brake force and drag coefficient,
    brake force and drag are non-negative. *)
Theorem rolling_forces (s : SharedStateSpace) (v : Q)
    (cfg : AircraftConfigBase) :
  (0.01 <= Qabs v)%Q ->
  let f := Force.ACForceModel s v cfg in
  Force.static_friction f = 0%Q
  /\ Force.net_force f
     = (Force.thrust f - Force.drag f - Force.brake_force f)%Q
  /\ (exists k, (0.3 <= k <= 1)%Q
                /\ (Force.brake_force f == brake s * getMaxBrakeForce cfg * k)%Q
                /\ ((50 <= Qabs v)%Q -> (k == 1)%Q)
                /\ ((Qabs v <= 15)%Q -> (k == 0.3)%Q))
  /\ ((0 <= brake s)%Q -> (0 <= getMaxBrakeForce cfg)%Q ->
      (0.3 * (brake s * getMaxBrakeForce cfg) <= Force.brake_force f
       <= brake s * getMaxBrakeForce cfg)%Q)
  /\ ((0 <= getDragCoefficient cfg)%Q -> (0 <= Force.drag f)%Q).
Proof.
  intros Hv f.
  destruct (ACForceModel_moving s v cfg Hv) as (Hsf & Hb & Hn).
  fold f in Hsf, Hb, Hn.
  assert (Hd : (std_abs v / 50 == Qabs v * (1 # 50))%Q).
  { rewrite std_abs_Qabs. reflexivity. }
  set (d := (std_abs v / 50)%Q) in *.
  set (k := std_min 1 (std_max 0.3 d)) in *.
  assert (Hk : (0.3 <= k <= 1)%Q).
  { subst k. unfold std_min, std_max. qcases_all; lra. }
  split; [exact Hsf|]. split; [exact Hn|]. split; [|split].
  - exists k. split; [exact Hk|]. split; [now rewrite Hb|].
    split; intros H; subst k; unfold std_min, std_max; qcases_all; lra.
  - intros H0 H1. rewrite Hb.
    assert (Hp : (0 <= brake s * getMaxBrakeForce cfg)%Q)
      by now apply Qmult_le_0_compat.
    set (p := (brake s * getMaxBrakeForce cfg)%Q) in *.
    destruct Hk as [Hk1 Hk2]. split; nra.
  - intros Hcd. subst f. unfold Force.ACForceModel. cbv zeta. simpl.
    unfold Force.AIR_DENSITY, Force.FRONTAL_AREA.
    assert (Hvv : (0 <= v * v)%Q) by nra.
    set (vv := (v * v)%Q) in *.
    assert (Hassoc : (0.5 * 1.225 * 50 * getDragCoefficient cfg * v * v
                      == 0.5 * 1.225 * 50 * getDragCoefficient cfg * vv)%Q)
      by (subst vv; ring).
    rewrite Hassoc. nra.
Qed.

Lemma rolling_forces_witness :
  let s := store_brake 1 (store_velocity 60 initial_state) in
  (Force.brake_force (Force.ACForceModel s 60 AircraftConfig_FixedWin_AC1)
   <= 400000)%Q.
Proof.
  intros s.
  destruct (rolling_forces s 60 AircraftConfig_FixedWin_AC1)
    as (_ & _ & _ & H & _).
  - vm_compute. discriminate.
  - destruct H as [_ H]; [vm_compute; discriminate..|].
    eapply Qle_trans; [exact H|]. vm_compute. discriminate.
Defined.

Lemma standing_net_force (s : SharedStateSpace) (cfg : AircraftConfigBase) :
  (velocity s == 0)%Q ->
  (0 <= static_friction_of cfg)%Q ->
  (0 <= throttle s * getMaxThrust cfg)%Q ->
  let f := Force.ACForceModel s (velocity s) cfg in
  ((throttle s * getMaxThrust cfg <= static_friction_of cfg)%Q ->
   (Force.net_force f == 0)%Q)
  /\ ((static_friction_of cfg < throttle s * getMaxThrust cfg)%Q ->
      (Force.net_force f
       == throttle s * getMaxThrust cfg - static_friction_of cfg)%Q).
Proof.
  intros Hv Hsf HT f.
  assert (Habs : (Qabs (velocity s) < 0.01)%Q).
  { rewrite Hv. vm_compute. reflexivity. }
  destruct (ACForceModel_standing s (velocity s) cfg Habs) as (Ht & Hb & Hs & Hn).
  fold f in Ht, Hb, Hs, Hn.
  assert (Hdrag : (Force.drag f == 0)%Q).
  { subst f. unfold Force.ACForceModel. cbv zeta. simpl. rewrite Hv. ring. }
  fold (static_friction_of cfg) in Hs.
  set (T := (throttle s * getMaxThrust cfg)%Q) in *.
  set (sf := static_friction_of cfg) in *.
  assert (Hnet0 : (Force.thrust f - Force.drag f - Force.brake_force f == T)%Q).
  { rewrite Ht, Hb, Hdrag. ring. }
  set (net0 := (Force.thrust f - Force.drag f - Force.brake_force f)%Q) in *.
  rewrite Hs in Hn. rewrite Hn.
  split; intros H; unfold std_abs; qcases_all; lra.
Qed.

Lemma rest_tick (cfg : AircraftConfigBase) (t : Q) (s : SharedStateSpace) :
  (velocity s == 0)%Q ->
  (0 <= throttle s * getMaxThrust cfg <= static_friction_of cfg)%Q ->
  let s' := Dynamics.committed_tick Force.ACForceModel cfg t s in
  (velocity s' == 0)%Q /\ (position s' == position s)%Q
  /\ (acceleration s' == 0)%Q /\ throttle s' = throttle s.
Proof.
  intros Hv [HT0 HT] s'.
  destruct (standing_net_force s cfg Hv) as [Hnet _]; [lra|exact HT0|].
  specialize (Hnet HT).
  destruct (committed_tick_fields Force.ACForceModel cfg t s)
    as (Hvel & Hpos & Hacc & Hthr & _).
  fold s' in Hvel, Hpos, Hacc, Hthr.
  pose proof (Qdiv_0_l (getMass cfg) _ Hnet) as Ha.
  rewrite Hvel, Hpos, Hacc, Ha, Hv. repeat split; try ring; try exact Hthr.
Qed.

(** X8. Static release: an aircraft at rest whose thrust
    [throttle * max_thrust] is between 0 and the static friction stays at
    rest, tick after tick: velocity and acceleration remain 0 and the
    position does not move, whatever the brake command. *)
Theorem at_rest_stays_at_rest (cfg : AircraftConfigBase) (ts : list Q) :
  forall s,
    (velocity s == 0)%Q ->
    (0 <= throttle s * getMaxThrust cfg <= static_friction_of cfg)%Q ->
    let s' := committed_ticks Force.ACForceModel cfg ts s in
    (velocity s' == 0)%Q /\ (position s' == position s)%Q
    /\ throttle s' = throttle s.
Proof.
  induction ts as [|t ts IH]; intros s Hv HT; cbv zeta.
  - simpl. repeat split; try reflexivity. exact Hv.
  - unfold committed_ticks in *. cbn [fold_left].
    destruct (rest_tick cfg t s Hv HT) as (Hv1 & Hp1 & _ & Ht1).
    destruct (IH (Dynamics.committed_tick Force.ACForceModel cfg t s))
      as (Hv' & Hp' & Ht'); [exact Hv1 | rewrite Ht1; exact HT |].
    split; [exact Hv'|]. split; [now rewrite Hp', Hp1 | congruence].
Qed.

Lemma at_rest_stays_at_rest_witness :
  let s := store_brake 0.5 (store_throttle 0.03 (store_position 30 initial_state)) in
  let s' := committed_ticks Force.ACForceModel AircraftConfig_FixedWin_AC1
              [0.01; 0.02; 0.03; 0.04; 0.05; 0.06; 0.07; 0.08; 0.09; 0.10]%Q s in
  (velocity s' == 0)%Q /\ (position s' == 30)%Q.
Proof.
  intros s s'.
  destruct (at_rest_stays_at_rest AircraftConfig_FixedWin_AC1
              [0.01; 0.02; 0.03; 0.04; 0.05; 0.06; 0.07; 0.08; 0.09; 0.10]%Q s)
    as (Hv & Hp & _).
  - reflexivity.
  - split; vm_compute; discriminate.
  - split; [exact Hv | exact Hp].
Defined.

(** X9. Break-away: an aircraft at rest whose thrust exceeds the static
    friction leaves the rest state in one tick: the net force is thrust
    minus static friction, the committed acceleration is that over the
    mass, and the committed velocity is positive. *)
Theorem break_away (cfg : AircraftConfigBase) (t : Q) (s : SharedStateSpace) :
  (velocity s == 0)%Q ->
  (0 <= static_friction_of cfg)%Q ->
  (static_friction_of cfg < throttle s * getMaxThrust cfg)%Q ->
  (0 < getMass cfg)%Q ->
  let s' := Dynamics.committed_tick Force.ACForceModel cfg t s in
  (acceleration s'
   == (throttle s * getMaxThrust cfg - static_friction_of cfg) / getMass cfg)%Q
  /\ (0 < acceleration s')%Q
  /\ (velocity s' == acceleration s' * 0.01)%Q
  /\ (0 < velocity s')%Q.
Proof.
  intros Hv Hsf HT Hm s'.
  destruct (standing_net_force s cfg Hv Hsf) as [_ Hnet]; [lra|].
  specialize (Hnet HT).
  destruct (committed_tick_fields Force.ACForceModel cfg t s)
    as (Hvel & _ & Hacc & _).
  fold s' in Hvel, Hacc.
  assert (Ha : (acceleration s'
                == (throttle s * getMaxThrust cfg - static_friction_of cfg)
                   / getMass cfg)%Q).
  { rewrite Hacc. unfold Qdiv. now rewrite Hnet. }
  assert (Hpos : (0 < acceleration s')%Q).
  { rewrite Ha. apply Qlt_shift_div_l; [exact Hm|]. lra. }
  split; [exact Ha|]. split; [exact Hpos|].
  assert (Hv' : (velocity s' == acceleration s' * 0.01)%Q).
  { rewrite Hvel, Hacc.
    set (a := (Force.net_force _ / getMass cfg)%Q). lra. }
  split; [exact Hv'|]. rewrite Hv'. lra.
Qed.

Lemma break_away_witness :
  let s := store_throttle 0.1 initial_state in
  (0 < velocity
         (Dynamics.committed_tick Force.ACForceModel
            AircraftConfig_FixedWin_AC1 0.01 s))%Q.
Proof.
  intros s.
  destruct (break_away AircraftConfig_FixedWin_AC1 0.01 s)
    as (_ & _ & _ & H).
  - reflexivity.
  - vm_compute. discriminate.
  - vm_compute. reflexivity.
  - vm_compute. reflexivity.
  - exact H.
Defined.

(** ** Controllers over several ticks *)

Lemma run_rounds_S (fm : Force.IForceModel) (cfg : AircraftConfigBase)
    (w : Pipeline.WorkerStep) (n : nat)
    (sq : SharedStateSpace * StateUpdateQueue) :
  Pipeline.run fm cfg (rounds w (S n)) sq
  = Pipeline.run fm cfg (rounds w n)
      (Pipeline.worker_step fm cfg Pipeline.ManagerPop
         (Pipeline.worker_step fm cfg w sq)).
Proof. reflexivity. Qed.

Lemma increase_round (fm : Force.IForceModel) (cfg : AircraftConfigBase)
    (s : SharedStateSpace) :
  throttle_control_enabled s = true ->
  (0 <= throttle s)%Q -> (throttle s <= 1)%Q ->
  exists s',
    Pipeline.worker_step fm cfg Pipeline.ManagerPop
      (Pipeline.worker_step fm cfg Pipeline.ThrottleIncreaseTick (s, []))
    = (s', [])
    /\ throttle_control_enabled s' = true
    /\ brake s' = brake s
    /\ (throttle s <= throttle s')%Q /\ (throttle s' <= 1)%Q
    /\ (throttle s' <= throttle s + 0.001)%Q
    /\ ((throttle s + 0.001 <= throttle s')%Q
        \/ (1 - 0.000001 <= throttle s')%Q).
Proof.
  intros Hen H0 H1.
  cbn [Pipeline.worker_step]. unfold Controllers.increase_tick.
  cbn [fst]. rewrite Hen. unfold Controllers.increase_updateThrottle.
  unfold std_min, std_max, std_abs, Controllers.THROTTLE_INCREASE_RATE,
    Controllers.FIXED_DT.
  qcases_all; try lra;
    (cbn; eexists; split; [reflexivity|]; cbn;
     split; [exact Hen|]; split; [reflexivity|];
     repeat split; try lra; try (left; lra); try (right; lra)).
Qed.

(** X10. The throttle-increase controller ramps the throttle up by about
    0.001 per round (0.1 per second) and holds it at the top: with
    throttle control enabled, the throttle in the range 0 to 1 and no
    write pending, after [n] rounds of one controller tick and one
    state-manager pop the queue is empty again, the brake is untouched and
    the throttle has not gone down nor above 1; it has risen by at most
    [n * 0.0011], and by at least [n * 0.0009] unless it is within
    0.000002 of 1, where it is once [n * 0.001] covers the distance to 1
    plus one more round. *)
Theorem throttle_increase_ramp (fm : Force.IForceModel)
    (cfg : AircraftConfigBase) (n : nat) :
  forall s,
    throttle_control_enabled s = true ->
    (0 <= throttle s)%Q -> (throttle s <= 1)%Q ->
    let sq' := Pipeline.run fm cfg (rounds Pipeline.ThrottleIncreaseTick n)
                 (s, []) in
    let r := throttle (fst sq') in
    snd sq' = []
    /\ brake (fst sq') = brake s
    /\ (throttle s <= r)%Q /\ (r <= 1)%Q
    /\ (r <= throttle s + inject_Z (Z.of_nat n) * 0.0011)%Q
    /\ ((throttle s + inject_Z (Z.of_nat n) * 0.0009 <= r)%Q
        \/ (1 - 0.000002 <= r)%Q)
    /\ ((1 - throttle s + 0.001 <= inject_Z (Z.of_nat n) * 0.001)%Q ->
        (1 - 0.000002 <= r)%Q).
Proof.
  induction n as [|n IH]; intros s Hen H0 H1; cbv zeta.
  - cbn [rounds repeat concat Pipeline.run fold_left fst snd].
    change (inject_Z (Z.of_nat 0)) with 0%Q.
    repeat split; lra.
  - rewrite run_rounds_S.
    pose proof (inject_S n) as HS. pose proof (inject_nat_nonneg n) as Hn.
    destruct (increase_round fm cfg s Hen H0 H1)
      as (s1 & E & Hen1 & Hb1 & Hle1 & Hone1 & Hup1 & Hlow1).
    rewrite E.
    assert (H01 : (0 <= throttle s1)%Q) by lra.
    destruct (IH s1 Hen1 H01 Hone1) as (Hq & Hb & Hle & Hone & Hup & Hlow & Hsat).
    revert Hle Hone Hup Hlow Hsat.
    set (r := throttle (fst (Pipeline.run fm cfg _ (s1, [])))).
    clearbody r. intros Hle Hone Hup Hlow Hsat.
    split; [exact Hq|]. split; [congruence|].
    split; [lra|]. split; [lra|]. split; [lra|]. split.
    + destruct Hlow1 as [Hlow1|Hlow1]; [|right; lra].
      destruct Hlow as [Hlow|Hlow]; [left; lra | right; lra].
    + intros Hfar. destruct Hlow1 as [Hlow1|Hlow1]; [|lra].
      apply Hsat. lra.
Qed.

(** Fifty rounds from throttle 0: the throttle is between 0.045 and
    0.055. *)
Lemma throttle_increase_ramp_witness :
  let s := store_throttle_control_enabled true initial_state in
  let r := throttle
             (fst (Pipeline.run Force.ACForceModel AircraftConfig_FixedWin_AC1
                     (rounds Pipeline.ThrottleIncreaseTick 50) (s, []))) in
  (0.045 <= r)%Q /\ (r <= 0.055)%Q.
Proof.
  intros s r.
  destruct (throttle_increase_ramp Force.ACForceModel
              AircraftConfig_FixedWin_AC1 50 s)
    as (_ & _ & _ & _ & Hup & Hlow & _).
  - reflexivity.
  - vm_compute. discriminate.
  - vm_compute. discriminate.
  - fold r in Hup, Hlow. split.
    + destruct Hlow as [Hlow|Hlow].
      * eapply Qle_trans; [|exact Hlow]. vm_compute. discriminate.
      * eapply Qle_trans; [|exact Hlow]. vm_compute. discriminate.
    + eapply Qle_trans; [exact Hup|]. vm_compute. discriminate.
Defined.

Lemma decrease_round (fm : Force.IForceModel) (cfg : AircraftConfigBase)
    (s : SharedStateSpace) :
  throttle_control_enabled s = true ->
  exists s',
    Pipeline.worker_step fm cfg Pipeline.ManagerPop
      (Pipeline.worker_step fm cfg Pipeline.ThrottleDecreaseTick (s, []))
    = (s', [])
    /\ throttle_control_enabled s' = true
    /\ (throttle s' == std_max 0 (throttle s - 0.002))%Q.
Proof.
  intros Hen.
  cbn [Pipeline.worker_step]. unfold Controllers.decrease_tick.
  cbn [fst]. rewrite Hen. unfold Controllers.decrease_updateThrottle.
  unfold std_max, Controllers.THROTTLE_DECREASE_RATE, Controllers.FIXED_DT.
  cbn. eexists. split; [reflexivity|]. cbn. split; [exact Hen|].
  qcases; lra.
Qed.

(** X11. The throttle-decrease controller lowers the throttle by about
    0.002 per round (0.2 per second) and stops at 0: with throttle control
    enabled, the throttle in the range 0 to 1 and no write pending, after
    [n] rounds of one controller tick and one state-manager pop the queue
    is empty again and the throttle has not gone up nor below 0; it has
    fallen by at most [n * 0.0022], and by at least [n * 0.0018] unless it
    is 0, which it is once [n * 0.002] covers the throttle plus one more
    round. *)
Theorem throttle_decrease_to_zero (fm : Force.IForceModel)
    (cfg : AircraftConfigBase) (n : nat) :
  forall s,
    throttle_control_enabled s = true ->
    (0 <= throttle s)%Q -> (throttle s <= 1)%Q ->
    let sq' := Pipeline.run fm cfg (rounds Pipeline.ThrottleDecreaseTick n)
                 (s, []) in
    let r := throttle (fst sq') in
    snd sq' = []
    /\ (0 <= r)%Q /\ (r <= throttle s)%Q
    /\ (throttle s - inject_Z (Z.of_nat n) * 0.0022 <= r)%Q
    /\ ((r <= throttle s - inject_Z (Z.of_nat n) * 0.0018)%Q \/ (r == 0)%Q)
    /\ ((throttle s + 0.002 <= inject_Z (Z.of_nat n) * 0.002)%Q ->
        (r == 0)%Q).
Proof.
  induction n as [|n IH]; intros s Hen H0 H1; cbv zeta.
  - cbn [rounds repeat concat Pipeline.run fold_left fst snd].
    change (inject_Z (Z.of_nat 0)) with 0%Q.
    repeat split; lra.
  - rewrite run_rounds_S.
    pose proof (inject_S n) as HS. pose proof (inject_nat_nonneg n) as Hn.
    destruct (decrease_round fm cfg s Hen) as (s1 & E & Hen1 & Ht1).
    rewrite E.
    assert (Hs1 : (0 <= throttle s1)%Q /\ (throttle s1 <= throttle s)%Q
                  /\ (throttle s - 0.002 <= throttle s1)%Q
                  /\ ((throttle s1 <= throttle s - 0.002)%Q
                      \/ (throttle s1 == 0)%Q)).
    { rewrite Ht1. unfold std_max. qcases; repeat split; lra. }
    destruct Hs1 as (H01 & Hdown1 & Hlow1 & Hup1).
    assert (H11 : (throttle s1 <= 1)%Q) by lra.
    destruct (IH s1 Hen1 H01 H11) as (Hq & Hr0 & Hdown & Hlow & Hup & Hsat).
    revert Hr0 Hdown Hlow Hup Hsat.
    set (r := throttle (fst (Pipeline.run fm cfg _ (s1, [])))).
    clearbody r. clear Ht1. intros Hr0 Hdown Hlow Hup Hsat.
    split; [exact Hq|].
    split; [lra|]. split; [lra|]. split; [lra|]. split.
    + destruct Hup1 as [Hup1|Hup1]; [|right; lra].
      destruct Hup as [Hup|Hup]; [left; lra | right; lra].
    + intros Hfar. destruct Hup1 as [Hup1|Hup1]; [|lra].
      apply Hsat. lra.
Qed.

(** Forty rounds from throttle 0.05: the throttle is 0. *)
Lemma throttle_decrease_to_zero_witness :
  let s := store_throttle_control_enabled true
             (store_throttle 0.05 initial_state) in
  (throttle
     (fst (Pipeline.run Force.ACForceModel AircraftConfig_FixedWin_AC1
             (rounds Pipeline.ThrottleDecreaseTick 40) (s, [])))
   == 0)%Q.
Proof.
  intros s.
  destruct (throttle_decrease_to_zero Force.ACForceModel
              AircraftConfig_FixedWin_AC1 40 s)
    as (_ & _ & _ & _ & _ & H).
  - reflexivity.
  - vm_compute. discriminate.
  - vm_compute. discriminate.
  - apply H. vm_compute. discriminate.
Defined.

Lemma brake_tick_enabled (s : SharedStateSpace) (q : StateUpdateQueue) :
  brake_control_enabled s = true ->
  exists s',
    Controllers.brake_tick (s, q) = (s', q)
    /\ brake_control_enabled s' = true
    /\ throttle s' = throttle s
    /\ (brake s' == std_min 1 (brake s + 0.002))%Q.
Proof.
  intros Hen. unfold Controllers.brake_tick. cbn [fst snd]. rewrite Hen.
  eexists. split; [reflexivity|]. split; [exact Hen|]. split; [reflexivity|].
  unfold Controllers.updateBrake, std_min, ControllerConfig.BRAKE_RATE,
    ControllerConfig.MAX_BRAKE, Controllers.FIXED_DT.
  cbn. qcases; lra.
Qed.

(** X12. The brake controller stores the brake directly, raising it by
    about 0.002 per tick (0.2 per second) up to 1: with brake control
    enabled and the brake in the range 0 to 1, after [n] of its ticks
    neither the queue nor the throttle has changed, whatever is queued,
    and the brake has not gone down nor above 1; it has risen by at most
    [n * 0.0022], and by at least [n * 0.0018] unless it is 1, which it is
    once [n * 0.002] covers the distance to 1 plus one more tick. *)
Theorem brake_ramp_saturates (fm : Force.IForceModel)
    (cfg : AircraftConfigBase) (n : nat) :
  forall s q,
    brake_control_enabled s = true ->
    (0 <= brake s)%Q -> (brake s <= 1)%Q ->
    let sq' := Pipeline.run fm cfg (repeat Pipeline.BrakeTick n) (s, q) in
    let r := brake (fst sq') in
    snd sq' = q
    /\ throttle (fst sq') = throttle s
    /\ (brake s <= r)%Q /\ (r <= 1)%Q
    /\ (r <= brake s + inject_Z (Z.of_nat n) * 0.0022)%Q
    /\ ((brake s + inject_Z (Z.of_nat n) * 0.0018 <= r)%Q \/ (r == 1)%Q)
    /\ ((1 - brake s + 0.002 <= inject_Z (Z.of_nat n) * 0.002)%Q ->
        (r == 1)%Q).
Proof.
  induction n as [|n IH]; intros s q Hen H0 H1; cbv zeta.
  - cbn [repeat Pipeline.run fold_left fst snd].
    change (inject_Z (Z.of_nat 0)) with 0%Q.
    repeat split; lra.
  - cbn [repeat]. unfold Pipeline.run. cbn [fold_left Pipeline.worker_step].
    pose proof (inject_S n) as HS. pose proof (inject_nat_nonneg n) as Hn.
    destruct (brake_tick_enabled s q Hen) as (s1 & E & Hen1 & Ht1 & Hb1).
    rewrite E.
    assert (Hs1 : (brake s <= brake s1)%Q /\ (brake s1 <= 1)%Q
                  /\ (brake s1 <= brake s + 0.002)%Q
                  /\ ((brake s + 0.002 <= brake s1)%Q \/ (brake s1 == 1)%Q)).
    { rewrite Hb1. unfold std_min. qcases; repeat split; lra. }
    destruct Hs1 as (Hle1 & H11 & Hup1 & Hlow1).
    assert (H01 : (0 <= brake s1)%Q) by lra.
    destruct (IH s1 q Hen1 H01 H11) as (Hq & Ht & Hle & Hone & Hup & Hlow & Hsat).
    unfold Pipeline.run in Hq, Ht, Hle, Hone, Hup, Hlow, Hsat.
    revert Hle Hone Hup Hlow Hsat.
    set (r := brake (fst (fold_left _ _ (s1, q)))).
    clearbody r. clear Hb1. intros Hle Hone Hup Hlow Hsat.
    split; [exact Hq|]. split; [congruence|].
    split; [lra|]. split; [lra|]. split; [lra|]. split.
    + destruct Hlow1 as [Hlow1|Hlow1]; [|right; lra].
      destruct Hlow as [Hlow|Hlow]; [left; lra | right; lra].
    + intros Hfar. destruct Hlow1 as [Hlow1|Hlow1]; [|lra].
      apply Hsat. lra.
Qed.

(** Six hundred ticks from brake 0: the brake is 1. *)
Lemma brake_ramp_saturates_witness :
  let s := store_brake_control_enabled true initial_state in
  (brake
     (fst (Pipeline.run Force.ACForceModel AircraftConfig_FixedWin_AC1
             (repeat Pipeline.BrakeTick 600) (s, [])))
   == 1)%Q.
Proof.
  intros s.
  destruct (brake_ramp_saturates Force.ACForceModel
              AircraftConfig_FixedWin_AC1 600 s [])
    as (_ & _ & _ & _ & _ & _ & H).
  - reflexivity.
  - vm_compute. discriminate.
  - vm_compute. discriminate.
  - apply H. vm_compute. discriminate.
Defined.

(** X13. The cruise controller is proportional with gain 0.1 and never
    commands throttle and brake together: for a velocity error
    [e = target - current], a positive [e] gives throttle [min (0.1 e) 1]
    and brake 0, any other [e] gives throttle 0 and brake [min (-0.1 e) 1];
    so the command saturates at an error of 10 m/s. *)
Theorem cruise_proportional_law (current_velocity target_velocity : Q) :
  let e := Controllers.velocity_error current_velocity target_velocity in
  let tb := Controllers.calculateThrottleAndBrake current_velocity
              target_velocity in
  ((fst tb == 0)%Q \/ (snd tb == 0)%Q)
  /\ ((0 < e)%Q -> (fst tb == Qmin (0.1 * e) 1)%Q /\ snd tb = 0%Q)
  /\ ((e <= 0)%Q -> fst tb = 0%Q /\ (snd tb == Qmin (- (0.1 * e)) 1)%Q)
  /\ ((10 <= e)%Q -> (fst tb == 1)%Q)
  /\ ((e <= -10)%Q -> (snd tb == 1)%Q).
Proof.
  cbv zeta. unfold Controllers.calculateThrottleAndBrake.
  set (e := Controllers.velocity_error current_velocity target_velocity).
  unfold std_max, std_min, ControllerConfig.CRUISE_GAIN,
    ControllerConfig.MAX_THROTTLE, ControllerConfig.MAX_BRAKE.
  destruct (Q.min_spec (0.1 * e) 1) as [[? Hm]|[? Hm]];
  destruct (Q.min_spec (- (0.1 * e)) 1) as [[? Hm']|[? Hm']];
    set (m := Qmin (0.1 * e) 1) in *; set (m' := Qmin (- (0.1 * e)) 1) in *;
    qcases; cbn [fst snd];
    (split; [|split; [|split; [|split]]]); intros; try split; qcases_all;
    try reflexivity; try lra; try (right; lra); try (left; lra).
Qed.

Lemma cruise_proportional_law_witness :
  (fst (Controllers.calculateThrottleAndBrake 95 100) == 0.5)%Q
  /\ (snd (Controllers.calculateThrottleAndBrake 120 100) == 1)%Q.
Proof.
  destruct (cruise_proportional_law 95 100) as (_ & H & _).
  destruct (cruise_proportional_law 120 100) as (_ & _ & _ & _ & H').
  split.
  - destruct H as [H _]; [vm_compute; reflexivity|]. rewrite H.
    vm_compute. reflexivity.
  - apply H'. vm_compute. discriminate.
Defined.

(** ** The event bus *)

Lemma publish_running (e : string) (b : Bus.EventBus) :
  Bus.running (fst (Bus.publish e b)) = Bus.running b.
Proof.
  unfold Bus.publish.
  destruct (negb (Bus.running b)); [reflexivity|].
  destruct (Bus.MAX_QUEUE_SIZE <=? _)%nat; reflexivity.
Qed.

Lemma occurrences_cons (e x : string) (l : list string) :
  occurrences e (x :: l)
  = ((if String.eqb x e then 1 else 0) + occurrences e l)%nat.
Proof.
  unfold occurrences. cbn [List.filter]. destruct (String.eqb x e); reflexivity.
Qed.

Lemma occurrences_app (e : string) (l l' : list string) :
  occurrences e (l ++ l') = (occurrences e l + occurrences e l')%nat.
Proof.
  unfold occurrences. now rewrite List.filter_app, length_app.
Qed.

Lemma publish_spec (x : string) (b : Bus.EventBus) :
  Bus.running b = true ->
  let b1 := fst (Bus.publish x b) in
  let bump e (n : Z) := if String.eqb x e then wrap_u64 (n + 1) else n in
  (forall e, Bus.total_events (Bus.stats_of e b1)
             = bump e (Bus.total_events (Bus.stats_of e b)))
  /\ ((Bus.MAX_QUEUE_SIZE <= length (Bus.event_queue b))%nat ->
      Bus.event_queue b1 = Bus.event_queue b
      /\ forall e, Bus.dropped_events (Bus.stats_of e b1)
                   = bump e (Bus.dropped_events (Bus.stats_of e b)))
  /\ ((length (Bus.event_queue b) < Bus.MAX_QUEUE_SIZE)%nat ->
      Bus.event_queue b1 = Bus.event_queue b ++ [x]
      /\ forall e, Bus.dropped_events (Bus.stats_of e b1)
                   = Bus.dropped_events (Bus.stats_of e b)).
Proof.
  intros Hr. cbv zeta. unfold Bus.publish. rewrite Hr. cbn [negb].
  assert (Hst : forall e st (stats : gmap string Bus.EventStats),
             default Bus.no_stats (<[x := st]> stats !! e)
             = if String.eqb x e then st
               else default Bus.no_stats (stats !! e)).
  { intros e st stats. destruct (String.eqb_spec x e) as [->|Hne].
    - now rewrite lookup_insert_eq.
    - now rewrite lookup_insert_ne. }
  destruct (Nat.leb_spec Bus.MAX_QUEUE_SIZE (length (Bus.event_queue b)))
    as [Hfull|Hroom]; cbn [fst]; unfold Bus.stats_of;
    cbn [Bus.event_stats Bus.event_queue].
  - split; [|split; [intros _; split; [reflexivity|] | intros; lia]];
      intros e; rewrite Hst; destruct (String.eqb_spec x e) as [->|];
      reflexivity.
  - split; [|split; [intros; lia | intros _; split; [reflexivity|]]];
      intros e; rewrite Hst; destruct (String.eqb_spec x e) as [->|];
      reflexivity.
Qed.

(** X14. A running bus keeps the oldest events and drops the newest: after
    publishing a list of events the queue is the old queue followed by as
    many of the first events as there was room for (up to 1000 items in
    all), in order; for every event name the [size_t] counter
    [total_events] has grown, wrapping at 2^64, by the number of times the
    event was published, and [dropped_events] by the number of times it
    was published after the queue was full. *)
Theorem publish_keeps_oldest (events : list string) :
  forall b,
    Bus.running b = true ->
    let b' := publish_all events b in
    let room := (Bus.MAX_QUEUE_SIZE - length (Bus.event_queue b))%nat in
    Bus.event_queue b' = Bus.event_queue b ++ firstn room events
    /\ (forall e,
          (0 <= Bus.total_events (Bus.stats_of e b) < 2 ^ 64)%Z ->
          (0 <= Bus.dropped_events (Bus.stats_of e b) < 2 ^ 64)%Z ->
          Bus.total_events (Bus.stats_of e b')
          = wrap_u64 (Bus.total_events (Bus.stats_of e b)
                      + Z.of_nat (occurrences e events))
          /\ Bus.dropped_events (Bus.stats_of e b')
             = wrap_u64 (Bus.dropped_events (Bus.stats_of e b)
                         + Z.of_nat (occurrences e (skipn room events))))
    /\ ((length (Bus.event_queue b) <= Bus.MAX_QUEUE_SIZE)%nat ->
        (length (Bus.event_queue b') <= Bus.MAX_QUEUE_SIZE)%nat).
Proof.
  induction events as [|x events IH]; intros b Hr; cbv zeta.
  - cbn [publish_all fold_left]. rewrite firstn_nil, skipn_nil, app_nil_r.
    split; [reflexivity|]. split; [|auto].
    intros e Ht Hd. unfold occurrences. cbn [List.filter length Z.of_nat].
    rewrite !Z.add_0_r, !wrap_u64_small by assumption. split; reflexivity.
  - unfold publish_all in *. cbn [fold_left].
    specialize (IH (fst (Bus.publish x b))).
    rewrite publish_running in IH. specialize (IH Hr). cbv zeta in IH.
    destruct IH as (Hq & Hst & Hlen).
    destruct (publish_spec x b Hr) as (Htot & Hfull & Hroom).
    revert Hq Hst Hlen Htot Hfull Hroom.
    set (b1 := fst (Bus.publish x b)). clearbody b1.
    set (b'' := fold_left _ events _). clearbody b''.
    cbv zeta. intros Hq Hst Hlen Htot Hfull Hroom.
    destruct (Nat.leb_spec Bus.MAX_QUEUE_SIZE (length (Bus.event_queue b)))
      as [Hf|Hr'].
    + destruct (Hfull Hf) as [Hq1 Hd1]. rewrite Hq1 in *.
      replace (Bus.MAX_QUEUE_SIZE - length (Bus.event_queue b))%nat
        with 0%nat in * by lia.
      rewrite firstn_O in *. rewrite skipn_O.
      split; [exact Hq|]. split; [|intros; lia].
      intros e Ht0 Hd0. specialize (Hst e). rewrite skipn_O in Hst.
      rewrite Htot, Hd1 in Hst. rewrite occurrences_cons.
      destruct (String.eqb x e).
      * destruct Hst as [Ht Hd]; try apply wrap_u64_range.
        rewrite Ht, Hd, !wrap_u64_add_l. split; f_equal; lia.
      * destruct Hst as [Ht Hd]; try assumption.
        rewrite Ht, Hd. split; reflexivity.
    + destruct (Hroom Hr') as [Hq1 Hd1]. rewrite Hq1 in *.
      rewrite length_app in Hq, Hst, Hlen. cbn [length] in Hq, Hst, Hlen.
      replace (Bus.MAX_QUEUE_SIZE - length (Bus.event_queue b))%nat
        with (S (Bus.MAX_QUEUE_SIZE - (length (Bus.event_queue b) + 1)))%nat
        by lia.
      cbn [firstn skipn].
      split; [rewrite Hq, <- app_assoc; reflexivity|].
      split; [|intros _; apply Hlen; lia].
      intros e Ht0 Hd0. specialize (Hst e).
      rewrite Htot, Hd1 in Hst. rewrite occurrences_cons.
      destruct (String.eqb x e).
      * destruct Hst as [Ht Hd]; [apply wrap_u64_range | assumption |].
        rewrite Ht, Hd, !wrap_u64_add_l. split; f_equal; lia.
      * destruct Hst as [Ht Hd]; try assumption.
        rewrite Ht, Hd. split; reflexivity.
Qed.

(** Three events on a new bus with one subscription: all three are
    queued, "start" has been counted twice and nothing was dropped. *)
Lemma publish_keeps_oldest_witness :
  let b := Bus.subscribe "start" (Bus.ManagerHandler "start") Bus.fresh in
  let b' := publish_all ["start"; "stop"; "start"] b in
  Bus.event_queue b' = ["start"; "stop"; "start"]
  /\ Bus.total_events (Bus.stats_of "start" b') = 2%Z
  /\ Bus.dropped_events (Bus.stats_of "start" b') = 0%Z.
Proof.
  intros b b'.
  destruct (publish_keeps_oldest ["start"; "stop"; "start"] b)
    as (H & Hst & _).
  - reflexivity.
  - split; [subst b'; rewrite H; reflexivity|].
    destruct (Hst "start") as [Ht Hd].
    + vm_compute. split; [discriminate | reflexivity].
    + vm_compute. split; [discriminate | reflexivity].
    + subst b'. split; [rewrite Ht | rewrite Hd]; vm_compute; reflexivity.
Defined.

(** ** The controller manager *)

Lemma apply_setting_flags (i x : string) (settings : gmap string string)
    (s : SharedStateSpace) :
  settings !! i = None ->
  Manager.apply_setting i x
    (flag_setting settings "pitch_control_enabled" store_pitch_control_enabled
       (flag_setting settings "cruise_control_enabled"
          store_cruise_control_enabled
          (flag_setting settings "brake_control_enabled"
             store_brake_control_enabled
             (flag_setting settings "throttle_control_enabled"
                store_throttle_control_enabled s))))
  = flag_setting (<[i := x]> settings) "pitch_control_enabled"
      store_pitch_control_enabled
      (flag_setting (<[i := x]> settings) "cruise_control_enabled"
         store_cruise_control_enabled
         (flag_setting (<[i := x]> settings) "brake_control_enabled"
            store_brake_control_enabled
            (flag_setting (<[i := x]> settings) "throttle_control_enabled"
               store_throttle_control_enabled s))).
Proof.
  intros Hi. unfold Manager.apply_setting, flag_setting.
  destruct (String.eqb_spec i "throttle_control_enabled") as [->|H1].
  { rewrite lookup_insert_eq, !lookup_insert_ne by discriminate. rewrite Hi.
    destruct (settings !! "brake_control_enabled"),
      (settings !! "cruise_control_enabled"),
      (settings !! "pitch_control_enabled"); reflexivity. }
  destruct (String.eqb_spec i "brake_control_enabled") as [->|H2].
  { rewrite lookup_insert_eq, !lookup_insert_ne by discriminate. rewrite Hi.
    destruct (settings !! "throttle_control_enabled"),
      (settings !! "cruise_control_enabled"),
      (settings !! "pitch_control_enabled"); reflexivity. }
  destruct (String.eqb_spec i "cruise_control_enabled") as [->|H3].
  { rewrite lookup_insert_eq, !lookup_insert_ne by discriminate. rewrite Hi.
    destruct (settings !! "throttle_control_enabled"),
      (settings !! "brake_control_enabled"),
      (settings !! "pitch_control_enabled"); reflexivity. }
  destruct (String.eqb_spec i "pitch_control_enabled") as [->|H4].
  { rewrite lookup_insert_eq, !lookup_insert_ne by discriminate. rewrite Hi.
    destruct (settings !! "throttle_control_enabled"),
      (settings !! "brake_control_enabled"),
      (settings !! "cruise_control_enabled"); reflexivity. }
  rewrite !lookup_insert_ne by congruence. reflexivity.
Qed.

(** X15. [applyStateSettings] does not depend on the order in which the
    map is walked: whatever the settings, the result is the state with each
    of the four enable flags that has an entry set to whether its value is
    the string "true", and nothing else changed; entries under any other
    name are ignored. *)
Theorem applyStateSettings_sets_the_four_flags
    (settings : gmap string string) (s : SharedStateSpace) :
  Manager.applyStateSettings settings s
  = flag_setting settings "pitch_control_enabled" store_pitch_control_enabled
      (flag_setting settings "cruise_control_enabled"
         store_cruise_control_enabled
         (flag_setting settings "brake_control_enabled"
            store_brake_control_enabled
            (flag_setting settings "throttle_control_enabled"
               store_throttle_control_enabled s))).
Proof.
  unfold Manager.applyStateSettings.
  apply (map_fold_weak_ind
           (fun r m =>
              r = flag_setting m "pitch_control_enabled"
                    store_pitch_control_enabled
                    (flag_setting m "cruise_control_enabled"
                       store_cruise_control_enabled
                       (flag_setting m "brake_control_enabled"
                          store_brake_control_enabled
                          (flag_setting m "throttle_control_enabled"
                             store_throttle_control_enabled s))))).
  - reflexivity.
  - intros i x m r Hi ->. now apply apply_setting_flags.
Qed.

Lemma startController_roster (n name : string)
    (m : Manager.ControllerManagerThread) :
  is_Some (Manager.controllers (Manager.startController n m) !! name)
  <-> is_Some (Manager.controllers m !! name).
Proof.
  unfold Manager.startController.
  destruct (Manager.controllers m !! n) as [r|] eqn:E; [|reflexivity].
  repeat (match goal with |- context [if ?b then _ else _] =>
            destruct b end); try reflexivity.
  cbn [Manager.log_detail Manager.with_controllers Manager.controllers].
  destruct (decide (n = name)) as [->|Hne].
  - rewrite lookup_insert_eq, E. split; eauto.
  - now rewrite lookup_insert_ne.
Qed.

Lemma stopController_roster (n name : string)
    (m : Manager.ControllerManagerThread) :
  is_Some (Manager.controllers (Manager.stopController n m) !! name)
  <-> is_Some (Manager.controllers m !! name).
Proof.
  unfold Manager.stopController.
  destruct (Manager.controllers m !! n) as [r|] eqn:E; [|reflexivity].
  cbn [Manager.log_detail Manager.with_controllers Manager.controllers].
  destruct (decide (n = name)) as [->|Hne].
  - rewrite lookup_insert_eq, E. split; eauto.
  - now rewrite lookup_insert_ne.
Qed.

Lemma manager_setFlightMode_controllers (nm : string)
    (m : Manager.ControllerManagerThread) :
  Manager.controllers (Manager.setFlightMode nm m) = Manager.controllers m.
Proof.
  unfold Manager.setFlightMode, Manager.switch_mode.
  repeat (match goal with |- context [if ?b then _ else _] =>
            destruct b end); reflexivity.
Qed.

Lemma executeControllerAction_roster (a : ControllerAction) (name : string)
    (m : Manager.ControllerManagerThread) :
  is_Some (Manager.controllers (Manager.executeControllerAction a m) !! name)
  <-> is_Some (Manager.controllers m !! name).
Proof.
  unfold Manager.executeControllerAction.
  destruct (ActionsConfig.getActionConfig _ _) as [[cfg|] c'];
    [|reflexivity].
  cbn [Manager.log_detail Manager.controllers].
  destruct (String.eqb (action_type cfg) "CONTROLLER").
  { destruct (String.prefix "START_" _);
      [rewrite startController_roster; reflexivity|].
    destruct (String.prefix "STOP_" _);
      [rewrite stopController_roster; reflexivity | reflexivity]. }
  destruct (String.eqb (action_type cfg) "STOP_ALL").
  { cbn [Manager.stopAllControllers Manager.log_detail
           Manager.with_controllers Manager.with_config Manager.controllers].
    rewrite lookup_fmap. apply fmap_is_Some. }
  destruct (String.eqb (action_type cfg) "MODE"); [|reflexivity].
  destruct (state_settings cfg !! "flight_mode"); [|reflexivity].
  rewrite manager_setFlightMode_controllers. reflexivity.
Qed.

(** X16. The roster of the manager is fixed once it is created: whatever
    the action table holds and whatever actions are executed, a name has a
    controller afterwards exactly when it had one before.  In particular
    starting an unknown controller creates none. *)
Theorem roster_is_fixed (actions : list ControllerAction) :
  forall (m : Manager.ControllerManagerThread) (name : string),
    is_Some (Manager.controllers
               (Manager.executeControllerActions actions m) !! name)
    <-> is_Some (Manager.controllers m !! name).
Proof.
  induction actions as [|a actions IH]; intros m name; [reflexivity|].
  unfold Manager.executeControllerActions in *. cbn [fold_left].
  rewrite IH. apply executeControllerAction_roster.
Qed.

Lemma getActionConfig_default (n : string) (c : ActionsConfig.t) :
  default_config c ->
  fst (ActionsConfig.getActionConfig n c) = ActionsConfig.default_configs !! n
  /\ default_config (snd (ActionsConfig.getActionConfig n c)).
Proof.
  unfold ActionsConfig.getActionConfig, default_config.
  destruct (ActionsConfig.config_loaded c) eqn:E; cbn [fst snd].
  - intros [H|H]; [discriminate|]. rewrite H. split; [reflexivity|now right].
  - intros _. split; [reflexivity|]. right. reflexivity.
Qed.

Lemma default_mode_entries (a : ControllerAction) (cfg : ControllerActionConfig) :
  ActionsConfig.default_configs !! Manager.getActionName a = Some cfg ->
  hands_authority_to_auto a = false ->
  String.eqb (action_type cfg) "MODE" = true ->
  state_settings cfg !! "flight_mode" = Some "MANUAL".
Proof.
  intros H Ha Hty.
  destruct a; try discriminate Ha;
    vm_compute in H; injection H as <-;
    first [discriminate Hty | vm_compute; reflexivity].
Qed.

Lemma startController_gated (n g : string)
    (m : Manager.ControllerManagerThread) :
  auto_system_has_throttle_control (control_auth (Manager.state m)) = false ->
  auto_system_has_brake_control (control_auth (Manager.state m)) = false ->
  gated g = true ->
  Manager.controllers m !! g <> Some true ->
  Manager.controllers (Manager.startController n m) !! g <> Some true.
Proof.
  intros Ht Hb Hg Hm. unfold Manager.startController.
  destruct (Manager.controllers m !! n) as [r|] eqn:E; [|exact Hm].
  rewrite Ht, Hb. cbn [negb]. rewrite !andb_true_r.
  destruct (Manager.needs_throttle_authority n) eqn:E1; [exact Hm|].
  destruct (Manager.needs_brake_authority n) eqn:E2; [exact Hm|].
  cbn [Manager.log_detail Manager.with_controllers Manager.controllers].
  rewrite lookup_insert_ne; [exact Hm|].
  intros ->. unfold gated in Hg. rewrite E1, E2 in Hg. discriminate.
Qed.

Lemma stopController_not_running (n g : string)
    (m : Manager.ControllerManagerThread) :
  Manager.controllers m !! g <> Some true ->
  Manager.controllers (Manager.stopController n m) !! g <> Some true.
Proof.
  intros Hm. unfold Manager.stopController.
  destruct (Manager.controllers m !! n) as [r|] eqn:E; [|exact Hm].
  cbn [Manager.log_detail Manager.with_controllers Manager.controllers].
  destruct (decide (n = g)) as [->|Hne].
  - rewrite lookup_insert_eq. discriminate.
  - now rewrite lookup_insert_ne.
Qed.

Lemma manual_step (a : ControllerAction) (m : Manager.ControllerManagerThread) :
  default_config (Manager.config m) ->
  auto_system_has_throttle_control (control_auth (Manager.state m)) = false ->
  auto_system_has_brake_control (control_auth (Manager.state m)) = false ->
  (forall g, gated g = true -> Manager.controllers m !! g <> Some true) ->
  hands_authority_to_auto a = false ->
  let m' := Manager.executeControllerAction a m in
  default_config (Manager.config m')
  /\ auto_system_has_throttle_control (control_auth (Manager.state m')) = false
  /\ auto_system_has_brake_control (control_auth (Manager.state m')) = false
  /\ (forall g, gated g = true -> Manager.controllers m' !! g <> Some true).
Proof.
  intros Hc Ht Hb Hg Ha m'.
  destruct (getActionConfig_default (Manager.getActionName a) _ Hc)
    as [Hfst Hsnd].
  split; [subst m'; rewrite executeControllerAction_config; exact Hsnd|].
  assert (Hauth : control_auth (Manager.state m')
                  = control_auth (Manager.state m)
                  \/ control_auth (Manager.state m')
                     = control_auth (setFlightMode MANUAL (Manager.state m))).
  { subst m'. rewrite executeControllerAction_control_auth.
    unfold action_mode. rewrite Hfst.
    destruct (ActionsConfig.default_configs !! Manager.getActionName a)
      as [cfg|] eqn:E; [|now left].
    destruct (String.eqb (action_type cfg) "CONTROLLER"); [now left|].
    destruct (String.eqb (action_type cfg) "STOP_ALL"); [now left|].
    destruct (String.eqb (action_type cfg) "MODE") eqn:Hty; [|now left].
    rewrite (default_mode_entries a cfg E Ha Hty). now right. }
  split; [destruct Hauth as [-> | ->]; [exact Ht | reflexivity]|].
  split; [destruct Hauth as [-> | ->]; [exact Hb | reflexivity]|].
  intros g Hgt. specialize (Hg g Hgt). subst m'.
  unfold Manager.executeControllerAction.
  destruct (ActionsConfig.getActionConfig _ _) as [found c'].
  cbn [fst] in Hfst. clear Hsnd.
  destruct found as [cfg|]; [|exact Hg].
  cbn [Manager.log_detail Manager.controllers].
  destruct (String.eqb (action_type cfg) "CONTROLLER").
  { destruct (String.prefix "START_" _).
    - apply startController_gated; try assumption;
        cbn [Manager.with_state Manager.with_config Manager.state];
        rewrite applyStateSettings_control_auth; assumption.
    - destruct (String.prefix "STOP_" _); [|exact Hg].
      apply stopController_not_running. exact Hg. }
  destruct (String.eqb (action_type cfg) "STOP_ALL").
  { cbn [Manager.stopAllControllers Manager.log_detail
           Manager.with_controllers Manager.with_config Manager.controllers].
    rewrite lookup_fmap.
    destruct (Manager.controllers m !! g); cbn; discriminate. }
  destruct (String.eqb (action_type cfg) "MODE"); [|exact Hg].
  destruct (state_settings cfg !! "flight_mode"); [|exact Hg].
  rewrite manager_setFlightMode_controllers. exact Hg.
Qed.

Lemma manual_run (actions : list ControllerAction) :
  forall m : Manager.ControllerManagerThread,
    manual_and_idle m ->
    forallb (fun a => negb (hands_authority_to_auto a)) actions = true ->
    manual_and_idle (Manager.executeControllerActions actions m).
Proof.
  induction actions as [|a actions IH]; intros m Hm Hall; [exact Hm|].
  cbn [forallb] in Hall. apply andb_true_iff in Hall.
  destruct Hall as [Ha Hall]. apply negb_true_iff in Ha.
  destruct Hm as (Hc & Ht & Hb & Hg).
  unfold Manager.executeControllerActions in *. cbn [fold_left].
  apply IH; [|exact Hall]. exact (manual_step a m Hc Ht Hb Hg Ha).
Qed.

(** X17. Without a switch to AUTO or SEMI_AUTO no throttle, cruise or brake
    controller ever runs: under the default action table, if the automatic
    system has neither authority flag and none of the four gated controllers
    is running, then after any list of actions other than
    SWITCH_TO_AUTO_MODE and SWITCH_TO_SEMI_AUTO_MODE the automatic system
    still has neither flag and none of the four is running. *)
Theorem no_gated_start_without_mode_switch (actions : list ControllerAction) :
  forall m : Manager.ControllerManagerThread,
    default_config (Manager.config m) ->
    auto_system_has_throttle_control (control_auth (Manager.state m)) = false ->
    auto_system_has_brake_control (control_auth (Manager.state m)) = false ->
    (forall g, gated g = true -> Manager.controllers m !! g <> Some true) ->
    forallb (fun a => negb (hands_authority_to_auto a)) actions = true ->
    let m' := Manager.executeControllerActions actions m in
    auto_system_has_throttle_control (control_auth (Manager.state m')) = false
    /\ auto_system_has_brake_control (control_auth (Manager.state m')) = false
    /\ (forall g, gated g = true -> Manager.controllers m' !! g <> Some true).
Proof.
  intros m Hc Ht Hb Hg Hall.
  destruct (manual_run actions m (conj Hc (conj Ht (conj Hb Hg))) Hall)
    as (_ & H).
  exact H.
Qed.

Lemma no_gated_start_without_mode_switch_witness :
  let m := Manager.create initial_state ActionsConfig.unloaded in
  let m' := Manager.executeControllerActions
              [START_THROTTLE_INCREASE; START_BRAKE; SWITCH_TO_MANUAL_MODE;
               START_CRUISE; STOP_ALL_CONTROLLERS; START_PITCH_CONTROL] m in
  Manager.controllers m' !! "油门增加" <> Some true
  /\ Manager.controllers m' !! "刹车" <> Some true
  /\ Manager.controllers m' !! "跑道巡航" <> Some true.
Proof.
  intros m m'.
  destruct (no_gated_start_without_mode_switch
              [START_THROTTLE_INCREASE; START_BRAKE; SWITCH_TO_MANUAL_MODE;
               START_CRUISE; STOP_ALL_CONTROLLERS; START_PITCH_CONTROL] m)
    as (_ & _ & H).
  - left. reflexivity.
  - reflexivity.
  - reflexivity.
  - intros g Hg.
    unfold gated, Manager.needs_throttle_authority,
      Manager.needs_brake_authority in Hg.
    repeat (apply orb_true_iff in Hg; destruct Hg as [Hg|Hg]);
      apply String.eqb_eq in Hg; subst g; vm_compute; discriminate.
  - reflexivity.
  - repeat split; apply H; reflexivity.
Defined.

Lemma switch_step (sw : ControllerAction) (m : Manager.ControllerManagerThread) :
  default_config (Manager.config m) ->
  hands_authority_to_auto sw = true ->
  let m1 := Manager.executeControllerAction sw m in
  default_config (Manager.config m1)
  /\ Manager.controllers m1 = Manager.controllers m
  /\ Manager.state m1
     = setFlightMode
         (match sw with SWITCH_TO_AUTO_MODE => AUTO | _ => SEMI_AUTO end)
         (Manager.state m).
Proof.
  intros Hc Hsw m1.
  destruct (getActionConfig_default (Manager.getActionName sw) _ Hc)
    as [Hfst Hsnd].
  split; [subst m1; rewrite executeControllerAction_config; exact Hsnd|].
  subst m1. unfold Manager.executeControllerAction.
  destruct (ActionsConfig.getActionConfig _ _) as [found c'].
  cbn [fst] in Hfst. clear Hsnd. subst found.
  assert (E2 : forall nm : string,
             (list_to_map [("flight_mode", nm)] : gmap string string)
               !! "flight_mode" = Some nm).
  { intros nm. apply lookup_insert_eq. }
  destruct sw; try discriminate Hsw.
  - replace (ActionsConfig.default_configs
               !! Manager.getActionName SWITCH_TO_AUTO_MODE)
      with (Some (ActionsConfig.entry "MODE" [("flight_mode", "AUTO")] "MODE"))
      by (vm_compute; reflexivity).
    unfold ActionsConfig.entry. cbn [action_type state_settings controller_name].
    rewrite E2. split; reflexivity.
  - replace (ActionsConfig.default_configs
               !! Manager.getActionName SWITCH_TO_SEMI_AUTO_MODE)
      with (Some (ActionsConfig.entry "MODE" [("flight_mode", "SEMI_AUTO")]
                    "MODE"))
      by (vm_compute; reflexivity).
    unfold ActionsConfig.entry. cbn [action_type state_settings controller_name].
    rewrite E2. split; reflexivity.
Qed.

Lemma applyStateSettings_flight_mode (settings : gmap string string)
    (s : SharedStateSpace) :
  flight_mode (Manager.applyStateSettings settings s) = flight_mode s.
Proof.
  unfold Manager.applyStateSettings.
  apply (map_fold_weak_ind (fun r _ => flight_mode r = flight_mode s));
    [reflexivity|].
  intros i x m r _ IH. rewrite <- IH. unfold Manager.apply_setting.
  repeat (match goal with |- context [if ?b then _ else _] =>
            destruct b end); reflexivity.
Qed.

(** X18. A start is granted right after the switch that gives the automatic
    system authority: under the default action table, executing
    SWITCH_TO_AUTO_MODE or SWITCH_TO_SEMI_AUTO_MODE and then a START action
    of a controller of the roster leaves that controller running, with the
    flight mode the switch has set. *)
Theorem start_after_mode_switch (sw action : ControllerAction)
    (cfg : ControllerActionConfig) (m : Manager.ControllerManagerThread) :
  default_config (Manager.config m) ->
  hands_authority_to_auto sw = true ->
  ActionsConfig.default_configs !! Manager.getActionName action = Some cfg ->
  action_type cfg = "CONTROLLER" ->
  String.prefix "START_" (Manager.getActionName action) = true ->
  is_Some (Manager.controllers m !! controller_name cfg) ->
  let m' := Manager.executeControllerActions [sw; action] m in
  Manager.controllers m' !! controller_name cfg = Some true
  /\ flight_mode (Manager.state m')
     = match sw with SWITCH_TO_AUTO_MODE => AUTO | _ => SEMI_AUTO end.
Proof.
  intros Hc Hsw Hcfg Hty Hpre [r Hr] m'.
  destruct (switch_step sw m Hc Hsw) as (Hc1 & Hcs1 & Hst1).
  subst m'. unfold Manager.executeControllerActions. cbn [fold_left].
  set (m1 := Manager.executeControllerAction sw m) in *. clearbody m1.
  destruct (getActionConfig_default (Manager.getActionName action) _ Hc1)
    as [Hfst _].
  rewrite Hcfg in Hfst.
  rewrite (executeControllerAction_start action cfg m1 Hfst Hty Hpre).
  cbn [Manager.log_detail Manager.controllers Manager.state].
  rewrite startController_state.
  cbn [Manager.with_state Manager.with_config Manager.state].
  rewrite applyStateSettings_flight_mode, Hst1.
  split; [|destruct sw; try discriminate Hsw; reflexivity].
  unfold Manager.startController.
  cbn [Manager.with_state Manager.with_config Manager.controllers
         Manager.state].
  rewrite Hcs1, Hr, !applyStateSettings_control_auth.
  assert (Ha : auto_system_has_throttle_control
                 (control_auth
                    (setFlightMode
                       match sw with
                       | SWITCH_TO_AUTO_MODE => AUTO
                       | _ => SEMI_AUTO
                       end (Manager.state m))) = true
               /\ auto_system_has_brake_control
                    (control_auth
                       (setFlightMode
                          match sw with
                          | SWITCH_TO_AUTO_MODE => AUTO
                          | _ => SEMI_AUTO
                          end (Manager.state m))) = true).
  { destruct sw; try discriminate Hsw; split; reflexivity. }
  destruct Ha as [-> ->]. cbn [negb]. rewrite !andb_false_r.
  cbn [Manager.log_detail Manager.with_controllers Manager.controllers].
  apply lookup_insert_eq.
Qed.

Lemma start_after_mode_switch_witness :
  let m := Manager.create initial_state ActionsConfig.unloaded in
  let m' := Manager.executeControllerActions
              [SWITCH_TO_AUTO_MODE; START_CRUISE] m in
  Manager.controllers m' !! "跑道巡航" = Some true
  /\ flight_mode (Manager.state m') = AUTO.
Proof.
  intros m m'.
  apply (start_after_mode_switch SWITCH_TO_AUTO_MODE START_CRUISE
           (ActionsConfig.entry "跑道巡航" [("cruise_control_enabled", "true")]
              "CONTROLLER") m).
  - left. reflexivity.
  - reflexivity.
  - vm_compute. reflexivity.
  - reflexivity.
  - reflexivity.
  - vm_compute. eauto.
Defined.

(** ** The event monitor *)

Lemma check_event_latch (s : SharedStateSpace)
    (acc : Monitor.EventMonitorThread * Bus.EventBus)
    (entry : string * EventDefinition) (e : string) :
  Monitor.already_triggered e (fst (Monitor.check_event s acc entry))
  = Monitor.already_triggered e (fst acc)
    || (String.eqb (fst entry) e && trigger_condition (snd entry) s).
Proof.
  destruct acc as [mon b], entry as [n ev]. cbn [fst snd].
  unfold Monitor.check_event.
  destruct (Monitor.already_triggered n mon) eqn:Hn; cbn [negb andb fst].
  - destruct (String.eqb_spec n e) as [->|Hne]; cbn [andb].
    + rewrite Hn. reflexivity.
    + now rewrite orb_false_r.
  - destruct (trigger_condition ev s); cbn [fst].
    + unfold Monitor.already_triggered in *.
      cbn [Monitor.local_triggered_events].
      destruct (String.eqb_spec n e) as [->|Hne]; cbn [andb].
      * rewrite lookup_insert_eq. now rewrite orb_true_r.
      * rewrite lookup_insert_ne by exact Hne. now rewrite orb_false_r.
    + now rewrite andb_false_r, orb_false_r.
Qed.

Lemma check_list_latch (s : SharedStateSpace)
    (l : list (string * EventDefinition)) (e : string) :
  forall acc,
    Monitor.already_triggered e (fst (fold_left (Monitor.check_event s) l acc))
    = Monitor.already_triggered e (fst acc)
      || existsb (fun entry => String.eqb (fst entry) e
                               && trigger_condition (snd entry) s) l.
Proof.
  induction l as [|d l IH]; intros acc; cbn [fold_left existsb].
  - now rewrite orb_false_r.
  - rewrite IH, check_event_latch. now rewrite orb_assoc.
Qed.

Lemma existsb_table (defs : gmap string EventDefinition)
    (s : SharedStateSpace) (e : string) :
  existsb (fun entry => String.eqb (fst entry) e
                        && trigger_condition (snd entry) s)
    (map_to_list defs)
  = condition_holds defs s e.
Proof.
  unfold condition_holds.
  destruct (existsb _ _) eqn:E.
  - apply existsb_exists in E. destruct E as ([n ev] & Hin & Hc).
    cbn [fst snd] in Hc. apply andb_true_iff in Hc. destruct Hc as [Hn Hc].
    apply String.eqb_eq in Hn. subst n.
    apply list_elem_of_In, elem_of_map_to_list in Hin.
    rewrite Hin. now rewrite Hc.
  - destruct (defs !! e) as [ev|] eqn:El; [|reflexivity].
    destruct (trigger_condition ev s) eqn:Hc; [|reflexivity].
    rewrite <- E. apply existsb_exists.
    exists (e, ev). split.
    + apply list_elem_of_In, elem_of_map_to_list. exact El.
    + cbn [fst snd]. now rewrite String.eqb_refl, Hc.
Qed.

(** X19. One tick of the event monitor latches exactly the events whose
    condition holds: afterwards an event name is marked in the monitor's
    table if it was marked before or the event table has an entry of that
    name whose trigger condition holds in the state, and in no other
    case, whatever the iteration order of the table and the state of the
    bus. *)
Theorem monitor_tick_latches (defs : gmap string EventDefinition)
    (s : SharedStateSpace) (mon : Monitor.EventMonitorThread)
    (b : Bus.EventBus) (e : string) :
  Monitor.already_triggered e (fst (Monitor.check_events defs s (mon, b)))
  = Monitor.already_triggered e mon || condition_holds defs s e.
Proof.
  unfold Monitor.check_events.
  rewrite check_list_latch, existsb_table. reflexivity.
Qed.

Lemma check_list_publishes (s : SharedStateSpace)
    (l : list (string * EventDefinition)) (e : string) :
  NoDup (fst <$> l) ->
  forall acc,
    Bus.running (snd acc) = true ->
    (length (Bus.event_queue (snd acc)) + length l <= Bus.MAX_QUEUE_SIZE)%nat ->
    let acc' := fold_left (Monitor.check_event s) l acc in
    Bus.running (snd acc') = true
    /\ occurrences e (Bus.event_queue (snd acc'))
       = (occurrences e (Bus.event_queue (snd acc))
          + if negb (Monitor.already_triggered e (fst acc))
               && existsb (fun entry => String.eqb (fst entry) e
                                        && trigger_condition (snd entry) s) l
            then 1 else 0)%nat.
Proof.
  induction l as [|[n ev] l IH]; intros Hnd acc Hr Hlen; cbv zeta.
  - cbn [fold_left existsb]. rewrite andb_false_r. split; [exact Hr|lia].
  - cbn [fold_left existsb fst snd]. cbn [length] in Hlen.
    rewrite fmap_cons in Hnd. apply NoDup_cons in Hnd.
    destruct Hnd as [Hnot Hnd]. cbn [fst] in Hnot.
    assert (Htail : e = n ->
              existsb (fun entry => String.eqb (fst entry) e
                                    && trigger_condition (snd entry) s) l
              = false).
    { intros ->. destruct (existsb _ l) eqn:E; [|reflexivity].
      apply existsb_exists in E. destruct E as ([n' ev'] & Hin & Hc).
      cbn [fst snd] in Hc. apply andb_true_iff in Hc. destruct Hc as [Hn' _].
      apply String.eqb_eq in Hn'. subst n'. exfalso. apply Hnot.
      apply list_elem_of_fmap. exists (n, ev'). split; [reflexivity|].
      now apply list_elem_of_In. }
    pose proof (check_event_latch s acc (n, ev) e) as Hlatch.
    cbn [fst snd] in Hlatch.
    specialize (IH Hnd (Monitor.check_event s acc (n, ev))).
    destruct acc as [mon b]. cbn [fst snd] in *.
    unfold Monitor.check_event in IH, Hlatch |- *.
    destruct (negb (Monitor.already_triggered n mon) && trigger_condition ev s)
      eqn:Hfire.
    + cbn [fst snd] in IH, Hlatch.
      destruct (publish_spec n b Hr) as (_ & _ & Hroom).
      destruct Hroom as [Hq _]; [lia|].
      rewrite publish_running, Hq, length_app in IH. cbn [length] in IH.
      destruct IH as [Hr' Ho]; [exact Hr | lia |].
      split; [exact Hr'|]. rewrite Ho, Hlatch, occurrences_app.
      rewrite occurrences_cons. unfold occurrences at 2. cbn [List.filter length].
      apply andb_true_iff in Hfire. destruct Hfire as [Hnt Hc].
      rewrite Hc. destruct (String.eqb_spec n e) as [->|Hne]; cbn [andb orb].
      * rewrite orb_true_r. cbn [negb andb]. rewrite Hnt. cbn. lia.
      * rewrite orb_false_r. lia.
    + cbn [fst snd] in IH, Hlatch.
      destruct IH as [Hr' Ho]; [exact Hr | lia |].
      split; [exact Hr'|]. rewrite Ho.
      destruct (String.eqb_spec n e) as [->|Hne]; cbn [andb orb];
        [|reflexivity].
      rewrite (Htail eq_refl), andb_false_r, orb_false_r. rewrite Hfire.
      reflexivity.
Qed.

(** X20. A tick of the monitor publishes every newly latched event exactly
    once: with the bus running and room in its queue for one item per entry
    of the table, after the tick the queue holds one more item of a name if
    that name was not marked before and its entry's condition holds, and
    the same number of items of that name otherwise. *)
Theorem monitor_tick_publishes_once (defs : gmap string EventDefinition)
    (s : SharedStateSpace) (mon : Monitor.EventMonitorThread)
    (b : Bus.EventBus) (e : string) :
  Bus.running b = true ->
  (length (Bus.event_queue b) + size defs <= Bus.MAX_QUEUE_SIZE)%nat ->
  occurrences e
    (Bus.event_queue (snd (Monitor.check_events defs s (mon, b))))
  = (occurrences e (Bus.event_queue b)
     + if negb (Monitor.already_triggered e mon) && condition_holds defs s e
       then 1 else 0)%nat.
Proof.
  intros Hr Hlen. unfold Monitor.check_events.
  destruct (check_list_publishes s (map_to_list defs) e
              (NoDup_fst_map_to_list defs) (mon, b) Hr) as [_ H].
  - cbn [snd]. rewrite length_map_to_list. exact Hlen.
  - cbn [fst snd] in H. rewrite H, existsb_table. reflexivity.
Qed.

Lemma monitor_tick_publishes_once_witness :
  let table := Taxi_EVENT_DEFINITIONS 0.1 in
  occurrences "FINAL_STOP"
    (Bus.event_queue
       (snd (Monitor.check_events table initial_state
               (Monitor.fresh, Bus.fresh))))
  = 1%nat.
Proof.
  intros table.
  rewrite (monitor_tick_publishes_once table initial_state Monitor.fresh
             Bus.fresh "FINAL_STOP").
  - vm_compute. reflexivity.
  - reflexivity.
  - vm_compute. lia.
Defined.

(** ** The pitch-hold controller *)

Lemma clamp_between (lo hi x : Q) :
  (lo <= hi)%Q -> (lo <= std_max lo (std_min hi x) <= hi)%Q.
Proof.
  intros H. unfold std_max, std_min. qcases; lra.
Qed.

Lemma pid_step_bounded (st : PitchHold.Step)
    (cs : PitchHold.PitchHoldController * SharedStateSpace) :
  PitchHold.bounded cs -> PitchHold.bounded (PitchHold.step st cs).
Proof.
  destruct cs as [c s]. unfold PitchHold.bounded. cbn [fst snd].
  intros (Ho & Hi & He).
  destruct st; cbn [PitchHold.step fst snd]; try (repeat split; tauto).
  - unfold PitchHold.tick. cbn [snd].
    destruct (pitch_control_enabled s); [|cbn [fst snd]; tauto].
    unfold PitchHold.updatePitchControl, PitchHold.calculatePIDOutput,
      PitchHold.applyPitchControl.
    cbn [fst snd pitch_control_output store_pitch_control_output
           PitchHold.integral_error PitchHold.previous_error].
    split; [|split]; apply clamp_between; vm_compute; discriminate.
  - cbn [PitchHold.resetIntegral PitchHold.integral_error
           PitchHold.previous_error].
    split; [exact Ho|]. split; [|exact He]. vm_compute. split; discriminate.
Qed.

(** X21. The pitch-hold controller keeps its bounds whatever it is fed:
    if the control output in the shared state is in [-1, 1], the integral
    term in [-10, 10] and the stored error in [-pi, pi] (as they are at
    creation), they still are after any sequence of controller ticks,
    setter calls with any gains and targets, and writes of any pitch angle
    by other threads. *)
Theorem pitch_hold_stays_bounded (steps : list PitchHold.Step) :
  forall cs, PitchHold.bounded cs -> PitchHold.bounded (PitchHold.run steps cs).
Proof.
  induction steps as [|st steps IH]; intros cs H; [exact H|].
  unfold PitchHold.run in *. cbn [fold_left]. apply IH.
  now apply pid_step_bounded.
Qed.

Lemma pitch_hold_stays_bounded_witness :
  PitchHold.bounded
    (PitchHold.run
       [PitchHold.EnableWritten true; PitchHold.SetPIDParameters 500 300 40;
        PitchHold.SetTargetPitch 100; PitchHold.PitchAngleWritten (-7);
        PitchHold.Tick; PitchHold.Tick; PitchHold.PitchAngleWritten 250;
        PitchHold.Tick]
       (PitchHold.create, initial_state)).
Proof.
  apply pitch_hold_stays_bounded.
  unfold PitchHold.bounded. cbn.
  repeat split; vm_compute; discriminate.
Defined.

(** ** The virtual pilot *)

Lemma pilot_update_phase (p : Pilot.ComplexVirtualPilot) (s : SharedStateSpace) :
  let ps' := Pilot.update (p, s) in
  Pilot.mode_ (fst ps') = Pilot.mode_ p
  /\ (Pilot.phase_ (fst ps') = Pilot.phase_ p
      \/ (snd ps' = s
          /\ Pilot.mode_ p = Pilot.AUTO
          /\ Pilot.phase_index (Pilot.phase_ (fst ps'))
             = S (Pilot.phase_index (Pilot.phase_ p)))).
Proof.
  cbv zeta. unfold Pilot.update.
  destruct (Pilot.mode_ p) eqn:Em; [cbn; auto|].
  destruct (Pilot.phase_ p) eqn:Ep;
    repeat (match goal with |- context [if ?b then _ else _] =>
              destruct b end);
    cbn [fst snd Pilot.with_phase Pilot.mode_ Pilot.phase_ Pilot.phase_index];
    rewrite ?Em, ?Ep; auto.
Qed.

(** X22. Left to itself the pilot only moves forward through its phases:
    over any sequence of updates, mode switches, manual inputs and writes
    of the shared state by others, with no event delivered, the phase never
    moves back in the order INIT, ACCELERATE, CRUISE, BRAKE, STOP; so STOP,
    once reached, is kept. *)
Theorem pilot_phase_never_goes_back (steps : list Pilot.Step) :
  forall ps,
    forallb (fun st => negb (Pilot.is_OnEvent st)) steps = true ->
    (Pilot.phase_index (Pilot.phase_ (fst ps))
     <= Pilot.phase_index (Pilot.phase_ (fst (Pilot.run steps ps))))%nat.
Proof.
  induction steps as [|st steps IH]; intros [p s] Hall.
  - cbn. lia.
  - cbn [forallb] in Hall. apply andb_true_iff in Hall.
    destruct Hall as [Hst Hall].
    unfold Pilot.run in *. cbn [fold_left].
    etransitivity; [|apply IH; exact Hall].
    destruct st; try discriminate Hst;
      cbn [Pilot.step fst snd Pilot.setMode Pilot.setManualInput
             Pilot.phase_]; try lia.
    destruct (pilot_update_phase p s) as [_ [H|(_ & _ & H)]];
      rewrite H; lia.
Qed.

Lemma pilot_phase_never_goes_back_witness :
  (Pilot.phase_index Pilot.CRUISE
   <= Pilot.phase_index
        (Pilot.phase_
           (fst (Pilot.run
                   [Pilot.StateWritten (store_velocity 40 initial_state);
                    Pilot.Update; Pilot.SetMode Pilot.MANUAL; Pilot.Update;
                    Pilot.SetMode Pilot.AUTO; Pilot.Update;
                    Pilot.StateWritten initial_state; Pilot.Update]
                   (Pilot.with_phase Pilot.CRUISE (Pilot.create 30),
                    initial_state)))))%nat.
Proof.
  apply (pilot_phase_never_goes_back
           [Pilot.StateWritten (store_velocity 40 initial_state);
            Pilot.Update; Pilot.SetMode Pilot.MANUAL; Pilot.Update;
            Pilot.SetMode Pilot.AUTO; Pilot.Update;
            Pilot.StateWritten initial_state; Pilot.Update]
           (Pilot.with_phase Pilot.CRUISE (Pilot.create 30), initial_state)).
  reflexivity.
Defined.

(** X23. A phase change takes a whole update: the update in which the
    pilot changes its phase writes neither throttle nor brake (the shared
    state is left as it was), happens in AUTO mode only, and moves to the
    next phase of the order. *)
Theorem pilot_phase_change_writes_nothing (p : Pilot.ComplexVirtualPilot)
    (s : SharedStateSpace) :
  Pilot.phase_ (fst (Pilot.update (p, s))) <> Pilot.phase_ p ->
  snd (Pilot.update (p, s)) = s
  /\ Pilot.mode_ p = Pilot.AUTO
  /\ Pilot.phase_index (Pilot.phase_ (fst (Pilot.update (p, s))))
     = S (Pilot.phase_index (Pilot.phase_ p)).
Proof.
  intros Hne. destruct (pilot_update_phase p s) as [_ [H|H]]; [|exact H].
  contradiction.
Qed.

Lemma pilot_phase_change_writes_nothing_witness :
  let p := Pilot.with_phase Pilot.ACCELERATE (Pilot.create 30) in
  let s := store_throttle 1 (store_velocity 28 initial_state) in
  snd (Pilot.update (p, s)) = s
  /\ Pilot.phase_ (fst (Pilot.update (p, s))) = Pilot.CRUISE.
Proof.
  intros p s.
  destruct (pilot_phase_change_writes_nothing p s) as (H & _ & _).
  - vm_compute. discriminate.
  - split; [exact H | reflexivity].
Defined.

(** ** The recorder thread *)

Lemma sample_time (t : Q) (s : SharedStateSpace) :
  Recorder.sample t s !! "time" = Some t.
Proof. vm_compute. reflexivity. Qed.

Lemma sample_row (t : Q) (s : SharedStateSpace) :
  exists r, Recorder.build_row t (Recorder.sample t s) = Some r.
Proof. eexists. vm_compute. reflexivity. Qed.

Lemma recordData_sample (t : Q) (s : SharedStateSpace) (can_open : bool)
    (l : Recorder.FileLogger) :
  (Recorder.last_time_ l < t)%Q ->
  exists l',
    Recorder.recordData (Recorder.sample t s) can_open l = Recorder.Returns l'
    /\ Recorder.last_time_ l' = t
    /\ (if can_open
        then Recorder.log l' = Recorder.log l
             /\ exists r, Recorder.rows l' = Recorder.rows l ++ [r]
                          /\ Recorder.row_time r = t
        else Recorder.log l' = Recorder.ErrorCannotOpenFile :: Recorder.log l
             /\ Recorder.rows l' = Recorder.rows l).
Proof.
  intros Hlt. destruct can_open.
  - destruct (sample_row t s) as [r Hr].
    rewrite (recordData_fresh _ l t r (sample_time t s) Hlt Hr).
    eexists. split; [reflexivity|]. split; [reflexivity|].
    split; [reflexivity|]. exists r. split; [reflexivity|].
    now apply build_row_time in Hr.
  - unfold Recorder.recordData. rewrite sample_time.
    destruct (Qle_bool t (Recorder.last_time_ l)) eqn:E.
    { apply Qle_bool_iff in E. exfalso. now apply (Qlt_not_le _ _ Hlt). }
    eexists. split; [reflexivity|]. repeat split.
Qed.

Lemma grid_snoc (n : nat) :
  RecorderThread.grid (S n)
  = RecorderThread.grid n ++ [(inject_Z (Z.of_nat n) * 0.01)%Q].
Proof.
  unfold RecorderThread.grid. rewrite seq_S, List.map_app. reflexivity.
Qed.

Lemma recorder_iteration_inv (tick : Q * SharedStateSpace * bool)
    (th : RecorderThread.Locals) :
  let l := RecorderThread.logger_ th in
  (Recorder.last_time_ l + 0.01 == RecorderThread.next_time th)%Q ->
  existsb RecorderThread.is_warning (Recorder.log l) = false ->
  exists th',
    RecorderThread.iteration tick th = Some th'
    /\ (Recorder.last_time_ (RecorderThread.logger_ th') + 0.01
        == RecorderThread.next_time th')%Q
    /\ existsb RecorderThread.is_warning
         (Recorder.log (RecorderThread.logger_ th')) = false
    /\ (length (Recorder.rows (RecorderThread.logger_ th'))
        <= S (length (Recorder.rows l)))%nat
    /\ (snd tick = true ->
        Recorder.log l = [] ->
        (RecorderThread.next_time th
         == inject_Z (Z.of_nat (length (Recorder.rows l))) * 0.01)%Q ->
        Forall2 Qeq (List.map Recorder.row_time (Recorder.rows l))
          (RecorderThread.grid (length (Recorder.rows l))) ->
        Recorder.log (RecorderThread.logger_ th') = []
        /\ (RecorderThread.next_time th'
            == inject_Z
                 (Z.of_nat (length (Recorder.rows (RecorderThread.logger_ th'))))
               * 0.01)%Q
        /\ Forall2 Qeq
             (List.map Recorder.row_time
                (Recorder.rows (RecorderThread.logger_ th')))
             (RecorderThread.grid
                (length (Recorder.rows (RecorderThread.logger_ th'))))).
Proof.
  destruct tick as [[ct s] co]. cbv zeta. intros Hnext Hw.
  unfold RecorderThread.iteration.
  destruct (Qle_bool (RecorderThread.next_time th) ct).
  2:{ exists th. split; [reflexivity|]. split; [exact Hnext|].
      split; [exact Hw|]. split; [lia|]. intros _ Hl Hn Hg. auto. }
  destruct (recordData_sample (RecorderThread.next_time th) s co
              (RecorderThread.logger_ th)) as (l' & E & Hlast & Hco); [lra|].
  rewrite E. eexists. split; [reflexivity|].
  cbn [RecorderThread.logger_ RecorderThread.next_time snd].
  split; [rewrite Hlast; reflexivity|].
  destruct co.
  - destruct Hco as (Hlog & r & Hrows & Hr).
    rewrite Hlog, Hrows, length_app. cbn [length].
    split; [exact Hw|]. split; [lia|].
    intros _ Hl Hn Hg. split; [exact Hl|].
    replace (length (Recorder.rows (RecorderThread.logger_ th)) + 1)%nat
      with (S (length (Recorder.rows (RecorderThread.logger_ th)))) by lia.
    split.
    + rewrite Hn, inject_S. ring.
    + rewrite List.map_app, grid_snoc. apply Forall2_app; [exact Hg|].
      constructor; [|constructor]. cbn [List.map]. rewrite Hr. exact Hn.
  - destruct Hco as (Hlog & Hrows). rewrite Hlog, Hrows.
    split; [cbn [existsb RecorderThread.is_warning orb]; exact Hw|].
    split; [lia|]. intros Hco. discriminate Hco.
Qed.

(** X24. The recorder thread never makes its logger skip a sample: a run
    of the thread on a new logger returns (no [data.at] throws), writes no
    "non-increasing timestamp" warning whatever the clock times it reads,
    and records at most one row per step.  The time it records is its own
    counter, not the clock time: when every open of the file succeeds the
    rows carry the times 0, 0.01, 0.02, ... in order, also when the clock
    is further ahead. *)
Theorem recorder_thread_never_warns (state0 : SharedStateSpace)
    (can_open0 : bool) (ticks : list (Q * SharedStateSpace * bool)) :
  exists th,
    RecorderThread.run state0 can_open0 ticks = Some th
    /\ existsb RecorderThread.is_warning
         (Recorder.log (RecorderThread.logger_ th)) = false
    /\ (length (Recorder.rows (RecorderThread.logger_ th))
        <= S (length ticks))%nat
    /\ (can_open0 = true ->
        forallb snd ticks = true ->
        Recorder.log (RecorderThread.logger_ th) = []
        /\ Forall2 Qeq
             (List.map Recorder.row_time
                (Recorder.rows (RecorderThread.logger_ th)))
             (RecorderThread.grid
                (length (Recorder.rows (RecorderThread.logger_ th))))).
Proof.
  unfold RecorderThread.run, RecorderThread.initial_output.
  destruct (recordData_sample 0 state0 can_open0 Recorder.create)
    as (l0 & E & Hlast & Hco); [vm_compute; reflexivity|].
  rewrite E.
  set (th0 := {| RecorderThread.output_count := wrap_u64 (0 + 1);
                 RecorderThread.next_time := 0.01;
                 RecorderThread.logger_ := l0 |}).
  assert (H0 : (Recorder.last_time_ (RecorderThread.logger_ th0) + 0.01
                == RecorderThread.next_time th0)%Q
               /\ existsb RecorderThread.is_warning
                    (Recorder.log (RecorderThread.logger_ th0)) = false
               /\ (length (Recorder.rows (RecorderThread.logger_ th0)) <= 1)%nat
               /\ (can_open0 = true ->
                   Recorder.log (RecorderThread.logger_ th0) = []
                   /\ (RecorderThread.next_time th0
                       == inject_Z
                            (Z.of_nat
                               (length
                                  (Recorder.rows (RecorderThread.logger_ th0))))
                          * 0.01)%Q
                   /\ Forall2 Qeq
                        (List.map Recorder.row_time
                           (Recorder.rows (RecorderThread.logger_ th0)))
                        (RecorderThread.grid
                           (length
                              (Recorder.rows (RecorderThread.logger_ th0)))))).
  { subst th0. cbn [RecorderThread.logger_ RecorderThread.next_time].
    split; [rewrite Hlast; reflexivity|].
    destruct can_open0.
    - destruct Hco as (Hlog & r & Hrows & Hr). rewrite Hlog, Hrows.
      split; [reflexivity|]. split; [cbn; lia|]. intros _.
      split; [reflexivity|]. cbn [Recorder.create Recorder.rows app length
                                    List.map].
      split; [reflexivity|]. rewrite Hr.
      constructor; [reflexivity | constructor].
    - destruct Hco as (Hlog & Hrows). rewrite Hlog, Hrows.
      split; [reflexivity|]. split; [cbn; lia|]. intros Hc. discriminate Hc. }
  clearbody th0. clear E Hlast Hco l0.
  assert (Hgen : forall th n,
            (Recorder.last_time_ (RecorderThread.logger_ th) + 0.01
             == RecorderThread.next_time th)%Q ->
            existsb RecorderThread.is_warning
              (Recorder.log (RecorderThread.logger_ th)) = false ->
            (length (Recorder.rows (RecorderThread.logger_ th)) <= n)%nat ->
            exists th',
              RecorderThread.iterations ticks th = Some th'
              /\ existsb RecorderThread.is_warning
                   (Recorder.log (RecorderThread.logger_ th')) = false
              /\ (length (Recorder.rows (RecorderThread.logger_ th'))
                  <= n + length ticks)%nat
              /\ (forallb snd ticks = true ->
                  Recorder.log (RecorderThread.logger_ th) = [] ->
                  (RecorderThread.next_time th
                   == inject_Z
                        (Z.of_nat
                           (length (Recorder.rows (RecorderThread.logger_ th))))
                      * 0.01)%Q ->
                  Forall2 Qeq
                    (List.map Recorder.row_time
                       (Recorder.rows (RecorderThread.logger_ th)))
                    (RecorderThread.grid
                       (length (Recorder.rows (RecorderThread.logger_ th)))) ->
                  Recorder.log (RecorderThread.logger_ th') = []
                  /\ Forall2 Qeq
                       (List.map Recorder.row_time
                          (Recorder.rows (RecorderThread.logger_ th')))
                       (RecorderThread.grid
                          (length
                             (Recorder.rows (RecorderThread.logger_ th')))))).
  { clear th0 H0. induction ticks as [|tick ticks IH]; intros th n Hn Hw Hlen.
    - exists th. split; [reflexivity|]. split; [exact Hw|].
      split; [cbn; lia|]. intros _ Hl _ Hg. auto.
    - cbn [RecorderThread.iterations].
      destruct (recorder_iteration_inv tick th Hn Hw)
        as (th1 & E1 & Hn1 & Hw1 & Hlen1 & Hopen1).
      rewrite E1.
      destruct (IH th1 (S n) Hn1 Hw1) as (th' & E' & Hw' & Hlen' & Hopen');
        [lia|].
      exists th'. split; [exact E'|]. split; [exact Hw'|].
      split; [cbn [length]; lia|].
      intros Hall Hl Hnx Hg. cbn [forallb] in Hall.
      apply andb_true_iff in Hall. destruct Hall as [Hco Hall].
      destruct (Hopen1 Hco Hl Hnx Hg) as (Hl1 & Hnx1 & Hg1).
      exact (Hopen' Hall Hl1 Hnx1 Hg1). }
  destruct H0 as (Hn0 & Hw0 & Hlen0 & Hopen0).
  destruct (Hgen th0 1%nat Hn0 Hw0 Hlen0) as (th' & E' & Hw' & Hlen' & Hopen').
  exists th'. split; [exact E'|]. split; [exact Hw'|].
  split; [lia|]. intros Hc Hall.
  destruct (Hopen0 Hc) as (Hl0 & Hnx0 & Hg0).
  exact (Hopen' Hall Hl0 Hnx0 Hg0).
Qed.

Lemma recorder_thread_never_warns_witness :
  match RecorderThread.run initial_state true
          [(0.05%Q, store_position 1 initial_state, true);
           (0.05%Q, store_position 2 initial_state, true);
           (0.02%Q, store_position 3 initial_state, true)] with
  | Some th =>
      Recorder.log (RecorderThread.logger_ th) = []
      /\ Forall2 Qeq
           (List.map Recorder.row_time
              (Recorder.rows (RecorderThread.logger_ th)))
           (RecorderThread.grid
              (length (Recorder.rows (RecorderThread.logger_ th))))
  | None => False
  end.
Proof.
  destruct (recorder_thread_never_warns initial_state true
              [(0.05%Q, store_position 1 initial_state, true);
               (0.05%Q, store_position 2 initial_state, true);
               (0.02%Q, store_position 3 initial_state, true)])
    as (th & E & _ & _ & H).
  rewrite E. apply H; reflexivity.
Defined.

(** ** The simulation control thread *)

Lemma poll_left (sp esc : bool) (w : SimulationControl.World) :
  SimulationControl.looping (SimulationControl.thread w) = false ->
  SimulationControl.poll sp esc w = w.
Proof.
  intros H. unfold SimulationControl.poll. now rewrite H.
Qed.

Lemma step_left (st : SimulationControl.Step) (w : SimulationControl.World) :
  SimulationControl.looping (SimulationControl.thread w) = false ->
  SimulationControl.looping
    (SimulationControl.thread (SimulationControl.step st w)) = false.
Proof.
  intros H. destruct st; cbn [SimulationControl.step SimulationControl.thread].
  - now rewrite poll_left.
  - exact H.
Qed.

Lemma run_left (steps : list SimulationControl.Step) :
  forall w,
    SimulationControl.looping (SimulationControl.thread w) = false ->
    SimulationControl.looping
      (SimulationControl.thread (SimulationControl.run steps w)) = false.
Proof.
  induction steps as [|st steps IH]; intros w H; [exact H|].
  unfold SimulationControl.run in *. cbn [fold_left]. apply IH.
  now apply step_left.
Qed.

Lemma poll_looping (sp esc : bool) (w : SimulationControl.World) :
  SimulationControl.looping
    (SimulationControl.thread (SimulationControl.poll sp esc w)) = true ->
  let th := SimulationControl.thread w in
  let toggle := sp && negb (SimulationControl.last_space_pressed th) in
  let w' := SimulationControl.poll sp esc w in
  SimulationControl.paused (SimulationControl.thread w')
  = xorb (SimulationControl.paused th) toggle
  /\ SimulationControl.last_space_pressed (SimulationControl.thread w') = sp
  /\ Clock.paused (SimulationControl.clock w')
     = (if toggle then negb (SimulationControl.paused th)
        else Clock.paused (SimulationControl.clock w))
  /\ Clock.running (SimulationControl.clock w')
     = Clock.running (SimulationControl.clock w).
Proof.
  cbv zeta. unfold SimulationControl.poll.
  destruct (SimulationControl.looping (SimulationControl.thread w)) eqn:El;
    cbn [negb]; [|intros H; rewrite El in H; discriminate].
  destruct (sp && negb (SimulationControl.last_space_pressed
                          (SimulationControl.thread w))) eqn:Et;
    destruct (SimulationControl.paused (SimulationControl.thread w)) eqn:Ep;
    destruct (esc && negb (SimulationControl.last_esc_pressed
                             (SimulationControl.thread w)));
    cbn [SimulationControl.thread SimulationControl.looping];
    try discriminate;
    match goal with |- context [if ?b then _ else _] => destruct b end;
    cbn [SimulationControl.thread SimulationControl.looping
           SimulationControl.paused SimulationControl.last_space_pressed
           SimulationControl.clock];
    try discriminate; intros _; repeat split.
Qed.

(** X25. The space key toggles the pause once per press: as long as the
    control loop has not been left, after any sequence of rounds and of
    state writes by other threads the thread is paused exactly when the
    number of rising edges of the key is odd (even, if it was paused at
    the start), however long the key is held, and the pause flag of the
    clock agrees with that of the thread, the clock still being in the
    running state it was in. *)
Theorem space_toggles_pause_once_per_press
    (steps : list SimulationControl.Step) :
  forall w,
    SimulationControl.looping
      (SimulationControl.thread (SimulationControl.run steps w)) = true ->
    Clock.paused (SimulationControl.clock w)
    = SimulationControl.paused (SimulationControl.thread w) ->
    let w' := SimulationControl.run steps w in
    SimulationControl.paused (SimulationControl.thread w')
    = xorb (SimulationControl.paused (SimulationControl.thread w))
        (Nat.odd
           (SimulationControl.rising_edges
              (SimulationControl.last_space_pressed
                 (SimulationControl.thread w)) steps))
    /\ Clock.paused (SimulationControl.clock w')
       = SimulationControl.paused (SimulationControl.thread w')
    /\ Clock.running (SimulationControl.clock w')
       = Clock.running (SimulationControl.clock w).
Proof.
  induction steps as [|st steps IH]; intros w Hloop Hp; cbv zeta.
  - cbn. rewrite xorb_false_r. auto.
  - unfold SimulationControl.run in *. cbn [fold_left] in *.
    assert (Hl1 : SimulationControl.looping
                    (SimulationControl.thread (SimulationControl.step st w))
                  = true).
    { destruct (SimulationControl.looping
                  (SimulationControl.thread (SimulationControl.step st w)))
        eqn:E; [reflexivity|].
      pose proof (run_left steps _ E) as H.
      unfold SimulationControl.run in H. congruence. }
    destruct st as [sp esc|s];
      cbn [SimulationControl.step SimulationControl.rising_edges] in *.
    + destruct (poll_looping sp esc w Hl1) as (Hp1 & Hs1 & Hc1 & Hr1).
      destruct (IH (SimulationControl.poll sp esc w) Hloop)
        as (Hp' & Hc' & Hr').
      { rewrite Hc1, Hp1, Hp.
        destruct (sp && negb _), (SimulationControl.paused _); reflexivity. }
      rewrite Hr', Hr1. split; [|split; [exact Hc' | reflexivity]].
      rewrite Hp', Hp1, Hs1, Nat.odd_add.
      destruct (sp && negb _); cbn [Nat.odd Nat.even negb];
        now rewrite ?xorb_false_r, ?xorb_false_l, ?xorb_assoc.
    + destruct (IH _ Hloop) as (Hp' & Hc' & Hr');
        cbn [SimulationControl.thread SimulationControl.clock] in *; auto.
Qed.

Lemma space_toggles_pause_once_per_press_witness :
  let w := {| SimulationControl.thread := SimulationControl.started;
              SimulationControl.state := initial_state;
              SimulationControl.clock := Clock.fresh |} in
  let steps := SimulationControl.polls
                 [(true, false); (true, false); (true, false);
                  (false, false); (true, false); (true, false)] in
  SimulationControl.paused
    (SimulationControl.thread (SimulationControl.run steps w)) = false
  /\ Clock.paused (SimulationControl.clock (SimulationControl.run steps w))
     = false.
Proof.
  intros w steps.
  destruct (space_toggles_pause_once_per_press steps w) as (H1 & H2 & _).
  - vm_compute. reflexivity.
  - reflexivity.
  - rewrite H2, H1. split; reflexivity.
Defined.

(** X26. Leaving the control loop ends the simulation for good: a round
    of a loop that is still running leaves it exactly when the escape key
    shows a rising edge, or the position is above 1500, or the simulation
    time is above 180; that round clears [simulation_running] and stops
    the clock, also when the same round has just resumed the simulation,
    and no later key press changes anything. *)
Theorem leaving_the_loop_stops_the_simulation (space_pressed esc_pressed : bool)
    (w : SimulationControl.World) :
  SimulationControl.looping (SimulationControl.thread w) = true ->
  let trigger :=
    (esc_pressed
     && negb (SimulationControl.last_esc_pressed (SimulationControl.thread w)))
    || Qltb 1500 (position (SimulationControl.state w))
    || Qltb 180 (simulation_time (SimulationControl.state w)) in
  let w' := SimulationControl.poll space_pressed esc_pressed w in
  SimulationControl.looping (SimulationControl.thread w') = negb trigger
  /\ (trigger = true ->
      simulation_running (SimulationControl.state w') = false
      /\ Clock.running (SimulationControl.clock w') = false
      /\ forall keys,
           SimulationControl.run (SimulationControl.polls keys) w' = w').
Proof.
  intros Hl. cbv zeta.
  assert (Hfix : forall w1,
            SimulationControl.looping (SimulationControl.thread w1) = false ->
            forall keys,
              SimulationControl.run (SimulationControl.polls keys) w1 = w1).
  { intros w1 H1 keys. induction keys as [|k keys IH]; [reflexivity|].
    unfold SimulationControl.run, SimulationControl.polls in *.
    cbn [List.map fold_left SimulationControl.step].
    rewrite (poll_left _ _ _ H1). exact IH. }
  unfold SimulationControl.poll. rewrite Hl. cbn [negb].
  set (sw := space_pressed && negb _).
  assert (Hpos : forall b,
            position (store_simulation_running b (SimulationControl.state w))
            = position (SimulationControl.state w)) by reflexivity.
  assert (Htime : forall b,
            simulation_time
              (store_simulation_running b (SimulationControl.state w))
            = simulation_time (SimulationControl.state w)) by reflexivity.
  destruct sw; destruct (SimulationControl.paused _);
    destruct (esc_pressed && negb _); cbn [orb];
    rewrite ?Hpos, ?Htime;
    try (destruct (Qltb 1500 (position (SimulationControl.state w))
                   || Qltb 180 (simulation_time (SimulationControl.state w))));
    cbn [SimulationControl.thread SimulationControl.looping negb
           SimulationControl.state SimulationControl.clock];
    (split; [reflexivity|]); intros Ht; try discriminate Ht;
    (split; [reflexivity|]); (split; [reflexivity|]);
    apply Hfix; reflexivity.
Qed.

Lemma leaving_the_loop_stops_the_simulation_witness :
  let w := {| SimulationControl.thread :=
                {| SimulationControl.paused := true;
                   SimulationControl.last_space_pressed := false;
                   SimulationControl.last_esc_pressed := false;
                   SimulationControl.looping := true |};
              SimulationControl.state := store_position 1500.5 initial_state;
              SimulationControl.clock :=
                Clock.pause (Clock.with_running true Clock.fresh) |} in
  let w' := SimulationControl.poll true false w in
  SimulationControl.looping (SimulationControl.thread w') = false
  /\ simulation_running (SimulationControl.state w') = false
  /\ Clock.running (SimulationControl.clock w') = false.
Proof.
  intros w w'.
  destruct (leaving_the_loop_stops_the_simulation true false w) as (H1 & H2).
  - reflexivity.
  - destruct H2 as (H3 & H4 & _); [reflexivity|].
    split; [exact H1|]. split; [exact H3 | exact H4].
Defined.

(** ** Version numbers *)

Lemma int_sub_some (a b : Z) :
  0 <= a <= Version.INT_MAX -> 0 <= b <= Version.INT_MAX ->
  Version.int_sub a b = Some (a - b).
Proof.
  unfold Version.int_sub, Version.INT_MIN, Version.INT_MAX.
  change (2 ^ 31) with 2147483648. intros Ha Hb.
  repeat (match goal with
          | |- context [(?x <=? ?y)] => destruct (Z.leb_spec x y); [|lia]
          end).
  reflexivity.
Qed.

(** X27. On version numbers that are non-negative [int]s
    [compareVersions] never overflows and its sign is the order of the
    triples: negative when the first version is the older one, zero when
    the two are equal, positive when the first is the newer one; and
    [isNewerThan] says whether the given version is older than the
    version of the program. *)
Theorem compareVersions_orders_versions
    (major1 minor1 patch1 major2 minor2 patch2 : Z) :
  0 <= major1 <= Version.INT_MAX -> 0 <= minor1 <= Version.INT_MAX ->
  0 <= patch1 <= Version.INT_MAX ->
  0 <= major2 <= Version.INT_MAX -> 0 <= minor2 <= Version.INT_MAX ->
  0 <= patch2 <= Version.INT_MAX ->
  (exists r,
     Version.compareVersions major1 minor1 patch1 major2 minor2 patch2
     = Some r
     /\ (r < 0 <-> Version.version_lt (major1, minor1, patch1)
                     (major2, minor2, patch2))
     /\ (r = 0 <-> (major1, minor1, patch1) = (major2, minor2, patch2))
     /\ (0 < r <-> Version.version_lt (major2, minor2, patch2)
                     (major1, minor1, patch1)))
  /\ (Version.isNewerThan major2 minor2 patch2 = true
      <-> Version.version_lt (major2, minor2, patch2)
            (Version.MAJOR, Version.MINOR, Version.PATCH)).
Proof.
  intros H1 H2 H3 H4 H5 H6. split.
  - assert (Hmax : Version.INT_MAX = 2147483647) by reflexivity.
    rewrite Hmax in *.
    unfold Version.compareVersions, Version.version_lt.
    destruct (Z.eqb_spec major1 major2) as [->|Hm]; cbn [negb].
    + destruct (Z.eqb_spec minor1 minor2) as [->|Hn]; cbn [negb].
      * exists (patch1 - patch2).
        split; [apply int_sub_some; rewrite Hmax; lia|].
        split; [|split]; (split; [intros H | intros H]);
          try lia; try (inversion H; lia); try (f_equal; lia).
      * exists (minor1 - minor2).
        split; [apply int_sub_some; rewrite Hmax; lia|].
        split; [|split]; (split; [intros H | intros H]);
          try lia; try (inversion H; lia).
    + exists (major1 - major2).
      split; [apply int_sub_some; rewrite Hmax; lia|].
      split; [|split]; (split; [intros H | intros H]);
        try lia; try (inversion H; lia).
  - unfold Version.isNewerThan, Version.version_lt, Version.MAJOR,
      Version.MINOR, Version.PATCH.
    destruct (Z.gtb_spec 1 major2), (Z.ltb_spec 1 major2),
      (Z.gtb_spec 0 minor2), (Z.ltb_spec 0 minor2), (Z.gtb_spec 0 patch2);
      split; intros Hx; try lia; try discriminate Hx; try reflexivity.
Qed.

Lemma compareVersions_orders_versions_witness :
  Version.compareVersions 1 0 0 1 2 0 = Some (-2)
  /\ Version.isNewerThan 0 9 9 = true.
Proof.
  destruct (compareVersions_orders_versions 1 0 0 0 9 9) as [_ H];
    try (vm_compute; split; discriminate).
  split; [reflexivity|]. apply H. vm_compute. left. reflexivity.
Defined.

(** ** Reading the configuration file *)

Section ConfigFileFacts.

Import Stdlib.Strings.Ascii.
Local Open Scope string_scope.

Lemma append_cons (x : ascii) (a b : string) :
  String x a ++ b = String x (a ++ b).
Proof. reflexivity. Qed.

Lemma append_nil_l (b : string) : "" ++ b = b.
Proof. reflexivity. Qed.

Lemma lacks_app (c : ascii) (a b : string) :
  ConfigFile.lacks c (a ++ b) = ConfigFile.lacks c a && ConfigFile.lacks c b.
Proof.
  induction a as [|x a IH]; rewrite ?append_nil_l, ?append_cons;
    cbn [ConfigFile.lacks];
    [reflexivity|].
  rewrite IH. now rewrite andb_assoc.
Qed.

Lemma find_app (c : ascii) (a b : string) :
  ConfigFile.lacks c a = true ->
  ConfigFile.find c (a ++ String c b) = Some (String.length a).
Proof.
  induction a as [|x a IH]; rewrite ?append_nil_l, ?append_cons;
    cbn [ConfigFile.lacks ConfigFile.find String.length].
  - intros _. now rewrite Ascii.eqb_refl.
  - intros H. apply andb_true_iff in H. destruct H as [Hx Ha].
    apply negb_true_iff in Hx. rewrite Hx, (IH Ha). reflexivity.
Qed.

Lemma substr_to_app (a b : string) :
  ConfigFile.substr_to (String.length a) (a ++ b) = a.
Proof.
  induction a as [|x a IH]; rewrite ?append_nil_l, ?append_cons;
    cbn [String.length ConfigFile.substr_to].
  - destruct b; reflexivity.
  - now rewrite IH.
Qed.

Lemma substr_to_all (a : string) :
  ConfigFile.substr_to (String.length a) a = a.
Proof.
  induction a as [|x a IH]; cbn [String.length ConfigFile.substr_to];
    [reflexivity | now rewrite IH].
Qed.

Lemma substr_from_app (a b : string) (c : ascii) :
  ConfigFile.substr_from (String.length a + 1) (a ++ String c b) = b.
Proof.
  induction a as [|x a IH]; rewrite ?append_nil_l, ?append_cons;
    cbn [String.length Nat.add ConfigFile.substr_from].
  - reflexivity.
  - exact IH.
Qed.

Lemma append_assoc (a b c : string) : (a ++ b) ++ c = a ++ (b ++ c).
Proof.
  induction a as [|x a IH]; rewrite ?append_nil_l, ?append_cons;
    [reflexivity|].
  now rewrite IH.
Qed.

Lemma append_empty_r (a : string) : a ++ "" = a.
Proof.
  induction a as [|x a IH]; rewrite ?append_nil_l, ?append_cons;
    [reflexivity|].
  now rewrite IH.
Qed.

Lemma length_append (a b : string) :
  String.length (a ++ b) = (String.length a + String.length b)%nat.
Proof.
  induction a as [|x a IH]; rewrite ?append_nil_l, ?append_cons;
    cbn [String.length Nat.add];
    [reflexivity | now rewrite IH].
Qed.

(** Strings that begin, or end, with a character that is not a blank. *)
Lemma erase_leading_headed (x : ascii) (s : string) :
  ConfigFile.is_blank x = false ->
  ConfigFile.erase_leading_blanks (String x s) = String x s.
Proof.
  intros H. unfold ConfigFile.erase_leading_blanks.
  cbn [ConfigFile.find_first_not_of_blank]. rewrite H. reflexivity.
Qed.

Lemma erase_leading_blank (x : ascii) (s : string) :
  ConfigFile.is_blank x = true ->
  ConfigFile.erase_leading_blanks (String x s)
  = ConfigFile.erase_leading_blanks s.
Proof.
  intros H. unfold ConfigFile.erase_leading_blanks.
  cbn [ConfigFile.find_first_not_of_blank]. rewrite H.
  destruct (ConfigFile.find_first_not_of_blank s); reflexivity.
Qed.

Lemma find_last_snoc (s : string) (x : ascii) :
  ConfigFile.is_blank x = false ->
  ConfigFile.find_last_not_of_blank (s ++ String x "")
  = Some (String.length s).
Proof.
  intros H. induction s as [|y s IH];
    rewrite ?append_nil_l, ?append_cons;
    cbn [String.length ConfigFile.find_last_not_of_blank].
  - now rewrite H.
  - now rewrite IH.
Qed.

Lemma erase_trailing_tailed (s : string) (x : ascii) :
  ConfigFile.is_blank x = false ->
  ConfigFile.erase_trailing_blanks (s ++ String x "") = s ++ String x "".
Proof.
  intros H. unfold ConfigFile.erase_trailing_blanks.
  rewrite (find_last_snoc s x H).
  replace (String.length s + 1)%nat with (String.length (s ++ String x ""))
    by (rewrite length_append; reflexivity).
  apply substr_to_all.
Qed.

Lemma find_last_blank_snoc (s : string) (x : ascii) :
  ConfigFile.is_blank x = true ->
  ConfigFile.find_last_not_of_blank (s ++ String x "")
  = ConfigFile.find_last_not_of_blank s.
Proof.
  intros H. induction s as [|y s IH];
    rewrite ?append_nil_l, ?append_cons; cbn [ConfigFile.find_last_not_of_blank].
  - now rewrite H.
  - now rewrite IH.
Qed.

Lemma find_last_lt (s : string) (k : nat) :
  ConfigFile.find_last_not_of_blank s = Some k -> (k < String.length s)%nat.
Proof.
  revert k. induction s as [|y s IH]; intros k;
    cbn [ConfigFile.find_last_not_of_blank String.length]; [discriminate|].
  destruct (ConfigFile.find_last_not_of_blank s) as [j|].
  - intros [= <-]. specialize (IH j eq_refl). lia.
  - destruct (ConfigFile.is_blank y); [discriminate|]. intros [= <-]. lia.
Qed.

Lemma substr_to_short (n : nat) (a b : string) :
  (n <= String.length a)%nat ->
  ConfigFile.substr_to n (a ++ b) = ConfigFile.substr_to n a.
Proof.
  revert a. induction n as [|n IH]; intros a Hn.
  - destruct a, b; reflexivity.
  - destruct a as [|x a]; cbn [String.length] in Hn; [lia|].
    rewrite ?append_nil_l, ?append_cons; cbn [ConfigFile.substr_to].
    rewrite IH by lia. reflexivity.
Qed.

Lemma erase_trailing_blank_snoc (s : string) (x : ascii) :
  ConfigFile.is_blank x = true ->
  ConfigFile.erase_trailing_blanks (s ++ String x "")
  = ConfigFile.erase_trailing_blanks s.
Proof.
  intros H. unfold ConfigFile.erase_trailing_blanks.
  rewrite (find_last_blank_snoc s x H).
  destruct (ConfigFile.find_last_not_of_blank s) as [k|] eqn:E;
    [|reflexivity].
  apply find_last_lt in E. apply substr_to_short. lia.
Qed.

Lemma last_not_blank_cases (s : string) :
  ConfigFile.last_not_blank s = true ->
  s = "" \/ exists s' x, s = s' ++ String x ""
                         /\ ConfigFile.is_blank x = false.
Proof.
  induction s as [|y s IH]; [now left|].
  cbn [ConfigFile.last_not_blank]. intros H. right.
  destruct s as [|z s].
  - exists "", y. split; [reflexivity|]. now apply negb_true_iff.
  - destruct (IH H) as [E|(s' & x & E & Hx)]; [discriminate|].
    exists (String y s'), x. rewrite E. split; [reflexivity | exact Hx].
Qed.

Lemma first_not_blank_cases (s : string) :
  ConfigFile.first_not_blank s = true ->
  s = "" \/ exists x s', s = String x s' /\ ConfigFile.is_blank x = false.
Proof.
  destruct s as [|x s]; [now left|].
  cbn [ConfigFile.first_not_blank]. intros H. right.
  exists x, s. split; [reflexivity|]. now apply negb_true_iff.
Qed.

Lemma plain_parts (s : string) :
  ConfigFile.plain s = true ->
  ConfigFile.lacks "," s = true /\ ConfigFile.lacks ";" s = true
  /\ ConfigFile.lacks "=" s = true
  /\ ConfigFile.first_not_blank s = true
  /\ ConfigFile.last_not_blank s = true.
Proof.
  unfold ConfigFile.plain. intros H.
  repeat (apply andb_true_iff in H; destruct H as [H ?]). auto.
Qed.

Lemma erase_blanks_plain (s : string) :
  ConfigFile.plain s = true -> ConfigFile.erase_blanks s = s.
Proof.
  intros H. apply plain_parts in H. destruct H as (_ & _ & _ & Hf & Hl).
  unfold ConfigFile.erase_blanks.
  destruct (first_not_blank_cases s Hf) as [->|(x & s' & -> & Hx)];
    [reflexivity|].
  rewrite (erase_leading_headed x s' Hx).
  destruct (last_not_blank_cases _ Hl) as [E|(t & y & E & Hy)];
    [discriminate|].
  rewrite E. apply erase_trailing_tailed. exact Hy.
Qed.

(** A plain string followed by a blank, or preceded by one. *)
Lemma erase_blanks_then_blank (s : string) :
  ConfigFile.plain s = true -> ConfigFile.erase_blanks (s ++ " ") = s.
Proof.
  intros H. pose proof (erase_blanks_plain s H) as Hs.
  apply plain_parts in H. destruct H as (_ & _ & _ & Hf & _).
  unfold ConfigFile.erase_blanks in *.
  destruct (first_not_blank_cases s Hf) as [->|(x & s' & -> & Hx)];
    [reflexivity|].
  rewrite ?append_nil_l, ?append_cons. rewrite (erase_leading_headed x _ Hx).
  rewrite (erase_leading_headed x _ Hx) in Hs.
  change (String x (s' ++ " ")) with (String x s' ++ " ").
  rewrite erase_trailing_blank_snoc by reflexivity. exact Hs.
Qed.

Lemma getlines_piece (a rest : string) :
  ConfigFile.lacks ";" a = true ->
  ConfigFile.getlines (a ++ String ";" rest) = a :: ConfigFile.getlines rest.
Proof.
  induction a as [|x a IH]; rewrite ?append_nil_l, ?append_cons;
    cbn [ConfigFile.lacks ConfigFile.getlines].
  - intros _. reflexivity.
  - intros H. apply andb_true_iff in H. destruct H as [Hx Ha].
    apply negb_true_iff in Hx. rewrite Hx, (IH Ha). reflexivity.
Qed.

Lemma getlines_last (x : ascii) (a : string) :
  ConfigFile.lacks ";" (String x a) = true ->
  ConfigFile.getlines (String x a) = [String x a].
Proof.
  revert x. induction a as [|y a IH]; intros x;
    cbn [ConfigFile.lacks ConfigFile.getlines]; intros H;
    apply andb_true_iff in H; destruct H as [Hx Ha];
    apply negb_true_iff in Hx; rewrite Hx; [reflexivity|].
  cbn [ConfigFile.lacks ConfigFile.getlines] in IH. rewrite (IH y Ha).
  reflexivity.
Qed.

Lemma parse_setting_plain (m : gmap string string) (k v : string) :
  ConfigFile.plain k = true -> ConfigFile.plain v = true ->
  ConfigFile.parse_setting m (k ++ "=" ++ v) = <[k := v]> m.
Proof.
  intros Hk Hv. unfold ConfigFile.parse_setting.
  destruct (plain_parts k Hk) as (_ & _ & He & _).
  change (k ++ "=" ++ v) with (k ++ String "=" v).
  rewrite (find_app "=" k v He), substr_to_app, substr_from_app.
  now rewrite (erase_blanks_plain k Hk), (erase_blanks_plain v Hv).
Qed.

Lemma setting_lacks_semicolon (k v : string) :
  ConfigFile.plain k = true -> ConfigFile.plain v = true ->
  ConfigFile.lacks ";" (k ++ "=" ++ v) = true.
Proof.
  intros Hk Hv.
  destruct (plain_parts k Hk) as (_ & Hk' & _).
  destruct (plain_parts v Hv) as (_ & Hv' & _).
  change (k ++ "=" ++ v) with (k ++ String "=" v).
  rewrite lacks_app, Hk'. cbn [ConfigFile.lacks]. now rewrite Hv'.
Qed.

Lemma headed_app (k rest : string) (c : ascii) :
  ConfigFile.first_not_blank k = true -> ConfigFile.is_blank c = false ->
  exists x s', k ++ String c rest = String x s'
               /\ ConfigFile.is_blank x = false.
Proof.
  intros Hk Hc.
  destruct (first_not_blank_cases k Hk) as [->|(x & s' & -> & Hx)].
  - exists c, rest. split; [reflexivity | exact Hc].
  - exists x, (s' ++ String c rest). split; [reflexivity | exact Hx].
Qed.

Lemma tailed_app (pre v : string) (c : ascii) :
  ConfigFile.last_not_blank v = true -> ConfigFile.is_blank c = false ->
  exists t y, pre ++ String c v = t ++ String y ""
              /\ ConfigFile.is_blank y = false.
Proof.
  intros Hv Hc.
  destruct (last_not_blank_cases v Hv) as [->|(v' & y & -> & Hy)].
  - exists pre, c. split; [reflexivity | exact Hc].
  - exists (pre ++ String c v'), y. split; [|exact Hy].
    rewrite append_assoc. reflexivity.
Qed.

Lemma render_cons (k v : string) (kv : string * string)
    (settings : list (string * string)) :
  ConfigFile.render ((k, v) :: kv :: settings)
  = (k ++ "=" ++ v) ++ String ";" (ConfigFile.render (kv :: settings)).
Proof.
  cbn [ConfigFile.render]. destruct kv as [k' v'].
  change (k ++ "=" ++ v ++ ";" ++ ConfigFile.render ((k', v') :: settings))
    with (k ++ String "=" (v ++ String ";"
                             (ConfigFile.render ((k', v') :: settings)))).
  change (k ++ "=" ++ v) with (k ++ String "=" v).
  rewrite append_assoc, append_cons. reflexivity.
Qed.

Lemma render_shape (kv : string * string) (settings : list (string * string)) :
  ConfigFile.all_plain (kv :: settings) = true ->
  (exists x s', ConfigFile.render (kv :: settings) = String x s'
                /\ ConfigFile.is_blank x = false)
  /\ (exists t y, ConfigFile.render (kv :: settings) = t ++ String y ""
                  /\ ConfigFile.is_blank y = false)
  /\ ConfigFile.getlines (ConfigFile.render (kv :: settings))
     = List.map (fun kv => fst kv ++ "=" ++ snd kv) (kv :: settings).
Proof.
  revert kv. induction settings as [|kv' settings IH]; intros [k v] H;
    cbn [ConfigFile.all_plain forallb fst snd] in H;
    apply andb_true_iff in H; destruct H as [Hkv Hrest];
    apply andb_true_iff in Hkv; destruct Hkv as [Hk Hv];
    destruct (plain_parts k Hk) as (_ & _ & _ & Hkf & _);
    destruct (plain_parts v Hv) as (_ & _ & _ & _ & Hvl);
    pose proof (setting_lacks_semicolon k v Hk Hv) as Hsemi.
  - cbn [ConfigFile.render List.map fst snd].
    change (k ++ "=" ++ v) with (k ++ String "=" v) in *.
    destruct (headed_app k v "=" Hkf eq_refl) as (x & s' & E & Hx).
    split; [exists x, s'; auto|].
    split; [apply tailed_app; auto|].
    rewrite E in *. now apply getlines_last.
  - rewrite render_cons. destruct (IH kv' Hrest) as (_ & (t & y & Et & Hy) & Hg).
    change (k ++ "=" ++ v) with (k ++ String "=" v) in *.
    destruct (headed_app k v "=" Hkf eq_refl) as (x & s' & E & Hx).
    split; [|split].
    + rewrite E. rewrite append_cons. eexists _, _. split; [reflexivity|].
      exact Hx.
    + rewrite Et. exists ((k ++ String "=" v) ++ String ";" t), y.
      split; [|exact Hy]. rewrite !append_assoc, !append_cons. reflexivity.
    + rewrite (getlines_piece _ _ Hsemi), Hg. reflexivity.
Qed.

Lemma fold_parse_settings (settings : list (string * string)) :
  ConfigFile.all_plain settings = true ->
  forall m,
    fold_left ConfigFile.parse_setting
      (List.map (fun kv => fst kv ++ "=" ++ snd kv) settings) m
    = fold_left (fun acc kv => <[fst kv := snd kv]> acc) settings m.
Proof.
  induction settings as [|[k v] settings IH]; intros H m; [reflexivity|].
  cbn [ConfigFile.all_plain forallb fst snd] in H.
  apply andb_true_iff in H. destruct H as [Hkv Hrest].
  apply andb_true_iff in Hkv. destruct Hkv as [Hk Hv].
  cbn [List.map fold_left fst snd].
  rewrite (parse_setting_plain m k v Hk Hv). now apply IH.
Qed.

Lemma parseConfig_text (name : string) (settings : list (string * string)) :
  ConfigFile.plain name = true -> ConfigFile.all_plain settings = true ->
  ConfigFile.parseConfig (ConfigFile.config_text name settings)
  = {| controller_name := name;
       state_settings := ConfigFile.settings_map settings;
       action_type := ActionsConfig.getActionType name |}.
Proof.
  intros Hn Hs. destruct (plain_parts name Hn) as (Hc & _).
  unfold ConfigFile.parseConfig, ConfigFile.config_text.
  destruct settings as [|kv settings].
  - change (name ++ ",") with (name ++ String "," "").
    rewrite (find_app "," name "" Hc), substr_to_app, substr_from_app.
    rewrite (erase_blanks_plain name Hn). reflexivity.
  - change (name ++ ", " ++ ConfigFile.render (kv :: settings))
      with (name ++ String "," (String " " (ConfigFile.render (kv :: settings)))).
    rewrite (find_app "," name _ Hc), substr_to_app, substr_from_app.
    rewrite (erase_blanks_plain name Hn).
    rewrite erase_leading_blank by reflexivity.
    destruct (render_shape kv settings Hs) as ((x & s' & E & Hx) & _ & Hg).
    rewrite E, (erase_leading_headed x s' Hx). rewrite <- E, Hg.
    rewrite E. cbn [String.eqb].
    rewrite (fold_parse_settings (kv :: settings) Hs). reflexivity.
Qed.

Lemma erase_blanks_config (name : string) (settings : list (string * string)) :
  ConfigFile.plain name = true -> ConfigFile.all_plain settings = true ->
  ConfigFile.erase_blanks
    (String " " (name ++ ", " ++ ConfigFile.render settings))
  = ConfigFile.config_text name settings.
Proof.
  intros Hn Hs. destruct (plain_parts name Hn) as (_ & _ & _ & Hf & _).
  unfold ConfigFile.erase_blanks.
  rewrite erase_leading_blank by reflexivity.
  change (name ++ ", " ++ ConfigFile.render settings)
    with (name ++ String "," (String " " (ConfigFile.render settings))).
  destruct (headed_app name (String " " (ConfigFile.render settings)) ","
              Hf eq_refl) as (x & s' & E & Hx).
  rewrite E, (erase_leading_headed x s' Hx), <- E.
  unfold ConfigFile.config_text. destruct settings as [|kv settings].
  - cbn [ConfigFile.render].
    replace (name ++ String "," (String " " ""))
      with ((name ++ String "," "") ++ String " " "")
      by (rewrite append_assoc; reflexivity).
    rewrite erase_trailing_blank_snoc by reflexivity.
    apply erase_trailing_tailed. reflexivity.
  - destruct (render_shape kv settings Hs) as (_ & (t & y & Et & Hy) & _).
    change (name ++ ", " ++ ConfigFile.render (kv :: settings))
      with (name ++ String "," (String " " (ConfigFile.render (kv :: settings)))).
    rewrite Et.
    replace (name ++ String "," (String " " (t ++ String y "")))
      with ((name ++ String "," (String " " t)) ++ String y "")
      by (rewrite append_assoc; reflexivity).
    apply erase_trailing_tailed. exact Hy.
Qed.

(** X28. A line of the configuration file reads back as written: for an
    action name that does not begin with [#], a controller name and
    settings, all without comma, semicolon, equals sign or a blank at
    either end, the line [action = controller, var=value;var=value...]
    makes [loadConfig] store under the action name the entry with that
    controller name, exactly those settings (a later setting for a name
    replacing an earlier one) and the action type [getActionType] gives
    the controller name; and [parseConfig] returns that entry for the text
    after the equals sign. *)
Theorem config_line_reads_back (action_name controller : string)
    (settings : list (string * string))
    (action_configs : gmap string ControllerActionConfig) :
  ConfigFile.plain action_name = true ->
  ConfigFile.find "#" action_name <> Some 0%nat ->
  ConfigFile.plain controller = true ->
  forallb (fun kv => ConfigFile.plain (fst kv) && ConfigFile.plain (snd kv))
    settings = true ->
  let entry :=
    {| controller_name := controller;
       state_settings := ConfigFile.settings_map settings;
       action_type := ActionsConfig.getActionType controller |} in
  ConfigFile.load_line
    (ConfigFile.render_line action_name controller settings) action_configs
  = <[action_name := entry]> action_configs
  /\ ConfigFile.parseConfig (controller ++ ", " ++ ConfigFile.render settings)
     = entry.
Proof.
  intros Ha Hc Hn Hs entry. split.
  - destruct (plain_parts action_name Ha) as (_ & _ & He & _).
    unfold ConfigFile.load_line, ConfigFile.render_line.
    set (X := controller ++ ", " ++ ConfigFile.render settings).
    change (action_name ++ " = " ++ X)
      with (action_name ++ String " " (String "=" (String " " X))).
    assert (Hline : action_name ++ String " " (String "=" (String " " X))
                    = (action_name ++ " ") ++ String "=" (String " " X)).
    { rewrite append_assoc. reflexivity. }
    assert (Hfirst : exists first rest,
               action_name ++ String " " (String "=" (String " " X))
               = String first rest
               /\ Ascii.eqb first "#" = false).
    { destruct action_name as [|a action'].
      - eexists _, _. split; reflexivity.
      - eexists _, _. split; [reflexivity|].
        cbn [ConfigFile.find] in Hc. destruct (Ascii.eqb a "#"); congruence. }
    destruct Hfirst as (first & rest & Efirst & Hhash).
    rewrite Efirst, Hhash, <- Efirst, Hline.
    rewrite find_app by (rewrite lacks_app, He; reflexivity).
    rewrite substr_to_app, substr_from_app.
    rewrite (erase_blanks_then_blank _ Ha).
    subst X. rewrite (erase_blanks_config controller settings Hn Hs).
    rewrite (parseConfig_text controller settings Hn Hs). reflexivity.
  - destruct settings as [|kv settings].
    + pose proof (parseConfig_text controller [] Hn eq_refl) as H.
      unfold ConfigFile.config_text in H. subst entry. rewrite <- H. clear H.
      destruct (plain_parts controller Hn) as (Hcomma & _).
      unfold ConfigFile.parseConfig. cbn [ConfigFile.render].
      change (controller ++ ", " ++ "")
        with (controller ++ String "," (String " " "")).
      change (controller ++ ",") with (controller ++ String "," "").
      rewrite !(find_app "," controller _ Hcomma), !substr_to_app,
        !substr_from_app. reflexivity.
    + exact (parseConfig_text controller (kv :: settings) Hn Hs).
Qed.

Lemma config_line_reads_back_witness :
  ConfigFile.load_line
    "START_BRAKE = 刹车, cruise_control_enabled=false;brake_control_enabled=true"
    ∅
  = <["START_BRAKE" :=
        {| controller_name := "刹车";
           state_settings :=
             ConfigFile.settings_map
               [("cruise_control_enabled", "false");
                ("brake_control_enabled", "true")];
           action_type := "CONTROLLER" |}]> ∅.
Proof.
  apply (config_line_reads_back "START_BRAKE" "刹车"
           [("cruise_control_enabled", "false");
            ("brake_control_enabled", "true")] ∅).
  - reflexivity.
  - discriminate.
  - reflexivity.
  - reflexivity.
Defined.

End ConfigFileFacts.

(** ** The event runtime and the authority gate *)

Lemma gated_names (g : string) :
  gated g = true ->
  g = "油门增加" \/ g = "油门减少" \/ g = "跑道巡航" \/ g = "刹车".
Proof.
  unfold gated, Manager.needs_throttle_authority,
    Manager.needs_brake_authority.
  intros Hg.
  repeat (apply orb_true_iff in Hg; destruct Hg as [Hg|Hg]);
    apply String.eqb_eq in Hg; auto.
Qed.

Lemma created_manual_and_idle (s : SharedStateSpace) (c : ActionsConfig.t) :
  default_config c ->
  auto_system_has_throttle_control (control_auth s) = false ->
  auto_system_has_brake_control (control_auth s) = false ->
  manual_and_idle (Manager.create s c).
Proof.
  intros Hc Ht Hb. split; [exact Hc|]. split; [exact Ht|].
  split; [exact Hb|]. intros g Hg.
  destruct (gated_names g Hg) as [-> | [-> | [-> | ->]]];
    vm_compute; discriminate.
Qed.

Lemma table_actions (table : gmap string EventDefinition) (n : string)
    (def : EventDefinition) :
  table_never_hands_over table = true ->
  table !! n = Some def ->
  forallb (fun a => negb (hands_authority_to_auto a)) (actions def) = true.
Proof.
  unfold table_never_hands_over. intros H Hn.
  rewrite forallb_forall in H.
  apply (H (n, def)). apply list_elem_of_In, elem_of_map_to_list. exact Hn.
Qed.

Lemma handler_body_manual (table : gmap string EventDefinition) (n : string)
    (m : Manager.ControllerManagerThread) :
  table_never_hands_over table = true ->
  manual_and_idle m ->
  manual_and_idle (Manager.handler_body table None n m).
Proof.
  intros Htab Hm. unfold Manager.handler_body.
  destruct (table !! n) as [def|] eqn:E; [|exact Hm].
  apply manual_run; [|exact (table_actions table n def Htab E)].
  exact Hm.
Qed.

Lemma runtime_step_manual (table : gmap string EventDefinition)
    (st : Runtime.Step) (sys : Runtime.System) :
  table_never_hands_over table = true ->
  keeps_manual_authority st = true ->
  manual_and_idle (Runtime.manager sys) ->
  manual_and_idle (Runtime.manager (Runtime.step table None st sys)).
Proof.
  intros Htab Hst Hm. destruct st as [|i|s]; cbn [Runtime.step].
  - destruct (Monitor.check_events _ _ _) as [mon b]. exact Hm.
  - destruct (Runtime.workers sys !! i) as [w|]; [|exact Hm].
    destruct (Runtime.worker_move table None w (Runtime.manager sys)
                (Runtime.bus sys)) as [[w' m'] b'] eqn:E.
    cbn [Runtime.manager].
    unfold Runtime.worker_move in E.
    destruct w as [|item [|[n] pending]|item n pending].
    + destruct (Bus.take _) as [[[? ?] ?]|]; inversion E; subst; exact Hm.
    + inversion E; subst; exact Hm.
    + destruct (Manager.isEventTriggered n (Runtime.manager sys));
        inversion E; subst; exact Hm.
    + inversion E; subst. now apply handler_body_manual.
  - cbn [keeps_manual_authority] in Hst. apply andb_true_iff in Hst.
    destruct Hst as [Ht Hb]. apply negb_true_iff in Ht, Hb.
    destruct Hm as (Hc & _ & _ & Hg). cbn [Runtime.manager].
    split; [exact Hc|]. split; [exact Ht|]. split; [exact Hb | exact Hg].
Qed.

(** X29. An event table without a mode switch never gets a gated
    controller running: when no action of the table is SWITCH_TO_AUTO_MODE
    or SWITCH_TO_SEMI_AUTO_MODE, the manager starts from a state in which
    the automatic system has no authority (as in the initial MANUAL mode)
    with the default action table and no state-change callback, and no
    other thread sets an authority flag, then in every schedule of monitor
    ticks, bus workers and state writes no throttle, cruise or brake
    controller is ever running: every START action of the table is
    refused. *)
Theorem no_controller_runs_without_mode_switch
    (table : gmap string EventDefinition) (steps : list Runtime.Step)
    (s : SharedStateSpace) (c : ActionsConfig.t) :
  table_never_hands_over table = true ->
  default_config c ->
  auto_system_has_throttle_control (control_auth s) = false ->
  auto_system_has_brake_control (control_auth s) = false ->
  forallb keeps_manual_authority steps = true ->
  let sys := Runtime.run table None steps (Runtime.initial table s c) in
  forall g, gated g = true ->
            Manager.controllers (Runtime.manager sys) !! g <> Some true.
Proof.
  intros Htab Hc Ht Hb Hsteps sys.
  assert (Hinv : manual_and_idle (Runtime.manager sys)).
  { subst sys.
    assert (H0 : manual_and_idle
                   (Runtime.manager (Runtime.initial table s c)))
      by (now apply created_manual_and_idle).
    revert H0 Hsteps. generalize (Runtime.initial table s c).
    induction steps as [|st steps IH]; intros sys0 H0 Hall; [exact H0|].
    cbn [forallb] in Hall. apply andb_true_iff in Hall.
    destruct Hall as [Hst Hall].
    unfold Runtime.run in *. cbn [fold_left]. apply IH; [|exact Hall].
    now apply runtime_step_manual. }
  destruct Hinv as (_ & _ & _ & H). exact H.
Qed.

Lemma no_controller_runs_without_mode_switch_witness :
  let table := Taxi_EVENT_DEFINITIONS 0.1 in
  let s1 := store_simulation_time 1
              (store_simulation_running true
                 (store_simulation_started true initial_state)) in
  let sys :=
    Runtime.run table None
      [Runtime.StateChange s1; Runtime.MonitorTick; Runtime.Worker 0;
       Runtime.Worker 1; Runtime.Worker 0; Runtime.Worker 1;
       Runtime.Worker 0; Runtime.Worker 1]
      (Runtime.initial table initial_state ActionsConfig.unloaded) in
  Manager.controllers (Runtime.manager sys) !! "油门增加" <> Some true
  /\ throttle_control_enabled (Manager.state (Runtime.manager sys)) = true.
Proof.
  intros table s1 sys. split.
  - apply (no_controller_runs_without_mode_switch table
             [Runtime.StateChange s1; Runtime.MonitorTick; Runtime.Worker 0;
              Runtime.Worker 1; Runtime.Worker 0; Runtime.Worker 1;
              Runtime.Worker 0; Runtime.Worker 1]
             initial_state ActionsConfig.unloaded).
    + vm_compute. reflexivity.
    + left. reflexivity.
    + reflexivity.
    + reflexivity.
    + reflexivity.
    + reflexivity.
  - vm_compute. reflexivity.
Defined.
